(** * AgentForger: command dispatch and the five-phase workflow pipeline

    A shallow embedding of the JavaScript sources of the dispatch engine
    (the orchestrators, [BaseWorkflow] and the category workflows of
    [.system/hooks]) and the properties proved about it.

    The repository holds several copies of some classes.  Each copy is
    embedded under a name of its own:
    - [Orchestrator] is [hooks/core/orchestrator.js] (message and system
      workflows only); [Orchestrator2] is the copy with session settings,
      whose class body defines [initialize] twice; [Orchestrator3] is the
      copy with the Global Context Store and the [save] and [context]
      parameters.
    - [BaseWorkflow] is [hooks/workflows/base.js]; [BaseWorkflowEarly] is
      the copy whose pipeline returns its local results.
    - [MessageWorkflow] is [hooks/workflows/message.js]; [MessageWorkflow2]
      is the copy that requires the message and overrides two more phases.
    - [SystemDeveloper] is the development tool [system-dev.js], which
      calls the orchestrator: its name generators, the reading of its
      command line and [validateSystemPipeline].  [Formatter] is
      [hooks/utilities/formatter.js], of which [formatTwitterOutput] is
      embedded.

    Conventions of the embedding.
    - A JavaScript value is a term of [value]; an object is an association
      list in insertion order ([obj]; the program uses no key that looks
      like an array index, which JavaScript would enumerate first); a
      character is an [ascii] (one UTF-16 code unit of the source string,
      exact for ASCII text).
    - A method body is a computation in the monad [M S]: it threads a state
      of type [S] and either returns a value or throws an [error].  State
      written before a [throw] survives it, as in JavaScript.  Objects are
      embedded by value; the aliases the program creates (the caller's
      [params], from which [save] and [context] are deleted, and the store
      array inside the result of [meta:context --list]) are not read again
      by the program.
    - A number is an integer ([VNum n]); fractions, [NaN] and the
      infinities are not values of the model.  [to_string] prints an integer
      as JavaScript prints the number written that way (module [Num]).
    - What the program asks of its host (the clock, the file-system queries
      about agent files, which may throw, [JSON.stringify], numeric
      conversion of text, the upper case of text outside ASCII) is collected
      in the record [Host]; every dispatch receives one.  [now] stands for
      the reads of the clock of one dispatch; the loop of [message:read],
      which reads the clock in every turn, has [nowAt].
    - [console.log] output is not part of the state, with one exception: the
      line [Phase: <name>] that [executePipeline] prints before each handler
      is kept as the ghost trace of the run ([PhaseEvent]). *)

From Stdlib Require Import Ascii String ZArith.
From stdpp Require Import base option list strings gmap pretty.

Open Scope string_scope.
Open Scope list_scope.

(* ===================================================================== *)
(** ** JavaScript values and objects *)
(* ===================================================================== *)

#[local] Set Warnings "-register-all".

Inductive value : Type :=
  | VUndefined
  | VNull
  | VBool (b : bool)
  | VNum (n : Z)
  | VStr (s : string)
  | VArr (l : list value)
  | VObj (o : list (string * value)).

Abbreviation obj := (list (string * value)).

(** [ToBoolean]: the falsy values are [undefined], [null], [false], [0]
    and the empty string. *)
Definition truthy (v : value) : bool :=
  match v with
  | VUndefined | VNull => false
  | VBool b => b
  | VNum n => negb (n =? 0)%Z
  | VStr s => negb (String.eqb s EmptyString)
  | VArr _ | VObj _ => true
  end.

(** [a || b] *)
Definition js_or (a b : value) : value := if truthy a then a else b.

(** [o[k]] : [undefined] when the key is absent. *)
Fixpoint get (k : string) (o : obj) : value :=
  match o with
  | [] => VUndefined
  | (k', v) :: o' => if String.eqb k k' then v else get k o'
  end.

Fixpoint has (k : string) (o : obj) : bool :=
  match o with
  | [] => false
  | (k', _) :: o' => if String.eqb k k' then true else has k o'
  end.

(** [o[k] = v] : an existing key keeps its position, a new one is appended. *)
Fixpoint set (k : string) (v : value) (o : obj) : obj :=
  match o with
  | [] => [(k, v)]
  | (k', v') :: o' =>
      if String.eqb k k' then (k, v) :: o' else (k', v') :: set k v o'
  end.

(** [delete o[k]] *)
Fixpoint delete_key (k : string) (o : obj) : obj :=
  match o with
  | [] => []
  | (k', v') :: o' =>
      if String.eqb k k' then delete_key k o' else (k', v') :: delete_key k o'
  end.

(** [Object.keys(o)] *)
Definition keys (o : obj) : list string := map fst o.

(** [{...a, ...b}] *)
Definition spread (a b : obj) : obj :=
  fold_left (fun acc kv => set (fst kv) (snd kv) acc) b a.

(* ===================================================================== *)
(** ** Strings *)
(* ===================================================================== *)

Module Str.

(** [s.startsWith(p)] and [s.endsWith(p)] *)
Definition startsWith (p s : string) : bool := String.prefix p s.
Definition endsWith (p s : string) : bool :=
  String.prefix (String.rev p) (String.rev s).

(** [s.split(c)] for a one-character separator. *)
Fixpoint split (c : ascii) (s : string) : list string :=
  match s with
  | EmptyString => [EmptyString]
  | String a s' =>
      if Ascii.eqb a c then EmptyString :: split c s'
      else match split c s' with
           | x :: xs => String a x :: xs
           | [] => [String a EmptyString]
           end
  end.

(** [l.join(sep)] on strings *)
Fixpoint join (sep : string) (l : list string) : string :=
  match l with
  | [] => EmptyString
  | [x] => x
  | x :: l' => x +:+ sep +:+ join sep l'
  end.

Definition upper (a : ascii) : ascii :=
  let n := Ascii.nat_of_ascii a in
  if (97 <=? n)%nat && (n <=? 122)%nat then Ascii.ascii_of_nat (n - 32) else a.

(** Whether every character of [s] is an ASCII character. *)
Fixpoint isAscii (s : string) : bool :=
  match s with
  | EmptyString => true
  | String a s' => (Ascii.nat_of_ascii a <? 128)%nat && isAscii s'
  end.

(** [s.toUpperCase()] for an ASCII text [s]: the letters a-z become A-Z.
    For other text see [js_toUpperCase]. *)
Fixpoint upperAscii (s : string) : string :=
  match s with
  | EmptyString => EmptyString
  | String a s' => String (upper a) (upperAscii s')
  end.

(** [phase.charAt(0).toUpperCase() + phase.slice(1)] *)
Definition capitalize (s : string) : string :=
  match s with
  | EmptyString => EmptyString
  | String a s' => String (upper a) s'
  end.

Definition is_ws (a : ascii) : bool :=
  let n := Ascii.nat_of_ascii a in
  (n =? 32)%nat || ((9 <=? n)%nat && (n <=? 13)%nat).

Fixpoint trimStart (s : string) : string :=
  match s with
  | EmptyString => EmptyString
  | String a s' => if is_ws a then trimStart s' else s
  end.

(** [s.trim()], on ASCII white space. *)
Definition trim (s : string) : string :=
  String.rev (trimStart (String.rev (trimStart s))).

(** [s.replace(p, '')] for a string pattern [p]: the first occurrence of
    [p] is removed. *)
Fixpoint removeFirst (p s : string) : string :=
  if String.prefix p s then String.substring (String.length p) (String.length s - String.length p) s
  else match s with
       | EmptyString => EmptyString
       | String a s' => String a (removeFirst p s')
       end.

End Str.

(** Numbers.  A number of the model is an integer.  Below [2^53] in
    magnitude JavaScript holds it exactly and prints its digits; a larger
    one stands for the nearest double, which is printed with the fewest
    digits that read back as the same double, in exponent form from [1e21]
    on, and as [Infinity] beyond the largest double. *)
Module Num.

(** The double nearest to the integer [a > 0] (ties to the even
    significand), as an integer. *)
Definition nearestDouble (a : Z) : Z :=
  let e := (Z.log2 a - 52)%Z in
  if (e <=? 0)%Z then a
  else
    let q := Z.shiftr a e in
    let r := (a - Z.shiftl q e)%Z in
    let half := Z.shiftl 1 (e - 1) in
    let q' := if (half <? r)%Z || ((r =? half)%Z && Z.odd q) then (q + 1)%Z else q in
    Z.shiftl q' e.

(** The integer with the fewest significant digits that reads back as the
    double [x >= 2^53]; of several, the one closest to [x].  [j] counts the
    trailing zeros that are tried. *)
Fixpoint shortest (x lo4 hi4 : Z) (inclusive : bool) (j : nat) : Z :=
  let p := (10 ^ Z.of_nat j)%Z in
  let low := (x / p * p)%Z in
  let high := (low + p)%Z in
  let inside v :=
    if inclusive then (lo4 <=? 4 * v)%Z && (4 * v <=? hi4)%Z
    else (lo4 <? 4 * v)%Z && (4 * v <? hi4)%Z in
  let found :=
    match inside low, inside high with
    | true, true =>
        Some (if (x - low <? high - x)%Z then low
              else if (high - x <? x - low)%Z then high
              else if Z.even (low / p) then low else high)
    | true, false => Some low
    | false, true => Some high
    | false, false => None
    end in
  match found, j with
  | Some v, _ => v
  | None, O => x
  | None, S j' => shortest x lo4 hi4 inclusive j'
  end.

Fixpoint dropTrailingZeros (s : string) : string :=
  match s with
  | EmptyString => EmptyString
  | String a s' =>
      let rest := dropTrailingZeros s' in
      if Ascii.eqb a "0" && String.eqb rest EmptyString then EmptyString
      else String a rest
  end.

(** The digits of [v > 0] as [Number::toString] lays them out: all of them
    below [1e21], and from there on the significant ones with an exponent. *)
Definition layout (v : Z) : string :=
  let digits := pretty v in
  if (v <? 10 ^ 21)%Z then digits
  else
    let exponent := pretty (Z.of_nat (String.length digits) - 1)%Z in
    match dropTrailingZeros digits with
    | String d EmptyString => String d EmptyString +:+ "e+" +:+ exponent
    | String d rest => String d ("." +:+ rest) +:+ "e+" +:+ exponent
    | EmptyString => digits
    end.

Definition magnitude (a : Z) : string :=
  if (a <? 2 ^ 53)%Z then pretty a
  else
    let x := nearestDouble a in
    if (2 ^ 1024 <=? x)%Z then "Infinity"
    else
      let e := (Z.log2 x - 52)%Z in
      let pow2 := (Z.shiftr x e =? 2 ^ 52)%Z in
      let lo4 := (4 * x - (if pow2 then Z.shiftl 1 e else Z.shiftl 1 (e + 1)))%Z in
      let hi4 := (4 * x + Z.shiftl 1 (e + 1))%Z in
      layout (shortest x lo4 hi4 (Z.even (Z.shiftr x e))
                (String.length (pretty x) - 1)).

(** [String(n)], also [`${n}`], for the number written as the integer [n]. *)
Definition toString (n : Z) : string :=
  if (n <? 0)%Z then "-" +:+ magnitude (- n) else magnitude n.

End Num.

Arguments Num.toString : simpl never.

(** Template-literal conversion [`${v}`] ([ToString]). *)
Fixpoint to_string (v : value) : string :=
  match v with
  | VUndefined => "undefined"
  | VNull => "null"
  | VBool true => "true"
  | VBool false => "false"
  | VNum n => Num.toString n
  | VStr s => s
  | VArr l =>
      Str.join ","
        (map (fun x => match x with
                       | VUndefined | VNull => EmptyString
                       | _ => to_string x
                       end) l)
  | VObj _ => "[object Object]"
  end.

(* ===================================================================== *)
(** ** Errors and the state-and-exception monad *)
(* ===================================================================== *)

Inductive error : Type :=
  | Error (msg : string)       (* [throw new Error(msg)] *)
  | TypeError (msg : string).  (* raised by the runtime *)

Inductive outcome (A : Type) : Type :=
  | Ok (a : A)
  | Throw (e : error).
Arguments Ok {A} a.
Arguments Throw {A} e.

Definition is_ok {A} (o : outcome A) : bool :=
  match o with Ok _ => true | Throw _ => false end.

Definition M (S A : Type) : Type := S -> outcome A * S.

Definition ret {S A} (a : A) : M S A := fun s => (Ok a, s).
Definition throw {S A} (e : error) : M S A := fun s => (Throw e, s).
Definition bind {S A B} (m : M S A) (k : A -> M S B) : M S B :=
  fun s => match m s with
           | (Ok a, s') => k a s'
           | (Throw e, s') => (Throw e, s')
           end.
Definition gets {S A} (f : S -> A) : M S A := fun s => (Ok (f s), s).
Definition modify {S} (f : S -> S) : M S unit := fun s => (Ok tt, f s).

Notation "'let*' x ':=' m 'in' k" := (bind m (fun x => k))
  (at level 10, x name, m at level 100, k at level 200).
Notation "m ';;;' k" := (bind m (fun _ => k))
  (at level 100, k at level 200, right associativity).

(** [if (c) throw e;] *)
Definition throw_if {S} (c : bool) (e : error) : M S unit :=
  if c then throw e else ret tt.

(** A call of the host that returns or throws. *)
Definition lift {S A} (o : outcome A) : M S A := fun s => (o, s).

(** [l.forEach(a => { ... })] collecting one value per element: the calls
    are made in order and the first throw ends the loop. *)
Fixpoint mapM {S A B} (f : A -> M S B) (l : list A) : M S (list B) :=
  match l with
  | [] => ret []
  | a :: l' =>
      let* b := f a in
      let* bs := mapM f l' in
      ret (b :: bs)
  end.

(* ===================================================================== *)
(** ** The host, the orchestrator's state and the execution context *)
(* ===================================================================== *)

(** What a dispatch reads from its environment. *)
Record Host : Type := {
  (** [new Date().toISOString()] *)
  now : string;
  (** [new Date().toISOString()] in turn [i] of a loop that reads the clock
      in every turn *)
  nowAt : nat -> string;
  (** [s.toUpperCase()] for a text [s] with a character outside ASCII *)
  toUpperCase : string -> string;
  (** [JSON.stringify(v, null, 2)] *)
  stringify : value -> string;
  (** [v > n] for a [v] that is not a number (the runtime's [ToNumber]) *)
  greaterThan : value -> Z -> bool;
  (** how many of [i = 0, 1, 2, ...] satisfy [i < v], for a [v] that is
      neither a number nor a boolean *)
  countBelow : value -> nat;
  (** [fs.existsSync(path.join(...segments))] *)
  existsSync : list string -> bool;
  (** [fs.readdirSync(path.join(...segments))]: the entries, or the error
      thrown (the path is not a directory, or may not be read) *)
  readdirSync : list string -> outcome (list string);
  (** [fs.readFileSync(path.join(...segments), 'utf8')]: the content, or
      the error thrown (the path is a directory, or may not be read) *)
  readFileSync : list string -> outcome string;
  (** [content.match(/description: (.+)/)], the captured group *)
  matchDescription : string -> option string;
  (** the error, if any, that creating the directory of a path and
      writing the file raises *)
  writeError : string -> option error;
}.

(** An entry of the Global Context Store: [{command, content, timestamp}]. *)
Record GlobalContextEntry : Type := {
  e_command : string;
  e_content : value;
  e_timestamp : string;
}.

Definition entry_value (e : GlobalContextEntry) : value :=
  VObj [("command", VStr (e_command e)); ("content", e_content e);
        ("timestamp", VStr (e_timestamp e))].

(** The mutable state a dispatch can reach: the fields of the orchestrator
    ([settings], and [context], the Global Context Store), the files written
    so far, and the [agents] and [templates] maps that [loadAgent] and
    [loadTemplate] create on a workflow instance. *)
Record World : Type := {
  w_settings : option obj;
  w_context : list GlobalContextEntry;
  w_files : gmap string string;
  w_agents : gmap string obj;
  w_templates : gmap string obj;
}.

Definition with_settings (v : option obj) (w : World) : World :=
  {| w_settings := v; w_context := w_context w; w_files := w_files w;
     w_agents := w_agents w; w_templates := w_templates w |}.
Definition with_context (v : list GlobalContextEntry) (w : World) : World :=
  {| w_settings := w_settings w; w_context := v; w_files := w_files w;
     w_agents := w_agents w; w_templates := w_templates w |}.
Definition with_files (v : gmap string string) (w : World) : World :=
  {| w_settings := w_settings w; w_context := w_context w; w_files := v;
     w_agents := w_agents w; w_templates := w_templates w |}.
Definition with_agents (v : gmap string obj) (w : World) : World :=
  {| w_settings := w_settings w; w_context := w_context w; w_files := w_files w;
     w_agents := v; w_templates := w_templates w |}.
Definition with_templates (v : gmap string obj) (w : World) : World :=
  {| w_settings := w_settings w; w_context := w_context w; w_files := w_files w;
     w_agents := w_agents w; w_templates := v |}.

(** The per-dispatch [context] object.  [globalContext] is a reference to
    the orchestrator's array and is read by no phase handler; the store
    itself lives in [World]. *)
Module Ctx.
Record t : Type := mk {
  command : string;
  params : obj;
  save : value;
  context : value;
  args : value;
  phaseResults : obj;
  result : value;
  personality : value;
  sourceContent : value;
  previousCritique : value;
  critique : value;
}.

Definition set_params v c :=
  mk (command c) v (save c) (context c) (args c) (phaseResults c) (result c)
     (personality c) (sourceContent c) (previousCritique c) (critique c).
Definition set_phaseResults v c :=
  mk (command c) (params c) (save c) (context c) (args c) v (result c)
     (personality c) (sourceContent c) (previousCritique c) (critique c).
Definition set_result v c :=
  mk (command c) (params c) (save c) (context c) (args c) (phaseResults c) v
     (personality c) (sourceContent c) (previousCritique c) (critique c).
Definition set_personality v c :=
  mk (command c) (params c) (save c) (context c) (args c) (phaseResults c)
     (result c) v (sourceContent c) (previousCritique c) (critique c).
Definition set_sourceContent v c :=
  mk (command c) (params c) (save c) (context c) (args c) (phaseResults c)
     (result c) (personality c) v (previousCritique c) (critique c).
Definition set_previousCritique v c :=
  mk (command c) (params c) (save c) (context c) (args c) (phaseResults c)
     (result c) (personality c) (sourceContent c) v (critique c).
Definition set_critique v c :=
  mk (command c) (params c) (save c) (context c) (args c) (phaseResults c)
     (result c) (personality c) (sourceContent c) (previousCritique c) v.
End Ctx.

(** The state of a running pipeline. *)
Record Run : Type := { ctx : Ctx.t; world : World }.

Definition getc {A} (f : Ctx.t -> A) : M Run A := gets (fun r => f (ctx r)).
Definition getw {A} (f : World -> A) : M Run A := gets (fun r => f (world r)).
Definition setc (f : Ctx.t -> Ctx.t) : M Run unit :=
  modify (fun r => {| ctx := f (ctx r); world := world r |}).
Definition setw (f : World -> World) : M Run unit :=
  modify (fun r => {| ctx := ctx r; world := f (world r) |}).

(** [v > n] *)
Definition js_gt (h : Host) (v : value) (n : Z) : bool :=
  match v with
  | VNum m => (n <? m)%Z
  | VUndefined => false
  | _ => greaterThan h v n
  end.

(** [s.toUpperCase()] *)
Definition js_toUpperCase (h : Host) (s : string) : string :=
  if Str.isAscii s then Str.upperAscii s else toUpperCase h s.

(** [v.length] *)
Definition js_length (v : value) : value :=
  match v with
  | VStr s => VNum (Z.of_nat (String.length s))
  | VArr l => VNum (Z.of_nat (length l))
  | VObj o => get "length" o
  | _ => VUndefined
  end.

(* ===================================================================== *)
(** ** Workflows: method tables with reflective phase dispatch *)
(* ===================================================================== *)

(** A phase handler: an [async] method taking the context. *)
Definition Handler : Type := Host -> M Run value.

(** A workflow instance: [metadata.name], [metadata.supportedCommands] and
    the methods found on the object by name. *)
Record Workflow : Type := {
  wf_name : string;
  wf_supportedCommands : list string;
  wf_methods : gmap string Handler;
}.

(** [class C extends P]: the subclass's definitions override the parent's. *)
Definition extends (parent : Workflow) (name : string) (cmds : list string)
    (defs : list (string * Handler)) : Workflow :=
  {| wf_name := name;
     wf_supportedCommands := cmds;
     wf_methods := fold_left (fun m d => <[fst d := snd d]> m) defs (wf_methods parent) |}.

(** [this.metadata.supportedCommands.includes(command)] *)
Definition isSupportedCommand (w : Workflow) (command : string) : bool :=
  bool_decide (command ∈ wf_supportedCommands w).

(** [this.phases], set by the [BaseWorkflow] constructor. *)
Definition phases : list string :=
  ["initialization"; "parameters"; "workflow"; "validation"; "output"].

(** [executePhase]: the handler is looked up under the name
    [execute<Phase>Phase]; a missing handler is the default no-op. *)
Definition executePhase (w : Workflow) (h : Host) (phase : string) : M Run value :=
  let methodName := "execute" +:+ Str.capitalize phase +:+ "Phase" in
  match wf_methods w !! methodName with
  | Some handler => handler h
  | None => ret (VObj [("status", VStr "completed"); ("phase", VStr phase)])
  end.

(** The ghost trace of a pipeline run. *)
Inductive PhaseEvent : Type :=
  | Started (phase : string)    (* the [Phase: <name>] line; the handler is called next *)
  | Finished (phase : string).  (* the handler returned and its result was recorded *)

Definition started (t : list PhaseEvent) : list string :=
  omap (fun e => match e with Started p => Some p | Finished _ => None end) t.

(** The [for (const phase of this.phases)] loop of [executePipeline]. *)
Fixpoint runPhases (w : Workflow) (h : Host) (ps : list string) (r : Run)
    : list PhaseEvent * (outcome unit * Run) :=
  match ps with
  | [] => ([], (Ok tt, r))
  | phase :: ps' =>
      match executePhase w h phase r with
      | (Ok result, r1) =>
          let r2 := {| ctx := Ctx.set_phaseResults
                                (set phase result (Ctx.phaseResults (ctx r1))) (ctx r1);
                       world := world r1 |} in
          let '(t, res) := runPhases w h ps' r2 in
          (Started phase :: Finished phase :: t, res)
      | (Throw e, r1) => ([Started phase], (Throw e, r1))
      end
  end.

(** [executePipeline] of [base.js]. *)
Definition executePipeline (w : Workflow) (h : Host) (r : Run)
    : list PhaseEvent * (outcome value * Run) :=
  let r0 := {| ctx := Ctx.set_phaseResults [] (ctx r); world := world r |} in
  match runPhases w h phases r0 with
  | (t, (Ok _, r1)) =>
      (t, (Ok (js_or (Ctx.result (ctx r1)) (VObj (Ctx.phaseResults (ctx r1)))), r1))
  | (t, (Throw e, r1)) => (t, (Throw e, r1))
  end.

(** [execute]: the [catch] block logs and rethrows. *)
Definition execute (w : Workflow) (h : Host) (r : Run)
    : list PhaseEvent * (outcome value * Run) :=
  executePipeline w h r.

(* ===================================================================== *)
(** ** BaseWorkflow ([base.js]) *)
(* ===================================================================== *)

Module BaseWorkflow.

(** [loadAgent], [loadTemplate] : [this.agents.set(name, {name, loaded: true})] *)
Definition loadAgent (agentName : string) : M Run unit :=
  setw (fun w => with_agents
    (<[agentName := [("name", VStr agentName); ("loaded", VBool true)]]> (w_agents w)) w).
Definition loadTemplate (templateName : string) : M Run unit :=
  setw (fun w => with_templates
    (<[templateName := [("name", VStr templateName); ("loaded", VBool true)]]> (w_templates w)) w).

(** [generateContent(template, params, agent)]: the stub reads
    [template.name] and [agent.name] for its log line. *)
Definition generateContent (template : option obj) (params : value)
    (agent : option obj) : M Run value :=
  match template, agent with
  | Some _, Some _ =>
      ret (VObj [("metadata", params);
                 ("overview", VStr "Sample overview of the critique");
                 ("understanding", VStr "Sample understanding summary");
                 ("critical_points", VArr [VStr "Point 1"; VStr "Point 2"]);
                 ("positive_points", VArr [VStr "Positive 1"; VStr "Positive 2"]);
                 ("questions", VArr [VStr "Question 1"]);
                 ("final_remarks", VArr [VStr "Remark 1"])])
  | _, _ => throw (TypeError "Cannot read properties of undefined (reading 'name')")
  end.

(** [validateWithRules(ruleSets, data)]: the stub accepts. *)
Definition validateWithRules (ruleSets : list string) : M Run value :=
  ret (VObj [("valid", VBool true); ("errors", VArr [])]).

(** [readFile(path)]: the stub *)
Definition readFile (path : value) : M Run value :=
  ret (VStr "Sample file content").

Definition executeInitializationPhase : Handler := fun _ =>
  ret (VObj [("status", VStr "initialized")]).

Definition executeParametersPhase : Handler := fun h =>
  let* save := getc Ctx.save in
  (if truthy save then
     match save with
     | VStr s =>
         throw_if (negb (Str.startsWith "/" s) || negb (Str.endsWith ".json" s))
           (Error "Save path must be absolute and end with .json")
     | _ => throw (TypeError "context.save.startsWith is not a function")
     end
   else ret tt) ;;;
  let* c := getc Ctx.context in
  throw_if (truthy c && js_gt h (js_length c) 1000)
    (Error "Context must be less than 1000 characters") ;;;
  let* p := getc Ctx.params in
  ret (VObj [("status", VStr "parameters_processed"); ("params", VObj p)]).

Definition executeWorkflowPhase : Handler := fun _ =>
  ret (VObj [("status", VStr "workflow_completed")]).

Definition executeValidationPhase : Handler := fun _ =>
  ret (VObj [("status", VStr "validated")]).

Definition executeOutputPhase : Handler := fun _ =>
  ret (VObj [("status", VStr "output_formatted")]).

Definition workflow : Workflow :=
  {| wf_name := "BaseWorkflow";
     wf_supportedCommands := [];
     wf_methods :=
       list_to_map
         [("executeInitializationPhase", executeInitializationPhase);
          ("executeParametersPhase", executeParametersPhase);
          ("executeWorkflowPhase", executeWorkflowPhase);
          ("executeValidationPhase", executeValidationPhase);
          ("executeOutputPhase", executeOutputPhase)] |}.

End BaseWorkflow.

(* ===================================================================== *)
(** ** BaseWorkflow, the earlier copy *)
(* ===================================================================== *)

(** The repository holds a second, earlier [BaseWorkflow]: its pipeline
    collects the phase results in a local object and returns that object,
    without looking at [context.result]; its parameters phase checks
    nothing.  The other handlers are those of [base.js]. *)
Module BaseWorkflowEarly.

Fixpoint runPhases (w : Workflow) (h : Host) (ps : list string) (results : obj) (r : Run)
    : list PhaseEvent * (outcome obj * Run) :=
  match ps with
  | [] => ([], (Ok results, r))
  | phase :: ps' =>
      match executePhase w h phase r with
      | (Ok result, r1) =>
          let '(t, res) := runPhases w h ps' (set phase result results) r1 in
          (Started phase :: Finished phase :: t, res)
      | (Throw e, r1) => ([Started phase], (Throw e, r1))
      end
  end.

Definition executePipeline (w : Workflow) (h : Host) (r : Run)
    : list PhaseEvent * (outcome value * Run) :=
  match runPhases w h phases [] r with
  | (t, (Ok results, r1)) => (t, (Ok (VObj results), r1))
  | (t, (Throw e, r1)) => (t, (Throw e, r1))
  end.

Definition executeParametersPhase : Handler := fun _ =>
  let* p := getc Ctx.params in
  ret (VObj [("status", VStr "parameters_processed"); ("params", VObj p)]).

Definition workflow : Workflow :=
  {| wf_name := "BaseWorkflow";
     wf_supportedCommands := [];
     wf_methods :=
       list_to_map
         [("executeInitializationPhase", BaseWorkflow.executeInitializationPhase);
          ("executeParametersPhase", executeParametersPhase);
          ("executeWorkflowPhase", BaseWorkflow.executeWorkflowPhase);
          ("executeValidationPhase", BaseWorkflow.executeValidationPhase);
          ("executeOutputPhase", BaseWorkflow.executeOutputPhase)] |}.

End BaseWorkflowEarly.

(* ===================================================================== *)
(** ** Helpers shared by the category workflows *)
(* ===================================================================== *)

(** The double-quote character and the line feed. *)
Definition dq : string := String (Ascii.ascii_of_nat 34) EmptyString.
Definition nl : string := String (Ascii.ascii_of_nat 10) EmptyString.

(** [v.k] on a value that is an object ([undefined] otherwise). *)
Definition prop (k : string) (v : value) : value :=
  match v with
  | VObj o => get k o
  | _ => VUndefined
  end.

(** [l.join(sep)] on an array of values. *)
Definition arr_join (sep : string) (l : list value) : string :=
  Str.join sep (map (fun x => match x with
                              | VUndefined | VNull => EmptyString
                              | _ => to_string x
                              end) l).

(** [a === b] against a string constant. *)
Definition is_str (s : string) (v : value) : bool :=
  match v with
  | VStr s' => String.eqb s s'
  | _ => false
  end.

(** [list.includes(v)] for a list of string constants. *)
Definition includes (l : list string) (v : value) : bool :=
  existsb (fun s => is_str s v) l.

(** [this.orchestrator.settings = this.orchestrator.settings || {};
     this.orchestrator.settings[k] = v] *)
Definition setSetting (k : string) (v : value) : M Run unit :=
  setw (fun w => with_settings (Some (set k v (default [] (w_settings w)))) w).

(* ===================================================================== *)
(** ** MessageWorkflow ([message.js]) *)
(* ===================================================================== *)

Module MessageWorkflow.

Definition handleNewMessage : Handler := fun h =>
  let* p := getc Ctx.params in
  let message :=
    VObj [("content", get "message" p);
          ("to", get "to" p);
          ("timestamp", VStr (now h));
          ("formattedContent",
           VStr ("Message: " +:+ to_string (get "message" p) +:+
                 " (to: " +:+ to_string (get "to" p) +:+ ")"))] in
  ret (VObj [("success", VBool true); ("action", VStr "created");
             ("message", message)]).

(** The number of turns of [for (let i = 0; i < count; i++)], for a
    [count] that the counter reaches: an integer of at most [2^53] (a
    number of the model), a boolean, or what the host converts. *)
Definition iterations (h : Host) (count : value) : nat :=
  match count with
  | VNum n => Z.to_nat n
  | VBool b => if b then 1 else 0
  | v => countBelow h v
  end.

(** The message pushed in turn [i]; each turn reads the clock. *)
Definition sampleMessage (h : Host) (i : nat) : value :=
  VObj [("id", VNum (Z.of_nat i + 1));
        ("content", VStr ("Sample message " +:+ Num.toString (Z.of_nat i + 1)));
        ("timestamp", VStr (nowAt h i))].

Definition handleReadMessages : Handler := fun h =>
  let* p := getc Ctx.params in
  let count := js_or (get "count" p) (VNum 5) in
  let messages := map (sampleMessage h) (seq 0 (iterations h count)) in
  ret (VObj [("success", VBool true); ("action", VStr "read");
             ("messages", VArr messages); ("count", count)]).

Definition executeWorkflowPhase : Handler := fun h =>
  let* command := getc Ctx.command in
  if String.eqb command "message:new" then handleNewMessage h
  else if String.eqb command "message:read" then handleReadMessages h
  else ret VUndefined.

Definition workflow : Workflow :=
  extends BaseWorkflow.workflow "MessageWorkflow"
    ["message:new"; "message:read"]
    [("executeWorkflowPhase", executeWorkflowPhase)].

End MessageWorkflow.

(* ===================================================================== *)
(** ** MessageWorkflow, the copy that checks its parameters *)
(* ===================================================================== *)

(** The second copy of [MessageWorkflow] in the repository: it reads the
    message from positional arguments, requires it, defaults the target
    agent, and overrides the validation and output phases.  Its output
    phase calls [this.executeUtilities], which no [BaseWorkflow] of the
    repository defines. *)
Module MessageWorkflow2.

Definition required_message : string :=
  "Message content is required. Use --message " +:+ dq +:+ "your message" +:+ dq
  +:+ " or provide it as a positional argument.".

Definition handleNewMessage : Handler := fun h =>
  let* p := getc Ctx.params in
  let* args := getc Ctx.args in
  let* messageContent :=
    (if negb (truthy (get "message" p)) && truthy args
        && js_gt h (js_length args) 0
     then match args with
          | VArr l => ret (VStr (arr_join " " l))
          | _ => throw (TypeError "context.args.join is not a function")
          end
     else ret (get "message" p)) in
  throw_if (negb (truthy messageContent)) (Error required_message) ;;;
  let targetAgent := js_or (get "to" p) (VStr "discussion-moderator") in
  let message :=
    VObj [("content", messageContent);
          ("to", targetAgent);
          ("timestamp", VStr (now h));
          ("formattedContent",
           VStr ("Message: " +:+ to_string messageContent +:+
                 " (to: " +:+ to_string targetAgent +:+ ")"))] in
  ret (VObj [("success", VBool true); ("action", VStr "created");
             ("message", message)]).

Definition executeWorkflowPhase : Handler := fun h =>
  let* command := getc Ctx.command in
  if String.eqb command "message:new" then handleNewMessage h
  else if String.eqb command "message:read" then MessageWorkflow.handleReadMessages h
  else ret VUndefined.

Definition executeValidationPhase : Handler := fun h =>
  let* validation := BaseWorkflow.validateWithRules ["message"] in
  throw_if (negb (truthy (prop "valid" validation)))
    (Error ("Validation failed: " +:+
            match prop "errors" validation with
            | VArr l => arr_join ", " l
            | _ => EmptyString
            end)) ;;;
  ret validation.

Definition executeOutputPhase : Handler := fun h =>
  let* command := getc Ctx.command in
  let* result := getc Ctx.result in
  if String.eqb command "message:new" then
    match result with
    | VUndefined | VNull =>
        throw (TypeError "Cannot read properties of undefined (reading 'message')")
    | _ =>
        match prop "message" result with
        | VUndefined | VNull =>
            throw (TypeError "Cannot read properties of undefined (reading 'content')")
        | _ => throw (TypeError "this.executeUtilities is not a function")
        end
    end
  else ret result.

Definition workflow : Workflow :=
  extends BaseWorkflow.workflow "MessageWorkflow"
    ["message:new"; "message:read"]
    [("executeWorkflowPhase", executeWorkflowPhase);
     ("executeValidationPhase", executeValidationPhase);
     ("executeOutputPhase", executeOutputPhase)].

End MessageWorkflow2.

(* ===================================================================== *)
(** ** SystemWorkflow *)
(* ===================================================================== *)

Module SystemWorkflow.

Definition handleSystemOn : Handler := fun h =>
  let systemStatus :=
    VObj [("initialized", VBool true);
          ("timestamp", VStr (now h));
          ("agents_loaded", VNum 1);
          ("workflows_loaded", VNum 2);
          ("commands_available", VNum 5);
          ("templates_loaded", VNum 1);
          ("utilities_loaded", VNum 11)] in
  ret (VObj [("success", VBool true); ("action", VStr "initialized");
             ("status", systemStatus);
             ("message", VStr "Agent Forger system initialized successfully")]).

Definition handleSystemHealth : Handler := fun h =>
  let* p := getc Ctx.params in
  let verbose := js_or (get "verbose" p) (VBool false) in
  let healthStatus :=
    [("overall", VStr "healthy");
     ("timestamp", VStr (now h));
     ("checks", VObj [("configuration", VStr "passed");
                      ("agents", VStr "passed");
                      ("workflows", VStr "passed");
                      ("commands", VStr "passed");
                      ("filesystem", VStr "passed")])] in
  let healthStatus :=
    if truthy verbose then
      set "details"
        (VObj [("agents_count", VNum 1);
               ("workflows_count", VNum 2);
               ("commands_count", VNum 5);
               ("system_uptime", VStr "simulated");
               ("memory_usage", VStr "normal")]) healthStatus
    else healthStatus in
  ret (VObj [("success", VBool true); ("action", VStr "health_check");
             ("status", VObj healthStatus); ("verbose", verbose)]).

Definition agents : list string := ["discussion-moderator"].
Definition workflows : list string := ["message"; "system"].
Definition commands : list string :=
  ["message:new"; "message:read"; "system:on"; "system:health"; "system:manifest"].
Definition templates : list string := ["conversation-thread"].
Definition utilities : list string :=
  ["text processing"; "file operations"; "system monitoring"; "validation"; "formatting"].
Definition capabilities : list string :=
  ["Multi-agent collaboration"; "Structured AI workflows"; "Quality assurance";
   "Extensible architecture"; "Command-line interface"].

Definition manifest : obj :=
  [("name", VStr "Agent Forger");
   ("version", VStr "1.0.0");
   ("description", VStr "Meta-system for forging AI agents with structured workflows");
   ("architecture", VStr "pipeline-based");
   ("components",
    VObj [("agents", VArr (map VStr agents));
          ("workflows", VArr (map VStr workflows));
          ("commands", VArr (map VStr commands));
          ("templates", VArr (map VStr templates));
          ("utilities", VArr (map VStr utilities))]);
   ("capabilities", VArr (map VStr capabilities))].

Definition textManifest : string :=
  Str.trim
    (nl +:+ "Agent Forger v" +:+ to_string (get "version" manifest) +:+ nl +:+
     to_string (get "description" manifest) +:+ nl +:+ nl +:+
     "Architecture: " +:+ to_string (get "architecture" manifest) +:+ nl +:+ nl +:+
     "Components:" +:+ nl +:+
     "- Agents: " +:+ Str.join ", " agents +:+ nl +:+
     "- Workflows: " +:+ Str.join ", " workflows +:+ nl +:+
     "- Commands: " +:+ pretty (length commands) +:+ " available" +:+ nl +:+
     "- Templates: " +:+ Str.join ", " templates +:+ nl +:+
     "- Utilities: " +:+ Str.join ", " utilities +:+ nl +:+ nl +:+
     "Capabilities:" +:+ nl +:+
     Str.join nl (map (fun cap => "- " +:+ cap) capabilities) +:+ nl +:+
     "      ").

Definition handleSystemManifest : Handler := fun h =>
  let* p := getc Ctx.params in
  let format := js_or (get "format" p) (VStr "text") in
  if is_str "json" format then
    ret (VObj [("success", VBool true); ("action", VStr "manifest");
               ("format", VStr "json"); ("data", VObj manifest)])
  else
    ret (VObj [("success", VBool true); ("action", VStr "manifest");
               ("format", VStr "text"); ("data", VStr textManifest)]).

Definition executeWorkflowPhase : Handler := fun h =>
  let* command := getc Ctx.command in
  if String.eqb command "system:on" then handleSystemOn h
  else if String.eqb command "system:health" then handleSystemHealth h
  else if String.eqb command "system:manifest" then handleSystemManifest h
  else ret VUndefined.

Definition workflow : Workflow :=
  extends BaseWorkflow.workflow "SystemWorkflow"
    ["system:on"; "system:health"; "system:manifest"]
    [("executeWorkflowPhase", executeWorkflowPhase)].

End SystemWorkflow.

(* ===================================================================== *)
(** ** AgentWorkflow *)
(* ===================================================================== *)

Module AgentWorkflow.

Definition handleSwitch : Handler := fun h =>
  let* p := getc Ctx.params in
  let agentName := get "name" p in
  throw_if (negb (truthy agentName))
    (Error ("Agent name is required. Use --name " +:+ dq +:+ "agent-name" +:+ dq)) ;;;
  throw_if (negb (existsSync h [".system"; "agents"; to_string agentName +:+ ".md"]))
    (Error ("Agent " +:+ dq +:+ to_string agentName +:+ dq +:+ " not found")) ;;;
  setSetting "activeAgent" agentName ;;;
  ret (VObj [("success", VBool true); ("action", VStr "switched_agent");
             ("agent", agentName)]).

Definition handleStatus : Handler := fun h =>
  let* s := getw w_settings in
  let settings := default [] s in
  ret (VObj [("success", VBool true); ("action", VStr "status");
             ("activeAgent", js_or (get "activeAgent" settings) (VStr "discussion-moderator"));
             ("verbosity", js_or (get "verbosity" settings) (VStr "off"));
             ("format", js_or (get "format" settings) (VStr "text"))]).

Definition agentsDir : list string := [".system"; "agents"].

(** The body of the [forEach] for a file that ends in [.md]. *)
Definition describe (h : Host) (file : string) : M Run value :=
  let* content := lift (readFileSync h (agentsDir ++ [file])) in
  ret (VObj [("name", VStr (Str.removeFirst ".md" file));
             ("description",
              VStr (default "No description" (matchDescription h content)))]).

Definition handleList : Handler := fun h =>
  let* agents :=
    (if existsSync h agentsDir then
       let* files := lift (readdirSync h agentsDir) in
       mapM (describe h) (filter (fun file => Is_true (Str.endsWith ".md" file)) files)
     else ret []) in
  ret (VObj [("success", VBool true); ("action", VStr "list_agents");
             ("agents", VArr agents)]).

Definition handleReset : Handler := fun h =>
  setw (with_settings (Some [("activeAgent", VStr "discussion-moderator");
                             ("verbosity", VStr "off");
                             ("format", VStr "text")])) ;;;
  ret (VObj [("success", VBool true); ("action", VStr "reset");
             ("message", VStr "Agent settings reset to defaults")]).

Definition executeWorkflowPhase : Handler := fun h =>
  let* command := getc Ctx.command in
  if String.eqb command "agent:switch" then handleSwitch h
  else if String.eqb command "agent:status" then handleStatus h
  else if String.eqb command "agent:list" then handleList h
  else if String.eqb command "agent:reset" then handleReset h
  else ret VUndefined.

Definition workflow : Workflow :=
  extends BaseWorkflow.workflow "AgentWorkflow"
    ["agent:switch"; "agent:status"; "agent:list"; "agent:reset"]
    [("executeWorkflowPhase", executeWorkflowPhase)].

End AgentWorkflow.

(* ===================================================================== *)
(** ** MetaWorkflow ([meta.js]) *)
(* ===================================================================== *)

Module MetaWorkflow.

Definition handleContext : Handler := fun h =>
  let* p := getc Ctx.params in
  let* command := getc Ctx.command in
  if truthy (get "add" p) then
    setw (fun w => with_context
      (w_context w ++ [{| e_command := command; e_content := get "add" p;
                          e_timestamp := now h |}]) w) ;;;
    ret (VObj [("success", VBool true); ("action", VStr "context_added");
               ("content", get "add" p)])
  else if truthy (get "list" p) then
    let* store := getw w_context in
    ret (VObj [("success", VBool true); ("action", VStr "context_listed");
               ("context", VArr (map entry_value store))])
  else if truthy (get "clear" p) then
    let* store := getw w_context in
    setw (with_context []) ;;;
    ret (VObj [("success", VBool true); ("action", VStr "context_cleared");
               ("clearedCount", VNum (Z.of_nat (length store)))])
  else throw (Error "Specify --add, --list, or --clear for meta:context command").

Definition executeWorkflowPhase : Handler := fun h =>
  let* command := getc Ctx.command in
  if String.eqb command "meta:context" then handleContext h
  else ret VUndefined.

Definition workflow : Workflow :=
  extends BaseWorkflow.workflow "MetaWorkflow"
    ["meta:context"]
    [("executeWorkflowPhase", executeWorkflowPhase)].

End MetaWorkflow.

(* ===================================================================== *)
(** ** OutputWorkflow ([output.js]) *)
(* ===================================================================== *)

Module OutputWorkflow.

Definition validLevels : list string := ["low"; "medium"; "high"; "off"].
Definition validTypes : list string := ["json"; "markdown"; "text"].

Definition descriptions : obj :=
  [("low", VStr "~140 characters (concise)");
   ("medium", VStr "~520 characters (balanced)");
   ("high", VStr "~740 characters (detailed)");
   ("off", VStr "unrestricted length")].

Definition invalid_level : string :=
  "Invalid verbosity level. Valid options: " +:+ Str.join ", " validLevels.
Definition invalid_type : string :=
  "Invalid format type. Valid options: " +:+ Str.join ", " validTypes.

Definition handleVerbosity : Handler := fun h =>
  let* p := getc Ctx.params in
  let level := get "level" p in
  throw_if (negb (includes validLevels level)) (Error invalid_level) ;;;
  setSetting "verbosity" level ;;;
  ret (VObj [("success", VBool true); ("action", VStr "set_verbosity");
             ("level", level);
             ("description", get (to_string level) descriptions)]).

Definition handleFormat : Handler := fun h =>
  let* p := getc Ctx.params in
  let type := get "type" p in
  throw_if (negb (includes validTypes type)) (Error invalid_type) ;;;
  setSetting "format" type ;;;
  ret (VObj [("success", VBool true); ("action", VStr "set_format");
             ("type", type)]).

Definition executeWorkflowPhase : Handler := fun h =>
  let* command := getc Ctx.command in
  if String.eqb command "output:verbosity" then handleVerbosity h
  else if String.eqb command "output:format" then handleFormat h
  else ret VUndefined.

Definition workflow : Workflow :=
  extends BaseWorkflow.workflow "OutputWorkflow"
    ["output:verbosity"; "output:format"]
    [("executeWorkflowPhase", executeWorkflowPhase)].

End OutputWorkflow.

(* ===================================================================== *)
(** ** CriticWorkflow ([critic.js]) *)
(* ===================================================================== *)

Module CriticWorkflow.

(** [context.command.split(':')[1]] *)
Definition personalityOf (command : string) : value :=
  match Str.split ":" command with
  | _ :: p :: _ => VStr p
  | _ => VUndefined
  end.

Definition executeInitializationPhase : Handler := fun h =>
  let* command := getc Ctx.command in
  let personality := personalityOf command in
  setc (Ctx.set_personality personality) ;;;
  BaseWorkflow.loadAgent (to_string personality +:+ "-critic") ;;;
  BaseWorkflow.loadTemplate "critic-report" ;;;
  ret (VObj [("status", VStr "initialized"); ("personality", personality)]).

(** [context.params[k] = v] *)
Definition setParam (k : string) (v : value) : M Run unit :=
  setc (fun c => Ctx.set_params (set k v (Ctx.params c)) c).

(** The override does not call the inherited parameters phase. *)
Definition executeParametersPhase : Handler := fun h =>
  let* p := getc Ctx.params in
  throw_if (negb (truthy (get "source" p))) (Error "Source parameter is required") ;;;
  setParam "domain" (js_or (get "domain" p) (VStr "general")) ;;;
  setParam "audience" (js_or (get "audience" p) (VStr "general")) ;;;
  (if truthy (get "focus" p) then
     match get "focus" p with
     | VStr f => setParam "focus" (VArr (map (fun x => VStr (Str.trim x)) (Str.split "," f)))
     | _ => throw (TypeError "context.params.focus.split is not a function")
     end
   else ret tt) ;;;
  (match get "source" p with
   | VStr s =>
       if Str.startsWith "/" s then
         let* content := BaseWorkflow.readFile (VStr s) in
         setc (Ctx.set_sourceContent content)
       else setc (Ctx.set_sourceContent (VStr s))
   | _ => throw (TypeError "context.params.source.startsWith is not a function")
   end) ;;;
  (if truthy (get "compare" p) then
     let* previous := BaseWorkflow.readFile (get "compare" p) in
     setc (Ctx.set_previousCritique previous)
   else ret tt) ;;;
  ret (VObj [("status", VStr "parameters_processed")]).

Definition executeWorkflowPhase : Handler := fun h =>
  let* c := getc id in
  let p := Ctx.params c in
  let contentData :=
    VObj [("content", Ctx.sourceContent c);
          ("domain", get "domain" p);
          ("focus", js_or (get "focus" p) (VArr []));
          ("audience", get "audience" p);
          ("personality", Ctx.personality c);
          ("previousCritique", js_or (Ctx.previousCritique c) VNull);
          ("userContext", js_or (Ctx.context c) VNull)] in
  let* templates := getw w_templates in
  let* agents := getw w_agents in
  let* critique :=
    BaseWorkflow.generateContent (templates !! "critic-report") contentData
      (agents !! (to_string (Ctx.personality c) +:+ "-critic")) in
  setc (Ctx.set_critique critique) ;;;
  ret (VObj [("status", VStr "critique_generated")]).

Definition executeValidationPhase : Handler := fun h =>
  let* validation := BaseWorkflow.validateWithRules ["critic"] in
  throw_if (negb (truthy (prop "valid" validation)))
    (Error ("Validation failed: " +:+
            match prop "errors" validation with
            | VArr l => arr_join ", " l
            | _ => EmptyString
            end)) ;;;
  ret (VObj [("status", VStr "validated")]).

(** [if (v) report += `**Title:** ${v}\n\n`] *)
Definition line (title : string) (v : value) : string :=
  if truthy v then title +:+ to_string v +:+ nl +:+ nl else EmptyString.

(** [if (v && v.length > 0) { report += title; v.forEach(...); report += '\n' }],
    for the arrays that [generateContent] returns. *)
Definition bullets (title : string) (v : value) : string :=
  match v with
  | VArr (x :: l) =>
      title +:+ nl +:+
      String.concat EmptyString (map (fun point => "- " +:+ to_string point +:+ nl) (x :: l)) +:+ nl
  | _ => EmptyString
  end.

(** [formatCritiqueReport(critique, params)]; [this.metadata.name] is the
    inherited ["BaseWorkflow"], the constructor sets the command list only. *)
Definition formatCritiqueReport (h : Host) (critique : value) (domain : string) : string :=
  "# " +:+ js_toUpperCase h domain +:+ " CRITIQUE (" +:+ "BaseWorkflow" +:+ ")" +:+ nl +:+ nl +:+
  (if truthy (prop "metadata" critique)
   then "**Metadata:** " +:+ stringify h (prop "metadata" critique) +:+ nl +:+ nl
   else EmptyString) +:+
  line "**Overview:** " (prop "overview" critique) +:+
  line "**What I Understood:** " (prop "understanding" critique) +:+
  bullets "**Critical Points:**" (prop "critical_points" critique) +:+
  bullets "**Positive Points:**" (prop "positive_points" critique) +:+
  bullets "**Questions for Clarification:**" (prop "questions" critique) +:+
  bullets "**Final Remarks:**" (prop "final_remarks" critique).

Definition executeOutputPhase : Handler := fun h =>
  let* c := getc id in
  match get "domain" (Ctx.params c) with
  | VStr domain =>
      let report := formatCritiqueReport h (Ctx.critique c) domain in
      setc (Ctx.set_result
              (VObj [("personality", Ctx.personality c);
                     ("domain", VStr domain);
                     ("report", VStr report)])) ;;;
      ret (VObj [("status", VStr "output_formatted")])
  | _ => throw (TypeError "params.domain.toUpperCase is not a function")
  end.

Definition workflow : Workflow :=
  extends BaseWorkflow.workflow "BaseWorkflow"
    ["critic:harsh"; "critic:mentor"; "critic:casual"]
    [("executeInitializationPhase", executeInitializationPhase);
     ("executeParametersPhase", executeParametersPhase);
     ("executeWorkflowPhase", executeWorkflowPhase);
     ("executeValidationPhase", executeValidationPhase);
     ("executeOutputPhase", executeOutputPhase)].

End CriticWorkflow.

(* ===================================================================== *)
(** ** The orchestrators *)
(* ===================================================================== *)

(** [this.workflows], a [Map] from category to workflow instance. *)
Abbreviation Registry := (gmap string Workflow).

(** [const [category] = command.split(':')] *)
Definition categoryOf (command : string) : string :=
  hd EmptyString (Str.split ":" command).

Definition unknown_category (category : string) : error :=
  Error ("No workflow found for category: " +:+ category).
Definition unsupported_command (command : string) : error :=
  Error ("Command not supported: " +:+ command).

(** The result of a dispatch: the ghost trace of the phases, the outcome
    and the state left behind. *)
Definition Dispatch : Type := list PhaseEvent * (outcome value * World).

(** A class body is a sequence of method definitions; a later definition
    of a name replaces an earlier one. *)
Definition classMethods {A} (body : list (string * A)) : gmap string A :=
  fold_left (fun m d => <[fst d := snd d]> m) body ∅.

(** [this.workflows.set(category, workflow)] *)
Definition register (category : string) (w : Workflow) (r : Registry) : Registry :=
  <[category := w]> r.

Definition defaultSettings : obj :=
  [("activeAgent", VStr "discussion-moderator");
   ("verbosity", VStr "off");
   ("format", VStr "text")].

Definition emptyContext (command : string) (params : obj) : Ctx.t :=
  Ctx.mk command params VUndefined VUndefined VUndefined [] VUndefined
         VUndefined VUndefined VUndefined VUndefined.

(** *** [orchestrator.js] *)
Module Orchestrator.

Definition initialize (r : Registry) : Registry :=
  register "system" SystemWorkflow.workflow
    (register "message" MessageWorkflow.workflow r).

(** [constructor] *)
Definition workflows : Registry := initialize ∅.

Definition initialWorld : World :=
  {| w_settings := None; w_context := []; w_files := ∅;
     w_agents := ∅; w_templates := ∅ |}.

Definition executeCommand (reg : Registry) (h : Host) (command : string)
    (params : obj) (w : World) : Dispatch :=
  let category := categoryOf command in
  match reg !! category with
  | None => ([], (Throw (unknown_category category), w))
  | Some workflow =>
      if negb (isSupportedCommand workflow command)
      then ([], (Throw (unsupported_command command), w))
      else
        let context := emptyContext command params in
        let '(t, (result, r)) := execute workflow h {| ctx := context; world := w |} in
        (t, (result, world r))
  end.

End Orchestrator.

(** *** The orchestrator with session settings

    Its class body defines [initialize] twice.  [EmailWorkflow] is required
    from a file that is not part of the sources and stays a parameter. *)
Module Orchestrator2.
Section WithEmail.

Variable EmailWorkflow : Workflow.

Definition loadDefaultSettings : obj := defaultSettings.

(** The first definition of [initialize] (five workflows). *)
Definition initialize_1 (r : Registry) : Registry :=
  register "agent" AgentWorkflow.workflow
    (register "output" OutputWorkflow.workflow
      (register "email" EmailWorkflow
        (register "system" SystemWorkflow.workflow
          (register "message" MessageWorkflow.workflow r)))).

(** The second definition of [initialize] (two workflows). *)
Definition initialize_2 (r : Registry) : Registry :=
  register "system" SystemWorkflow.workflow
    (register "message" MessageWorkflow.workflow r).

(** The method definitions of the class body that mutate the registry,
    in source order. *)
Definition classBody : list (string * (Registry -> Registry)) :=
  [("initialize", initialize_1); ("initialize", initialize_2)].

(** [this.initialize]: the method the class ends up with. *)
Definition initialize : Registry -> Registry :=
  default id (classMethods classBody !! "initialize").

(** [constructor] *)
Definition workflows : Registry := initialize ∅.

Definition initialWorld : World :=
  {| w_settings := Some loadDefaultSettings; w_context := []; w_files := ∅;
     w_agents := ∅; w_templates := ∅ |}.

(** [executeCommand] is the one of [orchestrator.js]. *)
Definition executeCommand := Orchestrator.executeCommand.

End WithEmail.
End Orchestrator2.

(** *** The orchestrator with the Global Context Store and [--save] *)
Module Orchestrator3.

(** The two copies of [MessageWorkflow] in the repository. *)
Inductive MessageCopy : Type := Plain | Checking.

Definition messageWorkflow (m : MessageCopy) : Workflow :=
  match m with
  | Plain => MessageWorkflow.workflow
  | Checking => MessageWorkflow2.workflow
  end.

Definition initialize (m : MessageCopy) (r : Registry) : Registry :=
  register "critic" CriticWorkflow.workflow
    (register "meta" MetaWorkflow.workflow
      (register "agent" AgentWorkflow.workflow
        (register "system" SystemWorkflow.workflow
          (register "message" (messageWorkflow m) r)))).

(** [constructor] *)
Definition workflows (m : MessageCopy) : Registry := initialize m ∅.

Definition initialWorld : World :=
  {| w_settings := Some defaultSettings; w_context := []; w_files := ∅;
     w_agents := ∅; w_templates := ∅ |}.

(** The first block of [executeCommand]: [save] and [context] move from
    [params] to [globalParams], and [context] is pushed on the store. *)
Definition extractSave (params globalParams : obj) : obj * obj :=
  if truthy (get "save" params)
  then (delete_key "save" params, set "save" (get "save" params) globalParams)
  else (params, globalParams).

Definition extractContext (params globalParams : obj) : obj * obj :=
  if truthy (get "context" params)
  then (delete_key "context" params, set "context" (get "context" params) globalParams)
  else (params, globalParams).

Definition pushContext (h : Host) (command : string) (params : obj) (w : World) : World :=
  if truthy (get "context" params)
  then with_context
         (w_context w ++ [{| e_command := command; e_content := get "context" params;
                             e_timestamp := now h |}]) w
  else w.

(** [savePipelineData(filePath, data)] *)
Definition savePipelineData (h : Host) (filePath : value) (data : value)
    (w : World) : outcome unit * World :=
  match filePath with
  | VStr path =>
      match writeError h path with
      | Some e => (Throw e, w)
      | None => (Ok tt, with_files (<[path := stringify h data]> (w_files w)) w)
      end
  | _ => (Throw (TypeError "The path argument must be of type string"), w)
  end.

(** The record handed to [savePipelineData]. *)
Definition pipelineData (h : Host) (c : Ctx.t) (globalParams : obj) (result : value) : value :=
  VObj [("command", VStr (Ctx.command c));
        ("params", VObj (Ctx.params c));
        ("globalParams", VObj globalParams);
        ("phaseResults", VObj (Ctx.phaseResults c));
        ("result", result);
        ("timestamp", VStr (now h))].

Definition executeCommand (reg : Registry) (h : Host) (command : string)
    (params : obj) (w : World) : Dispatch :=
  let '(params1, globalParams1) := extractSave params [] in
  let w1 := pushContext h command params1 w in
  let '(params2, globalParams) := extractContext params1 globalParams1 in
  let category := categoryOf command in
  match reg !! category with
  | None => ([], (Throw (unknown_category category), w1))
  | Some workflow =>
      if negb (isSupportedCommand workflow command)
      then ([], (Throw (unsupported_command command), w1))
      else
        let context :=
          Ctx.mk command params2 (get "save" globalParams) (get "context" globalParams)
                 VUndefined [] VUndefined VUndefined VUndefined VUndefined VUndefined in
        match execute workflow h {| ctx := context; world := w1 |} with
        | (t, (Ok result, r)) =>
            if truthy (Ctx.save (ctx r)) then
              match savePipelineData h (Ctx.save (ctx r))
                      (pipelineData h (ctx r) globalParams result) (world r) with
              | (Ok _, w2) => (t, (Ok result, w2))
              | (Throw e, w2) => (t, (Throw e, w2))
              end
            else (t, (Ok result, world r))
        | (t, (Throw e, r)) => (t, (Throw e, world r))
        end
  end.

End Orchestrator3.

(* ===================================================================== *)
(** ** SystemDeveloper ([system-dev.js]) *)
(* ===================================================================== *)

(** The development tool that calls the orchestrator.  Embedded here: the
    name generators, the reading of the command line in [main], and
    [validateSystemPipeline]. *)
Module SystemDeveloper.

Definition lower (a : ascii) : ascii :=
  let n := Ascii.nat_of_ascii a in
  if (65 <=? n)%nat && (n <=? 90)%nat then Ascii.ascii_of_nat (n + 32) else a.

(** [s.toLowerCase()], on the ASCII letters. *)
Fixpoint toLowerCase (s : string) : string :=
  match s with
  | EmptyString => EmptyString
  | String a s' => String (lower a) (toLowerCase s')
  end.

(** The character class [[a-z0-9]]. *)
Definition alnum (a : ascii) : bool :=
  let n := Ascii.nat_of_ascii a in
  ((97 <=? n)%nat && (n <=? 122)%nat) || ((48 <=? n)%nat && (n <=? 57)%nat).

(** [s.replace(/[^a-z0-9]+/g, '-')]: every maximal run of characters
    outside the class becomes one dash.  [inRun] tells that the character
    before belongs to such a run, whose dash is already written. *)
Fixpoint dashRuns (inRun : bool) (s : string) : string :=
  match s with
  | EmptyString => EmptyString
  | String a s' =>
      if alnum a then String a (dashRuns false s')
      else if inRun then dashRuns true s'
      else String "-" (dashRuns true s')
  end.

(** [s.replace(/^-+|-+$/g, '')]: the dashes at the start and the dashes at
    the end are removed. *)
Fixpoint dropLeadingDashes (s : string) : string :=
  match s with
  | EmptyString => EmptyString
  | String a s' => if Ascii.eqb a "-" then dropLeadingDashes s' else s
  end.

Fixpoint dropTrailingDashes (s : string) : string :=
  match s with
  | EmptyString => EmptyString
  | String a s' =>
      let rest := dropTrailingDashes s' in
      if Ascii.eqb a "-" && String.eqb rest EmptyString then EmptyString
      else String a rest
  end.

Definition trimDashes (s : string) : string :=
  dropTrailingDashes (dropLeadingDashes s).

Definition generateAgentName (functionality : string) : string :=
  trimDashes (dashRuns false (toLowerCase functionality)).

Definition generateCommandName (functionality : string) : string :=
  trimDashes (dashRuns false (toLowerCase functionality)).

Definition generateHookName (functionality : string) : string :=
  trimDashes (dashRuns false (toLowerCase functionality)) +:+ "-handler".

(** [main]: [args.find(arg => arg.startsWith('--request='))?.split('=')[1]]
    and [args.includes('--dry-run')]. *)
Definition requestOf (args : list string) : value :=
  match List.find (Str.startsWith "--request=") args with
  | Some arg =>
      match Str.split "=" arg with
      | _ :: request :: _ => VStr request
      | _ => VUndefined
      end
  | None => VUndefined
  end.

Definition dryRunOf (args : list string) : bool :=
  existsb (String.eqb "--dry-run") args.

(** [if (!request) { console.error('Usage: ...'); process.exit(1); }] *)
Definition usageError (args : list string) : bool :=
  negb (truthy (requestOf args)).

(** An orchestrator instance as the tool sees it: its [executeCommand]. *)
Definition Executor : Type := string -> obj -> World -> Dispatch.

(** [a && b] *)
Definition js_and (a b : value) : value := if truthy a then b else a.

(** The fallback of [validateSystemPipeline]: [issues] is empty, so
    [passed] is [issues.length === 0]. *)
Definition basicChecks : value :=
  VObj [("passed", VBool true); ("issues", VArr [])].

(** [validateSystemPipeline()]: [this.orchestrator] is [null] when the
    orchestrator could not be loaded; an error of the pipeline is caught
    and the basic checks are used. *)
Definition validateSystemPipeline (orchestrator : option Executor) (w : World)
    : value * World :=
  match orchestrator with
  | Some executeCommand =>
      match executeCommand "system:validate" [] w with
      | (_, (Ok validationResult, w')) =>
          (VObj [("passed", js_and validationResult (prop "success" validationResult));
                 ("issues",
                  if truthy validationResult
                  then js_or (prop "issues" validationResult) (VArr [])
                  else VArr [VStr "Pipeline validation failed"])],
           w')
      | (_, (Throw _, w')) => (basicChecks, w')
      end
  | None => (basicChecks, w)
  end.

End SystemDeveloper.

(* ===================================================================== *)
(** ** The output formatter ([formatter.js]) *)
(* ===================================================================== *)

Module Formatter.

(** [data.hashtags.map(tag => `#${tag}`).join(' ')] *)
Definition hashtags (tags : list value) : string :=
  Str.join " " (map (fun tag => "#" +:+ to_string tag) tags).

(** [formatTwitterOutput(data)] *)
Definition formatTwitterOutput (data : value) : outcome value :=
  match data with
  | VStr s => Ok (VStr s)
  | VUndefined | VNull =>
      Throw (TypeError "Cannot read properties of undefined (reading 'content')")
  | _ =>
      let output :=
        if truthy (prop "content" data) then to_string (prop "content" data)
        else EmptyString in
      let output :=
        match prop "hashtags" data with
        | VArr tags =>
            if (String.length output + String.length (hashtags tags) + 1 <=? 280)%nat
            then output +:+ " " +:+ hashtags tags
            else output
        | _ => output
        end in
      let output :=
        if (280 <? String.length output)%nat
        then String.substring 0 277 output +:+ "..."
        else output in
      Ok (VStr output)
  end.

End Formatter.

(* ===================================================================== *)
(** ** Vocabulary of the specification *)
(* ===================================================================== *)

(** A computation frames [R] when the state it leaves is [R]-related to
    the state it started in, whether it returns or throws. *)
Definition frames {S A} (R : S -> S -> Prop) (m : M S A) : Prop :=
  forall s, R s (snd (m s)).

(** The trace of a run in which every phase of [ps] was entered and left. *)
Definition ranToCompletion (ps : list string) : list PhaseEvent :=
  flat_map (fun p => [Started p; Finished p]) ps.

(** The workflow classes of the repository: [BaseWorkflow] and its
    subclasses, the two copies of [MessageWorkflow] included. *)
Inductive RepoWorkflow : Type :=
  | WBase | WMessage | WMessage2 | WSystem | WAgent | WMeta | WOutput | WCritic.

#[global] Instance RepoWorkflow_eq_dec : EqDecision RepoWorkflow.
Proof. solve_decision. Defined.

Definition workflowOf (k : RepoWorkflow) : Workflow :=
  match k with
  | WBase => BaseWorkflow.workflow
  | WMessage => MessageWorkflow.workflow
  | WMessage2 => MessageWorkflow2.workflow
  | WSystem => SystemWorkflow.workflow
  | WAgent => AgentWorkflow.workflow
  | WMeta => MetaWorkflow.workflow
  | WOutput => OutputWorkflow.workflow
  | WCritic => CriticWorkflow.workflow
  end.

(** The handler that [BaseWorkflow] provides for a phase. *)
Definition baseHandler (phase : string) : Handler :=
  if String.eqb phase "initialization" then BaseWorkflow.executeInitializationPhase
  else if String.eqb phase "parameters" then BaseWorkflow.executeParametersPhase
  else if String.eqb phase "workflow" then BaseWorkflow.executeWorkflowPhase
  else if String.eqb phase "validation" then BaseWorkflow.executeValidationPhase
  else BaseWorkflow.executeOutputPhase.

(** The handler that method resolution finds for a phase of a workflow. *)
Definition handlerOf (k : RepoWorkflow) (phase : string) : Handler :=
  match k with
  | WBase => baseHandler phase
  | WMessage =>
      if String.eqb phase "workflow" then MessageWorkflow.executeWorkflowPhase
      else baseHandler phase
  | WMessage2 =>
      if String.eqb phase "workflow" then MessageWorkflow2.executeWorkflowPhase
      else if String.eqb phase "validation" then MessageWorkflow2.executeValidationPhase
      else if String.eqb phase "output" then MessageWorkflow2.executeOutputPhase
      else baseHandler phase
  | WSystem =>
      if String.eqb phase "workflow" then SystemWorkflow.executeWorkflowPhase
      else baseHandler phase
  | WAgent =>
      if String.eqb phase "workflow" then AgentWorkflow.executeWorkflowPhase
      else baseHandler phase
  | WMeta =>
      if String.eqb phase "workflow" then MetaWorkflow.executeWorkflowPhase
      else baseHandler phase
  | WOutput =>
      if String.eqb phase "workflow" then OutputWorkflow.executeWorkflowPhase
      else baseHandler phase
  | WCritic =>
      if String.eqb phase "initialization" then CriticWorkflow.executeInitializationPhase
      else if String.eqb phase "parameters" then CriticWorkflow.executeParametersPhase
      else if String.eqb phase "workflow" then CriticWorkflow.executeWorkflowPhase
      else if String.eqb phase "validation" then CriticWorkflow.executeValidationPhase
      else CriticWorkflow.executeOutputPhase
  end.

(** What no handler of the repository changes: the command, the [save]
    path, the recorded phase results and the files; and [context.result]
    is either left alone or set to an object. *)
Record preserved (r r' : Run) : Prop := {
  p_command : Ctx.command (ctx r') = Ctx.command (ctx r);
  p_save : Ctx.save (ctx r') = Ctx.save (ctx r);
  p_phaseResults : Ctx.phaseResults (ctx r') = Ctx.phaseResults (ctx r);
  p_result : Ctx.result (ctx r') = Ctx.result (ctx r) \/
             exists o, Ctx.result (ctx r') = VObj o;
  p_files : w_files (world r') = w_files (world r);
}.

(** One step of the Global Context Store: entries of the dispatched
    command are appended, or the whole store is emptied. *)
Definition store_step (command : string) (s s' : list GlobalContextEntry) : Prop :=
  (exists added, s' = s ++ added /\ Forall (fun e => e_command e = command) added) \/
  s' = [].

(** The Global Context Store is left alone. *)
Definition store_kept (r r' : Run) : Prop :=
  w_context (world r') = w_context (world r).

(** Across the loop the phase results grow; the rest is kept. *)
Record kept (r r' : Run) : Prop := {
  k_command : Ctx.command (ctx r') = Ctx.command (ctx r);
  k_save : Ctx.save (ctx r') = Ctx.save (ctx r);
  k_result : Ctx.result (ctx r') = Ctx.result (ctx r) \/
             exists o, Ctx.result (ctx r') = VObj o;
  k_files : w_files (world r') = w_files (world r);
}.

(** [context.phaseResults[phase] = result] *)
Definition recordResult (phase : string) (result : value) (r : Run) : Run :=
  {| ctx := Ctx.set_phaseResults (set phase result (Ctx.phaseResults (ctx r))) (ctx r);
     world := world r |}.





(** A host that finds no agent files and never fails to write; its
    rendering of a value is its [ToString] form. *)
Definition exampleHost : Host :=
  {| now := "2025-11-16T10:00:00.000Z";
     nowAt := fun _ => "2025-11-16T10:00:00.000Z";
     toUpperCase := Str.upperAscii;
     stringify := to_string;
     greaterThan := fun _ _ => false;
     countBelow := fun _ => 0;
     existsSync := fun _ => false;
     readdirSync := fun _ => Throw (Error "ENOENT: no such file or directory");
     readFileSync := fun _ => Throw (Error "ENOENT: no such file or directory");
     matchDescription := fun _ => None;
     writeError := fun _ => None |}.

(** A text of [n] characters. *)
Fixpoint text (n : nat) : string :=
  match n with
  | O => EmptyString
  | S n' => String "a" (text n')
  end.

(** The command's category has no workflow, or the workflow found does
    not list the command. *)
Definition rejected (reg : Registry) (command : string) : Prop :=
  reg !! categoryOf command = None \/
  exists wf, reg !! categoryOf command = Some wf /\ isSupportedCommand wf command = false.

(** A dispatcher rejects without effects when a rejected command throws
    with no phase entered and leaves the Global Context Store, the session
    settings and the files as they were. *)
Definition rejects_without_effects
    (exec : Registry -> Host -> string -> obj -> World -> Dispatch) : Prop :=
  forall reg h command params w,
    rejected reg command ->
    exists e w',
      exec reg h command params w = ([], (Throw e, w')) /\
      w_context w' = w_context w /\
      w_settings w' = w_settings w /\
      w_files w' = w_files w.

(** The class of the message workflow an orchestrator registers. *)
Definition messageKind (m : Orchestrator3.MessageCopy) : RepoWorkflow :=
  match m with
  | Orchestrator3.Plain => WMessage
  | Orchestrator3.Checking => WMessage2
  end.

(** [context.result] is left alone. *)
Definition result_kept (r r' : Run) : Prop :=
  Ctx.result (ctx r') = Ctx.result (ctx r).

(** A value that reports success and names its action. *)
Definition reportsAction (v : value) : Prop :=
  exists o a, v = VObj o /\ get "success" o = VBool true /\ get "action" o = VStr a.

(** [params] once [save] and [context] have been deleted from it. *)
Definition strippedParams (params : obj) : obj :=
  let '(params1, gp1) := Orchestrator3.extractSave params [] in
  fst (Orchestrator3.extractContext params1 gp1).

(** The [globalParams] object. *)
Definition globalParamsOf (params : obj) : obj :=
  let '(params1, gp1) := Orchestrator3.extractSave params [] in
  snd (Orchestrator3.extractContext params1 gp1).

(** The state in which the pipeline starts. *)
Definition dispatchRun (h : Host) (command : string) (params : obj) (w : World) : Run :=
  {| ctx := Ctx.mk command (strippedParams params)
              (get "save" (globalParamsOf params)) (get "context" (globalParamsOf params))
              VUndefined [] VUndefined VUndefined VUndefined VUndefined VUndefined;
     world := Orchestrator3.pushContext h command params w |}.

(** A request and the state it leaves. *)
Record Request : Type := {
  rq_host : Host;
  rq_command : string;
  rq_params : obj;
}.

Definition dispatch (reg : Registry) (q : Request) (w : World) : World :=
  snd (snd (Orchestrator3.executeCommand reg (rq_host q) (rq_command q) (rq_params q) w)).

Definition dispatchAll (reg : Registry) (qs : list Request) (w : World) : World :=
  fold_left (fun w q => dispatch reg q w) qs w.

(** The bound of the data model: the content is a text of at most 1000
    characters. *)
Definition content_bounded (e : GlobalContextEntry) : Prop :=
  exists s, e_content e = VStr s /\ (String.length s <= 1000)%nat.


(** The value a dispatch resolves to when the workflow inherits every phase
    but the workflow phase from [BaseWorkflow] and sets no
    [context.result]: the map of phase results. *)
Definition inheritedPhaseResults (params : obj) (workflowResult : value) : value :=
  VObj [("initialization", VObj [("status", VStr "initialized")]);
        ("parameters", VObj [("status", VStr "parameters_processed");
                             ("params", VObj params)]);
        ("workflow", workflowResult);
        ("validation", VObj [("status", VStr "validated")]);
        ("output", VObj [("status", VStr "output_formatted")])].

(** The state in which the workflow phase of such a workflow starts, for a
    dispatch without [save] and [context]. *)
Definition workflowRun (command : string) (params : obj) (w : World) : Run :=
  {| ctx := Ctx.set_phaseResults
              [("initialization", VObj [("status", VStr "initialized")]);
               ("parameters", VObj [("status", VStr "parameters_processed");
                                    ("params", VObj params)])]
              (emptyContext command params);
     world := w |}.

(** The phases that precede [phase] in [ps]. *)
Fixpoint before (phase : string) (ps : list string) : list string :=
  match ps with
  | [] => []
  | p :: ps' => if String.eqb p phase then [] else p :: before phase ps'
  end.

(** The trace of a run stopped by the handler of [phase]: the phases before
    it were entered and left, [phase] was entered and not left. *)
Definition stoppedIn (phase : string) : list PhaseEvent :=
  ranToCompletion (before phase phases) ++ [Started phase].

(** The workflows that override the workflow phase only. *)
Definition overridesWorkflowPhaseOnly (k : RepoWorkflow) : bool :=
  match k with
  | WMessage | WSystem | WAgent | WMeta | WOutput => true
  | WBase | WMessage2 | WCritic => false
  end.

(** The entry that a dispatch of [command] at host [h] pushes for [content]. *)
Definition entryOf (h : Host) (command : string) (content : value) : GlobalContextEntry :=
  {| e_command := command; e_content := content; e_timestamp := now h |}.

(** What the workflow phase recorded, for a dispatch that resolved to the
    map of phase results. *)
Definition workflowEntry (d : Dispatch) : value :=
  match fst (snd d) with
  | Ok v => prop "workflow" v
  | Throw _ => VUndefined
  end.

(** The state a dispatch leaves. *)
Definition worldAfter (d : Dispatch) : World := snd (snd d).

(** Whether the character [a] occurs in [s]. *)
Fixpoint mentions (a : ascii) (s : string) : bool :=
  match s with
  | EmptyString => false
  | String b s' => Ascii.eqb a b || mentions a s'
  end.

(** [getWorkflowForCommand(command)] : the workflow registered for the
    command's category, [undefined] when there is none. *)
Definition getWorkflowForCommand (reg : Registry) (command : string) : option Workflow :=
  reg !! categoryOf command.

(** The commands that the orchestrator with the Global Context Store
    dispatches to a pipeline. *)
Definition dispatchedCommands : list string :=
  ["message:new"; "message:read";
   "system:on"; "system:health"; "system:manifest";
   "agent:switch"; "agent:status"; "agent:list"; "agent:reset";
   "meta:context";
   "critic:harsh"; "critic:mentor"; "critic:casual"].

(** The two checks of the inherited parameters phase, on texts: the [save]
    path is absolute and ends in [.json]; the [context] has at most 1000
    characters. *)
Definition savePathAccepted (path : string) : bool :=
  Str.startsWith "/" path && Str.endsWith ".json" path.

Definition contextTextAccepted (text : string) : bool :=
  (String.length text <=? 1000)%nat.

(** A parameter that is a text or is missing. *)
Definition textOrMissing (v : value) : Prop :=
  v = VUndefined \/ exists s, v = VStr s.

(** Whether the global parameters of [params] pass the inherited
    parameters phase. *)
Definition saveParamAccepted (params : obj) : bool :=
  match get "save" params with
  | VStr path => String.eqb path EmptyString || savePathAccepted path
  | _ => true
  end.

Definition contextParamAccepted (params : obj) : bool :=
  match get "context" params with
  | VStr text => contextTextAccepted text
  | _ => true
  end.

(** The shape of a generated name: lower-case letters, digits and single
    dashes, with no dash at either end.  [afterDash] tells that the
    character before is a dash, or that the text starts here. *)
Fixpoint slugBody (afterDash : bool) (s : string) : bool :=
  match s with
  | EmptyString => negb afterDash
  | String a s' =>
      if Ascii.eqb a "-" then negb afterDash && slugBody true s'
      else SystemDeveloper.alnum a && slugBody false s'
  end.

Definition isSlug (s : string) : bool :=
  String.eqb s EmptyString || slugBody true s.

(** The [executeCommand] of the three orchestrators, at a host. *)
Inductive RepoOrchestrator : Type :=
  | FirstOrchestrator
  | SettingsOrchestrator (EmailWorkflow : Workflow)
  | StoreOrchestrator (m : Orchestrator3.MessageCopy).

Definition executorOf (o : RepoOrchestrator) (h : Host) : SystemDeveloper.Executor :=
  match o with
  | FirstOrchestrator => Orchestrator.executeCommand Orchestrator.workflows h
  | SettingsOrchestrator EmailWorkflow =>
      Orchestrator2.executeCommand (Orchestrator2.workflows EmailWorkflow) h
  | StoreOrchestrator m => Orchestrator3.executeCommand (Orchestrator3.workflows m) h
  end.

(** The output of the first replacement: letters, digits and single
    dashes. *)
Fixpoint dashed (afterDash : bool) (s : string) : bool :=
  match s with
  | EmptyString => true
  | String a s' =>
      if Ascii.eqb a "-" then negb afterDash && dashed true s'
      else SystemDeveloper.alnum a && dashed false s'
  end.

(** The entries of the agents directory that [agent:list] reads. *)
Definition markdownFiles (files : list string) : list string :=
  filter (fun file => Is_true (Str.endsWith ".md" file)) files.

(** A file of the agents directory can be read. *)
Definition readable (h : Host) (file : string) : Prop :=
  exists content, readFileSync h (AgentWorkflow.agentsDir ++ [file]) = Ok content.

(** The entry that [agent:list] reports for a file that it could read. *)
Definition listedAgent (h : Host) (file : string) : value :=
  VObj [("name", VStr (Str.removeFirst ".md" file));
        ("description",
         VStr (default "No description"
                 match readFileSync h (AgentWorkflow.agentsDir ++ [file]) with
                 | Ok content => matchDescription h content
                 | Throw _ => None
                 end))].

(** A host whose agents directory holds two agent files and a note; every
    agent file exists and starts with its description. *)
Definition agentsHost : Host :=
  {| now := "2025-11-16T10:00:00.000Z";
     nowAt := fun _ => "2025-11-16T10:00:00.000Z";
     toUpperCase := Str.upperAscii;
     stringify := to_string;
     greaterThan := fun _ _ => false;
     countBelow := fun _ => 0;
     existsSync := fun _ => true;
     readdirSync := fun _ => Ok ["mentor-critic.md"; "notes.txt"; "harsh-critic.md"];
     readFileSync := fun path => Ok ("description: the agent of " +:+ default EmptyString (last path));
     matchDescription := fun content =>
       if String.prefix "description: " content
       then Some (String.substring 13 (String.length content - 13) content)
       else None;
     writeError := fun _ => None |}.

(* ===================================================================== *)
(** ** The string and object primitives on small inputs *)
(* ===================================================================== *)

Example split_command : Str.split ":" "message:new" = ["message"; "new"].
Proof. reflexivity. Qed.

Example split_no_separator : Str.split ":" "status" = ["status"].
Proof. reflexivity. Qed.

Example split_empty : Str.split ":" EmptyString = [EmptyString].
Proof. reflexivity. Qed.

Example category_of_command : categoryOf "critic:harsh:extra" = "critic".
Proof. reflexivity. Qed.

Example endsWith_json :
  Str.endsWith ".json" "/tmp/trace.json" = true /\ Str.endsWith ".json" "json" = false.
Proof. split; reflexivity. Qed.

Example capitalize_phase : Str.capitalize "initialization" = "Initialization".
Proof. reflexivity. Qed.

Example trim_focus : Str.trim "  logic " = "logic".
Proof. reflexivity. Qed.

Example removeFirst_md : Str.removeFirst ".md" "casual.md.md" = "casual.md".
Proof. reflexivity. Qed.

Example to_string_values :
  to_string VUndefined = "undefined" /\
  to_string (VNum (-12)) = "-12" /\
  to_string (VArr [VStr "a"; VNull; VNum 3]) = "a,,3" /\
  to_string (VObj []) = "[object Object]".
Proof. repeat split; reflexivity. Qed.

Example to_string_large_numbers :
  to_string (VNum (2 ^ 53 - 1)) = "9007199254740991" /\
  to_string (VNum (2 ^ 60)) = "1152921504606847000" /\
  to_string (VNum (10 ^ 21 - 1)) = "1e+21" /\
  to_string (VNum (10 ^ 21)) = "1e+21" /\
  to_string (VNum (- 2 ^ 70)) = "-1.1805916207174113e+21" /\
  to_string (VNum (10 ^ 300)) = "1e+300" /\
  to_string (VNum (2 ^ 1024)) = "Infinity".
Proof. do 6 (split; [vm_compute; reflexivity|]). vm_compute. reflexivity. Qed.

Example toUpperCase_of_ascii_text (h : Host) :
  js_toUpperCase h "code-review 2" = "CODE-REVIEW 2".
Proof. reflexivity. Qed.

Example set_keeps_position :
  set "b" (VNum 9) [("a", VNum 1); ("b", VNum 2); ("c", VNum 3)]
  = [("a", VNum 1); ("b", VNum 9); ("c", VNum 3)] /\
  set "d" (VNum 4) [("a", VNum 1)] = [("a", VNum 1); ("d", VNum 4)].
Proof. split; reflexivity. Qed.

Example falsy_values :
  map truthy [VUndefined; VNull; VBool false; VNum 0; VStr EmptyString; VArr []; VObj []]
  = [false; false; false; false; false; true; true].
Proof. reflexivity. Qed.

Example phase_method_is_found :
  is_Some (wf_methods CriticWorkflow.workflow !! ("execute" +:+ Str.capitalize "output" +:+ "Phase")).
Proof. by eexists. Qed.

(* ===================================================================== *)
(** ** The phase state machine *)
(* ===================================================================== *)



Lemma started_app t1 t2 : started (t1 ++ t2) = started t1 ++ started t2.
Proof. apply omap_app. Qed.


(** The loop either leaves every phase, or stops inside the first phase
    whose handler throws. *)
Lemma runPhases_trace (w : Workflow) (h : Host) (ps : list string) (r : Run) :
  match runPhases w h ps r with
  | (t, (Ok _, _)) => t = ranToCompletion ps
  | (t, (Throw _, _)) =>
      exists done p rest, ps = done ++ p :: rest /\ t = ranToCompletion done ++ [Started p]
  end.
Proof.
  revert r. induction ps as [|p ps IH]; intros r; simpl; [done|].
  destruct (executePhase w h p r) as [[result|e] r1].
  - match goal with |- context [runPhases w h ps ?r2] => specialize (IH r2);
      destruct (runPhases w h ps r2) as [t [[u|e] r3]] end.
    + by rewrite IH.
    + destruct IH as (done & q & rest & -> & ->).
      by exists (p :: done), q, rest.
  - by exists [], p, ps.
Qed.

Lemma NoDup_phases : NoDup phases.
Proof. by compute_done. Qed.






(* ===================================================================== *)
(** ** The workflows of the repository and what their handlers touch *)
(* ===================================================================== *)

Lemma elem_of_phases (phase : string) :
  phase ∈ phases ->
  phase = "initialization" \/ phase = "parameters" \/ phase = "workflow" \/
  phase = "validation" \/ phase = "output".
Proof. unfold phases. rewrite !elem_of_cons, elem_of_nil. tauto. Qed.

(** Reflective dispatch finds exactly the handlers of the table above. *)
Lemma executePhase_handlerOf (k : RepoWorkflow) (h : Host) (phase : string) :
  phase ∈ phases -> executePhase (workflowOf k) h phase = handlerOf k phase h.
Proof.
  intros Hin. apply elem_of_phases in Hin.
  destruct Hin as [-> | [-> | [-> | [-> | ->]]]]; destruct k; reflexivity.
Qed.

Lemma preserved_refl r : preserved r r.
Proof. split; auto. Qed.

Lemma preserved_trans r1 r2 r3 : preserved r1 r2 -> preserved r2 r3 -> preserved r1 r3.
Proof.
  intros [? ? ? Hr ?] [? ? ? Hr' ?]. split; try congruence.
  destruct Hr' as [Hr'|[o Hr']]; [destruct Hr as [Hr|[o Hr]]|].
  - left. congruence.
  - right. exists o. congruence.
  - right. by exists o.
Qed.

Lemma store_step_refl command s : store_step command s s.
Proof. left. exists []. by rewrite app_nil_r. Qed.

(** *** A frame rule for computations *)

Section Frames.
Context {S : Type} (R : S -> S -> Prop).
Hypothesis R_refl : forall s, R s s.
Hypothesis R_trans : forall s1 s2 s3, R s1 s2 -> R s2 s3 -> R s1 s3.

Lemma frames_ret {A} (a : A) : frames R (ret a).
Proof using R_refl. intros s. apply R_refl. Qed.

Lemma frames_throw {A} e : frames R (@throw S A e).
Proof using R_refl. intros s. apply R_refl. Qed.

Lemma frames_throw_if c e : frames R (@throw_if S c e).
Proof using R_refl. intros s. destruct c; apply R_refl. Qed.

Lemma frames_gets {A} (f : S -> A) : frames R (gets f).
Proof using R_refl. intros s. apply R_refl. Qed.

Lemma frames_modify (f : S -> S) : (forall s, R s (f s)) -> frames R (modify f).
Proof. intros Hf s. apply Hf. Qed.

Lemma frames_bind {A B} (m : M S A) (k : A -> M S B) :
  frames R m -> (forall a, frames R (k a)) -> frames R (bind m k).
Proof using R_trans.
  intros Hm Hk s. unfold bind. specialize (Hm s).
  destruct (m s) as [[a|e] s1]; simpl in *; [|done].
  eapply R_trans; [exact Hm | apply Hk].
Qed.

Lemma frames_lift {A} (o : outcome A) : frames R (lift o).
Proof using R_refl. intros s. apply R_refl. Qed.

Lemma frames_mapM {A B} (f : A -> M S B) (l : list A) :
  (forall a, frames R (f a)) -> frames R (mapM f l).
Proof using R_refl R_trans.
  intros Hf. induction l as [|a l IH]; cbn [mapM]; [apply frames_ret|].
  apply frames_bind; [apply Hf|]. intros b.
  apply frames_bind; [exact IH|]. intros bs. apply frames_ret.
Qed.
End Frames.

Ltac frames_step R_refl R_trans :=
  first
    [ apply (frames_bind _ R_trans); [|intros ?]
    | apply (frames_ret _ R_refl)
    | apply (frames_throw _ R_refl)
    | apply (frames_throw_if _ R_refl)
    | apply (frames_gets _ R_refl)
    | apply (frames_lift _ R_refl)
    | apply (frames_mapM _ R_refl R_trans); intros ?
    | match goal with
      | |- frames _ (modify _) => apply frames_modify; intros [? ?]
      end
    | match goal with
      | |- frames _ (if ?b then _ else _) => destruct b
      | |- frames _ (match ?x with _ => _ end) => destruct x
      end ].

Ltac unfold_handlers :=
  unfold
    BaseWorkflow.executeInitializationPhase, BaseWorkflow.executeParametersPhase,
    BaseWorkflow.executeWorkflowPhase, BaseWorkflow.executeValidationPhase,
    BaseWorkflow.executeOutputPhase,
    MessageWorkflow.executeWorkflowPhase, MessageWorkflow.handleNewMessage,
    MessageWorkflow.handleReadMessages,
    MessageWorkflow2.executeWorkflowPhase, MessageWorkflow2.handleNewMessage,
    MessageWorkflow2.executeValidationPhase, MessageWorkflow2.executeOutputPhase,
    SystemWorkflow.executeWorkflowPhase, SystemWorkflow.handleSystemOn,
    SystemWorkflow.handleSystemHealth, SystemWorkflow.handleSystemManifest,
    AgentWorkflow.executeWorkflowPhase, AgentWorkflow.handleSwitch,
    AgentWorkflow.handleStatus, AgentWorkflow.handleList, AgentWorkflow.describe,
    AgentWorkflow.handleReset,
    MetaWorkflow.executeWorkflowPhase, MetaWorkflow.handleContext,
    OutputWorkflow.executeWorkflowPhase, OutputWorkflow.handleVerbosity,
    OutputWorkflow.handleFormat,
    CriticWorkflow.executeInitializationPhase, CriticWorkflow.executeParametersPhase,
    CriticWorkflow.executeWorkflowPhase, CriticWorkflow.executeValidationPhase,
    CriticWorkflow.executeOutputPhase, CriticWorkflow.setParam,
    setSetting, BaseWorkflow.loadAgent, BaseWorkflow.loadTemplate,
    BaseWorkflow.generateContent, BaseWorkflow.validateWithRules, BaseWorkflow.readFile,
    getc, getw, setc, setw;
  cbv beta zeta.

(** Every handler of every workflow preserves the command, the [save]
    path, the phase results and the files. *)
Lemma handler_preserved (k : RepoWorkflow) (phase : string) (h : Host) :
  frames preserved (handlerOf k phase h).
Proof.
  destruct k; unfold handlerOf, baseHandler; repeat case_match; unfold_handlers;
    repeat frames_step preserved_refl preserved_trans; try (split; simpl; eauto).
Qed.

Lemma store_kept_refl r : store_kept r r.
Proof. done. Qed.

Lemma store_kept_trans r1 r2 r3 : store_kept r1 r2 -> store_kept r2 r3 -> store_kept r1 r3.
Proof. unfold store_kept. congruence. Qed.

(** Every handler other than the workflow phase of [MetaWorkflow] leaves
    the store alone, *)
Lemma handler_store_kept (k : RepoWorkflow) (phase : string) (h : Host) :
  k <> WMeta \/ phase <> "workflow" -> frames store_kept (handlerOf k phase h).
Proof.
  intros Hk.
  destruct k; unfold handlerOf, baseHandler; repeat case_match; unfold_handlers;
    repeat frames_step store_kept_refl store_kept_trans; try done.
  all: destruct Hk as [Hk|Hk]; [done|];
    match goal with H : (_ =? _) = true |- _ => apply String.eqb_eq in H end; done.
Qed.

(** and that one makes one step. *)
Lemma meta_store_step (h : Host) (r : Run) :
  store_step (Ctx.command (ctx r)) (w_context (world r))
    (w_context (world (snd (MetaWorkflow.executeWorkflowPhase h r)))).
Proof.
  destruct r as [c w]. unfold_handlers. unfold bind, gets, modify, ret, throw. simpl.
  repeat case_match; simpl; try apply store_step_refl; [|by right].
  left. eexists [_]. split; [done|]. by repeat constructor.
Qed.

Lemma handler_store_step (k : RepoWorkflow) (phase : string) (h : Host) (r : Run) :
  store_step (Ctx.command (ctx r)) (w_context (world r))
    (w_context (world (snd (handlerOf k phase h r)))).
Proof.
  destruct (decide (phase = "workflow")) as [->|Hne].
  - destruct k; try (rewrite (handler_store_kept _ _ h); [apply store_step_refl|by left]).
    apply meta_store_step.
  - rewrite (handler_store_kept _ _ h); [apply store_step_refl|by right].
Qed.

(* ===================================================================== *)
(** ** What a pipeline run of a repository workflow leaves behind *)
(* ===================================================================== *)

Lemma kept_refl r : kept r r.
Proof. split; auto. Qed.

Lemma kept_trans r1 r2 r3 : kept r1 r2 -> kept r2 r3 -> kept r1 r3.
Proof.
  intros [? ? Hr ?] [? ? Hr' ?]. split; try congruence.
  destruct Hr' as [Hr'|[o Hr']]; [destruct Hr as [Hr|[o Hr]]|].
  - left. congruence.
  - right. exists o. congruence.
  - right. by exists o.
Qed.

Lemma preserved_kept r r' : preserved r r' -> kept r r'.
Proof. intros []. by split. Qed.

Lemma kept_recordResult phase result r : kept r (recordResult phase result r).
Proof. split; simpl; auto. Qed.

Lemma keys_set_fresh (k : string) (v : value) (o : obj) :
  k ∉ keys o -> keys (set k v o) = keys o ++ [k].
Proof.
  unfold keys. induction o as [|[k' v'] o IH]; simpl; intros Hk; [done|].
  apply not_elem_of_cons in Hk as [Hne Hk].
  destruct (String.eqb_spec k k') as [->|_]; [done|].
  simpl. by rewrite IH.
Qed.

Section Pipeline.
Variables (k : RepoWorkflow) (h : Host).

Lemma runPhases_kept (ps : list string) (r : Run) :
  Forall (fun p => p ∈ phases) ps ->
  kept r (snd (snd (runPhases (workflowOf k) h ps r))).
Proof.
  intros Hps. revert r. induction Hps as [|p ps Hp Hps IH]; intros r; simpl.
  { apply kept_refl. }
  rewrite (executePhase_handlerOf k h p Hp).
  pose proof (handler_preserved k p h r) as Hh.
  destruct (handlerOf k p h r) as [[result|e] r1]; simpl in *.
  - match goal with |- context [runPhases _ h ps ?r2] =>
      specialize (IH r2); destruct (runPhases (workflowOf k) h ps r2) as [t [o r3]] end.
    simpl in *. eapply kept_trans; [|exact IH].
    eapply kept_trans; [apply preserved_kept, Hh|].
    apply (kept_recordResult p result r1).
  - by apply preserved_kept.
Qed.

Lemma runPhases_keys (ps : list string) (r : Run) t r' :
  Forall (fun p => p ∈ phases) ps ->
  NoDup (keys (Ctx.phaseResults (ctx r)) ++ ps) ->
  runPhases (workflowOf k) h ps r = (t, (Ok tt, r')) ->
  keys (Ctx.phaseResults (ctx r')) = keys (Ctx.phaseResults (ctx r)) ++ ps.
Proof.
  intros Hps. revert r t. induction Hps as [|p ps Hp Hps IH]; intros r t Hnd; simpl.
  { intros [= <- <-]. by rewrite app_nil_r. }
  rewrite (executePhase_handlerOf k h p Hp).
  pose proof (handler_preserved k p h r) as Hh.
  destruct (handlerOf k p h r) as [[result|e] r1]; simpl in *; [|done].
  match goal with |- context [runPhases _ h ps ?r2] =>
    specialize (IH r2); destruct (runPhases (workflowOf k) h ps r2) as [t' [o r3]] eqn:Hrun end.
  intros [= <- -> ->].
  assert (Hfresh : p ∉ keys (Ctx.phaseResults (ctx r))).
  { apply NoDup_app in Hnd as (_ & Hdisj & _). intros Hin.
    apply (Hdisj p Hin). by left. }
  destruct Hh as [_ _ Hpr _ _].
  assert (Hk2 : keys (set p result (Ctx.phaseResults (ctx r1)))
                = keys (Ctx.phaseResults (ctx r)) ++ [p]).
  { rewrite Hpr. by apply keys_set_fresh. }
  simpl in IH. rewrite Hk2, <- app_assoc in IH. by apply (IH t').
Qed.

Lemma runPhases_store (ps : list string) (r : Run) :
  Forall (fun p => p ∈ phases) ps -> NoDup ps ->
  let s := w_context (world r) in
  let s' := w_context (world (snd (snd (runPhases (workflowOf k) h ps r)))) in
  ("workflow" ∉ ps -> s' = s) /\ store_step (Ctx.command (ctx r)) s s'.
Proof.
  intros Hps. revert r. induction Hps as [|p ps Hp Hps IH]; intros r Hnd; simpl.
  { split; [done|apply store_step_refl]. }
  apply NoDup_cons in Hnd as [Hp' Hnd].
  rewrite (executePhase_handlerOf k h p Hp).
  pose proof (handler_preserved k p h r) as Hh.
  pose proof (handler_store_step k p h r) as Hstep.
  pose proof (handler_store_kept k p h) as Hkept.
  destruct (handlerOf k p h r) as [[result|e] r1] eqn:Hrun; simpl in *.
  - match goal with |- context [runPhases _ h ps ?r2] =>
      specialize (IH r2 Hnd); destruct (runPhases (workflowOf k) h ps r2) as [t [o r3]] end.
    simpl in *. destruct IH as [IHkept IHstep]. destruct Hh as [Hcmd _ _ _ _].
    rewrite Hcmd in IHstep. split.
    + intros Hnot. apply not_elem_of_cons in Hnot as [Hne Hnot].
      rewrite (IHkept Hnot).
      specialize (Hkept (or_intror (fun H => Hne (eq_sym H))) r).
      unfold store_kept in Hkept. by rewrite Hrun in Hkept.
    + destruct (decide (p = "workflow")) as [->|Hne].
      * by rewrite (IHkept Hp').
      * specialize (Hkept (or_intror Hne) r).
        unfold store_kept in Hkept. rewrite Hrun in Hkept. simpl in Hkept.
        by rewrite <- Hkept.
  - split; [|done]. intros Hnot. apply not_elem_of_cons in Hnot as [Hne Hnot].
    specialize (Hkept (or_intror (fun H => Hne (eq_sym H))) r).
    unfold store_kept in Hkept. by rewrite Hrun in Hkept.
Qed.

Lemma Forall_phases : Forall (fun p => p ∈ phases) phases.
Proof. by apply Forall_forall. Qed.

(** The summary for [execute]. *)
Lemma execute_frame (r : Run) :
  match execute (workflowOf k) h r with
  | (t, (o, r')) =>
      Ctx.command (ctx r') = Ctx.command (ctx r) /\
      Ctx.save (ctx r') = Ctx.save (ctx r) /\
      w_files (world r') = w_files (world r) /\
      (Ctx.result (ctx r') = Ctx.result (ctx r) \/ exists o, Ctx.result (ctx r') = VObj o) /\
      store_step (Ctx.command (ctx r)) (w_context (world r)) (w_context (world r')) /\
      forall v, o = Ok v ->
        t = ranToCompletion phases /\
        keys (Ctx.phaseResults (ctx r')) = phases /\
        v = js_or (Ctx.result (ctx r')) (VObj (Ctx.phaseResults (ctx r')))
  end.
Proof.
  unfold execute, executePipeline.
  set (r0 := {| ctx := Ctx.set_phaseResults [] (ctx r); world := world r |}).
  pose proof (runPhases_kept phases r0 Forall_phases) as Hkept.
  pose proof (runPhases_store phases r0 Forall_phases NoDup_phases) as [_ Hstore].
  pose proof (runPhases_trace (workflowOf k) h phases r0) as Htrace.
  pose proof (fun t r' => runPhases_keys phases r0 t r' Forall_phases NoDup_phases) as Hkeys.
  destruct (runPhases (workflowOf k) h phases r0) as [t [[[]|e] r1]]; simpl in *;
    destruct Hkept as [? ? ? ?];
    (split; [done|]; split; [done|]; split; [done|]; split; [done|]; split; [done|]).
  - intros v [= <-]. split; [done|]. split; [|done]. by apply (Hkeys t).
  - done.
Qed.

End Pipeline.

Lemma length_text n : String.length (text n) = n.
Proof. induction n; simpl; congruence. Qed.

(* ===================================================================== *)
(** ** Rejected commands *)
(* ===================================================================== *)

Lemma get_delete_key_ne (k k' : string) (o : obj) :
  k <> k' -> get k (delete_key k' o) = get k o.
Proof.
  intros Hne. induction o as [|[k0 v0] o IH]; simpl; [done|].
  destruct (String.eqb_spec k' k0) as [->|Hne0].
  - destruct (String.eqb_spec k k0) as [->|_]; [done|apply IH].
  - simpl. rewrite IH. done.
Qed.

(** [orchestrator.js] keeps no store and extracts no global parameter:
    there a rejected command has no effect at all. *)
Lemma Orchestrator_rejects_without_effects :
  rejects_without_effects Orchestrator.executeCommand.
Proof.
  intros reg h command params w [Hnone | (wf & Hsome & Hunsup)];
    unfold Orchestrator.executeCommand.
  - rewrite Hnone. eauto 10.
  - rewrite Hsome, Hunsup. simpl. eauto 10.
Qed.




(* ===================================================================== *)
(** ** The orchestrator whose class body defines [initialize] twice *)
(* ===================================================================== *)

Lemma categoryOf_prefixed (category action : string) :
  category ∈ ["email"; "output"; "agent"] ->
  categoryOf (category +:+ ":" +:+ action) = category.
Proof.
  rewrite !elem_of_cons, elem_of_nil. intros [-> | [-> | [-> | []]]]; reflexivity.
Qed.

Section Orchestrator2Facts.
Variable EmailWorkflow : Workflow.

(** Method resolution picks the second definition. *)
Lemma initialize_resolves :
  Orchestrator2.initialize EmailWorkflow = Orchestrator2.initialize_2.
Proof.
  unfold Orchestrator2.initialize, Orchestrator2.classBody, classMethods. simpl.
  by rewrite lookup_insert_eq.
Qed.

Lemma workflows_registered :
  Orchestrator2.workflows EmailWorkflow
  = <["system" := SystemWorkflow.workflow]> (<["message" := MessageWorkflow.workflow]> ∅).
Proof. unfold Orchestrator2.workflows. by rewrite initialize_resolves. Qed.

Lemma unregistered_category (h : Host) (category action : string) (params : obj)
    (w : World) :
  category ∈ ["email"; "output"; "agent"] ->
  Orchestrator2.executeCommand (Orchestrator2.workflows EmailWorkflow) h
    (category +:+ ":" +:+ action) params w
  = ([], (Throw (unknown_category category), w)).
Proof.
  intros Hcat.
  unfold Orchestrator2.executeCommand, Orchestrator.executeCommand.
  rewrite (categoryOf_prefixed _ _ Hcat), workflows_registered.
  rewrite !elem_of_cons, elem_of_nil in Hcat.
  destruct Hcat as [-> | [-> | [-> | []]]];
    by rewrite !lookup_insert_ne, lookup_empty by done.
Qed.
End Orchestrator2Facts.

(** C10.  In the orchestrator with session settings the second definition
    of [initialize] is the one in force; after construction the registry
    holds exactly the categories [message] and [system]; and every
    [email:*], [output:*] or [agent:*] command is rejected with the
    unknown-category error, no phase entered, the state untouched. *)
Theorem second_initialize_shadows_first (EmailWorkflow : Workflow) :
  Orchestrator2.initialize EmailWorkflow = Orchestrator2.initialize_2 /\
  dom (Orchestrator2.workflows EmailWorkflow) = {["message"; "system"]} /\
  forall (h : Host) (category action : string) (params : obj) (w : World),
    category ∈ ["email"; "output"; "agent"] ->
    Orchestrator2.executeCommand (Orchestrator2.workflows EmailWorkflow) h
      (category +:+ ":" +:+ action) params w
    = ([], (Throw (unknown_category category), w)).
Proof.
  split; [apply initialize_resolves|]. split.
  - rewrite workflows_registered, !dom_insert_L, dom_empty_L. set_solver.
  - apply unregistered_category.
Qed.

Lemma second_initialize_shadows_first_witness :
  "output" ∈ ["email"; "output"; "agent"] /\
  Orchestrator2.executeCommand (Orchestrator2.workflows BaseWorkflow.workflow) exampleHost
    ("output" +:+ ":" +:+ "format") [("type", VStr "json")] Orchestrator2.initialWorld
  = ([], (Throw (unknown_category "output"), Orchestrator2.initialWorld)).
Proof.
  assert (Hin : "output" ∈ ["email"; "output"; "agent"]) by (right; left).
  split; [exact Hin|].
  exact (proj2 (proj2 (second_initialize_shadows_first BaseWorkflow.workflow))
           exampleHost "output" "format" [("type", VStr "json")]
           Orchestrator2.initialWorld Hin).
Defined.

(** C8, on the code.  Through that orchestrator [output:verbosity] reaches
    no handler, whatever the level: the dispatch is rejected with the
    unknown-category error and the settings stay as they were. *)
Theorem output_verbosity_is_unregistered (EmailWorkflow : Workflow) (h : Host)
    (level : value) (w : World) :
  Orchestrator2.executeCommand (Orchestrator2.workflows EmailWorkflow) h
    "output:verbosity" [("level", level)] w
  = ([], (Throw (Error "No workflow found for category: output"), w)).
Proof.
  exact (unregistered_category EmailWorkflow h "output" "verbosity"
           [("level", level)] w ltac:(right; left)).
Qed.

(* ===================================================================== *)
(** ** Running a pipeline on given parameters *)
(* ===================================================================== *)

Lemma runPhases_cons w h p ps r :
  runPhases w h (p :: ps) r =
  match executePhase w h p r with
  | (Ok result, r1) =>
      let '(t, res) := runPhases w h ps (recordResult p result r1) in
      (Started p :: Finished p :: t, res)
  | (Throw e, r1) => ([Started p], (Throw e, r1))
  end.
Proof. reflexivity. Qed.

(** Evaluate the monadic operations of the handler at the head of the goal. *)
Ltac eval_monad :=
  unfold_handlers; unfold throw_if, bind, ret, gets, modify, throw;
  cbn -[insert lookup stringify runPhases].

(** Enter the next phase of workflow [k] and run its handler. *)
Ltac eval_phase k :=
  rewrite runPhases_cons, (executePhase_handlerOf k) by (repeat constructor);
  lazy [handlerOf baseHandler String.eqb Ascii.eqb Bool.eqb];
  eval_monad.

Ltac eval_pipeline k :=
  unfold execute, executePipeline, phases; do 5 (eval_phase k).

Lemma workflows3_message (m : Orchestrator3.MessageCopy) :
  Orchestrator3.workflows m !! "message" = Some (workflowOf (messageKind m)).
Proof.
  unfold Orchestrator3.workflows, Orchestrator3.initialize, register.
  rewrite !lookup_insert_ne, lookup_insert_eq by done. by destruct m.
Qed.

Lemma workflows3_system (m : Orchestrator3.MessageCopy) :
  Orchestrator3.workflows m !! "system" = Some (workflowOf WSystem).
Proof.
  unfold Orchestrator3.workflows, Orchestrator3.initialize, register.
  by rewrite !lookup_insert_ne, lookup_insert_eq by done.
Qed.

Lemma workflows3_agent (m : Orchestrator3.MessageCopy) :
  Orchestrator3.workflows m !! "agent" = Some (workflowOf WAgent).
Proof.
  unfold Orchestrator3.workflows, Orchestrator3.initialize, register.
  by rewrite !lookup_insert_ne, lookup_insert_eq by done.
Qed.

Lemma workflows3_meta (m : Orchestrator3.MessageCopy) :
  Orchestrator3.workflows m !! "meta" = Some (workflowOf WMeta).
Proof.
  unfold Orchestrator3.workflows, Orchestrator3.initialize, register.
  by rewrite !lookup_insert_ne, lookup_insert_eq by done.
Qed.

Lemma workflows3_critic (m : Orchestrator3.MessageCopy) :
  Orchestrator3.workflows m !! "critic" = Some (workflowOf WCritic).
Proof.
  unfold Orchestrator3.workflows, Orchestrator3.initialize, register.
  by rewrite lookup_insert_eq.
Qed.

(** Every workflow of the registry is one of the repository's. *)
Lemma workflows3_lookup (m : Orchestrator3.MessageCopy) (category : string) (wf : Workflow) :
  Orchestrator3.workflows m !! category = Some wf ->
  exists k, wf = workflowOf k /\
    ((category = "message" /\ k = (messageKind m)) \/
     (category = "system" /\ k = WSystem) \/
     (category = "agent" /\ k = WAgent) \/
     (category = "meta" /\ k = WMeta) \/
     (category = "critic" /\ k = WCritic)).
Proof.
  unfold Orchestrator3.workflows, Orchestrator3.initialize, register.
  rewrite !lookup_insert_Some, lookup_empty.
  intros [[<- <-] | [_ [[<- <-] | [_ [[<- <-] | [_ [[<- <-] | [_ [[<- <-] | [_ ?]]]]]]]]]];
    [exists WCritic | exists WMeta | exists WAgent | exists WSystem
    | exists (messageKind m) | done];
    (split; [first [done | by unfold messageKind; destruct m] | auto 10]).
Qed.

(** Outside the [critic] category the workflow found is neither the bare
    [BaseWorkflow] nor [CriticWorkflow]. *)
Lemma registered_kind_not_critic (m : Orchestrator3.MessageCopy) (category : string)
    (k : RepoWorkflow) :
  ((category = "message" /\ k = messageKind m) \/
   (category = "system" /\ k = WSystem) \/
   (category = "agent" /\ k = WAgent) \/
   (category = "meta" /\ k = WMeta) \/
   (category = "critic" /\ k = WCritic)) ->
  category <> "critic" ->
  k <> WBase /\ k <> WCritic.
Proof.
  intros [[_ ->]|[[_ ->]|[[_ ->]|[[_ ->]|[Hc _]]]]] Hcat; try done.
  by destruct m.
Qed.

(* ===================================================================== *)
(** ** The global parameter checks *)
(* ===================================================================== *)

(** The inherited parameters phase rejects a [context] text of more than
    1000 characters ... *)
Lemma parameters_phase_rejects_long_context (h : Host) (r : Run) (s : string) :
  Ctx.save (ctx r) = VUndefined ->
  Ctx.context (ctx r) = VStr s ->
  (1000 < String.length s)%nat ->
  BaseWorkflow.executeParametersPhase h r
  = (Throw (Error "Context must be less than 1000 characters"), r).
Proof.
  intros Hsave Hctx Hlen. destruct r as [c w]. simpl in *.
  unfold BaseWorkflow.executeParametersPhase, getc, throw_if, bind, gets, ret, throw.
  simpl. rewrite Hsave. simpl. rewrite Hctx.
  destruct s as [|a s]; [simpl in Hlen; lia|].
  unfold js_length, js_gt, truthy.
  replace (1000 <? Z.of_nat (String.length (String a s)))%Z with true; [reflexivity|].
  symmetry. apply Z.ltb_lt. lia.
Qed.

(** ... accepts one of at most 1000 characters ... *)
Lemma parameters_phase_accepts_short_context (h : Host) (r : Run) (s : string) :
  Ctx.save (ctx r) = VUndefined ->
  Ctx.context (ctx r) = VStr s ->
  (String.length s <= 1000)%nat ->
  BaseWorkflow.executeParametersPhase h r
  = (Ok (VObj [("status", VStr "parameters_processed");
               ("params", VObj (Ctx.params (ctx r)))]), r).
Proof.
  intros Hsave Hctx Hlen. destruct r as [c w]. simpl in *.
  unfold BaseWorkflow.executeParametersPhase, getc, throw_if, bind, gets, ret, throw.
  simpl. rewrite Hsave. simpl. rewrite Hctx.
  unfold js_length, js_gt.
  replace (1000 <? Z.of_nat (String.length s))%Z with false.
  - by rewrite andb_false_r.
  - symmetry. apply Z.ltb_ge. lia.
Qed.

(** ... and rejects a [save] path that is not absolute or does not end in
    [.json]. *)
Lemma parameters_phase_rejects_bad_save (h : Host) (r : Run) (s : string) :
  Ctx.save (ctx r) = VStr s -> s <> EmptyString ->
  Str.startsWith "/" s && Str.endsWith ".json" s = false ->
  BaseWorkflow.executeParametersPhase h r
  = (Throw (Error "Save path must be absolute and end with .json"), r).
Proof.
  intros Hsave Hne Hbad. destruct r as [c w]. simpl in *.
  unfold BaseWorkflow.executeParametersPhase, getc, throw_if, bind, gets, ret, throw.
  simpl. rewrite Hsave.
  destruct s as [|a s]; [done|].
  apply andb_false_iff in Hbad. rewrite <- !negb_true_iff in Hbad.
  apply orb_true_iff in Hbad.
  change (truthy (VStr (String a s))) with true. cbv iota.
  by rewrite Hbad.
Qed.

Lemma supported_critic_harsh :
  isSupportedCommand (workflowOf WCritic) "critic:harsh" = true.
Proof. reflexivity. Qed.

(** C4, on the code.  [CriticWorkflow] overrides the parameters phase and
    the override checks neither [save] nor [context]: a [critic:harsh]
    dispatch whose [context] has more than 1000 characters is not stopped
    in the parameters phase; the workflow phase and the phases after it run
    and the dispatch resolves. *)
Theorem critic_skips_context_check (m : Orchestrator3.MessageCopy) (h : Host)
    (w : World) (s : string) :
  (1000 < String.length s)%nat ->
  exists result w',
    Orchestrator3.executeCommand (Orchestrator3.workflows m) h "critic:harsh"
      [("source", VStr "text"); ("context", VStr s)] w
    = (ranToCompletion phases, (Ok result, w')).
Proof.
  intros Hlen. destruct s as [|a s]; [simpl in Hlen; lia|]. clear Hlen.
  unfold Orchestrator3.executeCommand.
  cbn -[insert lookup phases Orchestrator3.workflows execute].
  rewrite workflows3_critic, supported_critic_harsh.
  cbn -[insert lookup phases execute workflowOf].
  unfold execute, executePipeline, phases.
  do 3 (eval_phase WCritic).
  rewrite !lookup_insert_eq. eval_monad.
  do 2 (eval_phase WCritic).
  cbn [runPhases]. cbn -[insert lookup stringify].
  do 2 eexists. reflexivity.
Qed.

Lemma critic_skips_context_check_witness :
  (1000 < String.length (text 1001))%nat /\
  exists result w',
    Orchestrator3.executeCommand (Orchestrator3.workflows Orchestrator3.Plain)
      exampleHost "critic:harsh"
      [("source", VStr "text"); ("context", VStr (text 1001))] Orchestrator3.initialWorld
    = (ranToCompletion phases, (Ok result, w')).
Proof.
  assert (Hlen : (1000 < String.length (text 1001))%nat)
    by (rewrite length_text; lia).
  split; [exact Hlen|].
  exact (critic_skips_context_check Orchestrator3.Plain exampleHost
           Orchestrator3.initialWorld (text 1001) Hlen).
Defined.

(* ===================================================================== *)
(** ** [message:new] *)
(* ===================================================================== *)

(** The parameters phase of [BaseWorkflow] changes nothing. *)
Lemma parameters_phase_pure (h : Host) (r : Run) :
  snd (BaseWorkflow.executeParametersPhase h r) = r.
Proof.
  destruct r as [c w].
  unfold BaseWorkflow.executeParametersPhase, getc, throw_if, bind, gets, ret, throw.
  simpl. repeat case_match; simplify_eq/=; done.
Qed.

(** C7, on the code.  [handleNewMessage] of [message.js] checks nothing:
    dispatched without a message body, [message:new] runs all five phases
    and resolves; the message it reports has [content: undefined] (and,
    with no [to], the text [Message: undefined (to: undefined)]).  This is
    so through [orchestrator.js] and through the orchestrator with the
    Global Context Store. *)
Theorem message_new_without_body_resolves (h : Host) (w : World) :
  let resolved :=
    VObj [("initialization", VObj [("status", VStr "initialized")]);
          ("parameters", VObj [("status", VStr "parameters_processed");
                               ("params", VObj [])]);
          ("workflow",
           VObj [("success", VBool true); ("action", VStr "created");
                 ("message",
                  VObj [("content", VUndefined);
                        ("to", VUndefined);
                        ("timestamp", VStr (now h));
                        ("formattedContent",
                         VStr "Message: undefined (to: undefined)")])]);
          ("validation", VObj [("status", VStr "validated")]);
          ("output", VObj [("status", VStr "output_formatted")])] in
  Orchestrator.executeCommand Orchestrator.workflows h "message:new" [] w
  = (ranToCompletion phases, (Ok resolved, w)) /\
  Orchestrator3.executeCommand (Orchestrator3.workflows Orchestrator3.Plain)
    h "message:new" [] w
  = (ranToCompletion phases, (Ok resolved, w)).
Proof. split; vm_compute; reflexivity. Qed.

Lemma supported_message_new (m : Orchestrator3.MessageCopy) :
  isSupportedCommand (workflowOf (messageKind m)) "message:new" = true.
Proof. by destruct m. Qed.

(** The other copy of [MessageWorkflow] does check: without a message
    body the dispatch never resolves.  It is stopped in the parameters
    phase when a global parameter is malformed, and otherwise in the
    workflow phase, with the error that asks for the message; the
    validation phase is not entered. *)
Lemma checking_copy_requires_message (h : Host) (params : obj) (w : World) :
  truthy (get "message" params) = false ->
  exists t e w',
    Orchestrator3.executeCommand (Orchestrator3.workflows Orchestrator3.Checking)
      h "message:new" params w = (t, (Throw e, w')) /\
    (t = [Started "initialization"; Finished "initialization"; Started "parameters"] \/
     (t = [Started "initialization"; Finished "initialization";
           Started "parameters"; Finished "parameters"; Started "workflow"] /\
      e = Error MessageWorkflow2.required_message)).
Proof.
  intros Hmsg.
  unfold Orchestrator3.executeCommand.
  destruct (Orchestrator3.extractSave params []) as [params1 gp1] eqn:Hsave.
  destruct (Orchestrator3.extractContext params1 gp1) as [params2 gp] eqn:Hctx.
  assert (Hget : get "message" params2 = get "message" params).
  { unfold Orchestrator3.extractSave in Hsave. unfold Orchestrator3.extractContext in Hctx.
    repeat case_match; simplify_eq; rewrite ?get_delete_key_ne by done; done. }
  replace (categoryOf "message:new") with "message" by done.
  rewrite (workflows3_message Orchestrator3.Checking),
    (supported_message_new Orchestrator3.Checking).
  cbn [negb messageKind].
  unfold execute, executePipeline, phases.
  eval_phase WMessage2.
  rewrite runPhases_cons, (executePhase_handlerOf WMessage2) by (repeat constructor).
  lazy [handlerOf baseHandler String.eqb Ascii.eqb Bool.eqb].
  match goal with |- context [BaseWorkflow.executeParametersPhase h ?r] =>
    pose proof (parameters_phase_pure h r) as Hpure;
    destruct (BaseWorkflow.executeParametersPhase h r) as [[v|e] r1] end;
    simpl in Hpure; subst r1.
  - eval_phase WMessage2. rewrite Hget, Hmsg. cbn. rewrite Hmsg. cbn.
    do 3 eexists. split; [reflexivity|]. right. done.
  - do 3 eexists. split; [reflexivity|]. by left.
Qed.

(* ===================================================================== *)
(** ** The value a dispatch resolves to *)
(* ===================================================================== *)

(** From here on [simpl] leaves the pipeline folded. *)
Arguments execute : simpl never.
Arguments executePipeline : simpl never.
Arguments executePhase : simpl never.

Lemma result_kept_refl r : result_kept r r.
Proof. done. Qed.

Lemma result_kept_trans r1 r2 r3 :
  result_kept r1 r2 -> result_kept r2 r3 -> result_kept r1 r3.
Proof. unfold result_kept. congruence. Qed.

Lemma handler_result_kept (k : RepoWorkflow) (phase : string) (h : Host) :
  k <> WCritic -> frames result_kept (handlerOf k phase h).
Proof.
  intros Hk.
  destruct k; try done; unfold handlerOf, baseHandler; repeat case_match; unfold_handlers;
    repeat frames_step result_kept_refl result_kept_trans; done.
Qed.

Lemma runPhases_result_kept (k : RepoWorkflow) (h : Host) (ps : list string) (r : Run) :
  k <> WCritic -> Forall (fun p => p ∈ phases) ps ->
  result_kept r (snd (snd (runPhases (workflowOf k) h ps r))).
Proof.
  intros Hk Hps. revert r. induction Hps as [|p ps Hp Hps IH]; intros r; simpl; [done|].
  rewrite (executePhase_handlerOf k h p Hp).
  pose proof (handler_result_kept k p h Hk r) as Hh.
  destruct (handlerOf k p h r) as [[result|e] r1]; simpl in *; [|done].
  match goal with |- context [runPhases _ h ps ?r2] =>
    specialize (IH r2); destruct (runPhases (workflowOf k) h ps r2) as [t [o r3]] end.
  simpl in *. unfold result_kept in *. simpl in IH. congruence.
Qed.

(** A run that returns recorded, under [workflow], what the workflow-phase
    handler returned for the dispatched command. *)
Lemma execute_workflow_entry (k : RepoWorkflow) (h : Host) (r : Run) t v r' :
  execute (workflowOf k) h r = (t, (Ok v, r')) ->
  exists r2 vw r3,
    handlerOf k "workflow" h r2 = (Ok vw, r3) /\
    Ctx.command (ctx r2) = Ctx.command (ctx r) /\
    get "workflow" (Ctx.phaseResults (ctx r')) = vw.
Proof.
  unfold execute, executePipeline, phases.
  set (r0 := {| ctx := Ctx.set_phaseResults [] (ctx r); world := world r |}).
  rewrite runPhases_cons, (executePhase_handlerOf k) by (repeat constructor).
  pose proof (handler_preserved k "initialization" h r0) as [Hc1 _ Hp1 _ _].
  destruct (handlerOf k "initialization" h r0) as [[v1|e1] r1]; [|done].
  rewrite runPhases_cons, (executePhase_handlerOf k) by (repeat constructor).
  set (r1' := recordResult "initialization" v1 r1) in *.
  pose proof (handler_preserved k "parameters" h r1') as [Hc2 _ Hp2 _ _].
  destruct (handlerOf k "parameters" h r1') as [[v2|e2] r2]; [|done].
  rewrite runPhases_cons, (executePhase_handlerOf k) by (repeat constructor).
  set (r2' := recordResult "parameters" v2 r2) in *.
  pose proof (handler_preserved k "workflow" h r2') as [Hc3 _ Hp3 _ _].
  destruct (handlerOf k "workflow" h r2') as [[v3|e3] r3] eqn:Hwf; [|done].
  rewrite runPhases_cons, (executePhase_handlerOf k) by (repeat constructor).
  set (r3' := recordResult "workflow" v3 r3) in *.
  pose proof (handler_preserved k "validation" h r3') as [Hc4 _ Hp4 _ _].
  destruct (handlerOf k "validation" h r3') as [[v4|e4] r4]; [|done].
  rewrite runPhases_cons, (executePhase_handlerOf k) by (repeat constructor).
  set (r4' := recordResult "validation" v4 r4) in *.
  pose proof (handler_preserved k "output" h r4') as [Hc5 _ Hp5 _ _].
  destruct (handlerOf k "output" h r4') as [[v5|e5] r5]; [|done].
  cbn [runPhases]. intros [= <- <- <-].
  exists r2', v3, r3. split; [done|]. split.
  - simpl in *. congruence.
  - simpl in *. rewrite Hp5. simpl. rewrite Hp4. simpl. rewrite Hp3. simpl.
    rewrite Hp2. simpl. rewrite Hp1. reflexivity.
Qed.

(** The workflow-phase handlers of the message, system, agent, meta and
    output workflows return such a value for each command they list. *)
Lemma workflow_handler_reports (k : RepoWorkflow) (h : Host) (r : Run) v r' :
  k <> WBase -> k <> WCritic ->
  isSupportedCommand (workflowOf k) (Ctx.command (ctx r)) = true ->
  handlerOf k "workflow" h r = (Ok v, r') ->
  reportsAction v.
Proof.
  intros Hb Hc Hsup. apply bool_decide_eq_true in Hsup.
  destruct r as [c w]. simpl in Hsup.
  destruct k; try done; simpl in Hsup;
    rewrite !elem_of_cons, elem_of_nil in Hsup;
    lazy [handlerOf baseHandler String.eqb Ascii.eqb Bool.eqb];
    unfold_handlers; unfold throw_if, bind, ret, gets, modify, throw;
    cbn -[insert lookup stringify SystemWorkflow.textManifest SystemWorkflow.manifest];
    repeat (destruct Hsup as [Hsup|Hsup]; [rewrite Hsup|]); try done;
    cbn -[insert lookup stringify SystemWorkflow.textManifest SystemWorkflow.manifest];
    unfold_handlers; unfold throw_if, bind, ret, gets, modify, throw;
    cbn -[insert lookup stringify SystemWorkflow.textManifest SystemWorkflow.manifest];
    intros Heq; repeat case_match; simplify_eq;
    (eexists _, _; split; [reflexivity|]; split; reflexivity).
Qed.

(** *** The pieces of [executeCommand] *)

Lemma pushContext_extractSave h command params w :
  Orchestrator3.pushContext h command (fst (Orchestrator3.extractSave params [])) w
  = Orchestrator3.pushContext h command params w.
Proof.
  unfold Orchestrator3.pushContext, Orchestrator3.extractSave.
  destruct (truthy (get "save" params)); simpl; [|done].
  by rewrite get_delete_key_ne.
Qed.

Lemma get_absent (k : string) (o : obj) : k ∉ keys o -> get k o = VUndefined.
Proof.
  unfold keys. induction o as [|[k' v'] o IH]; cbn [get map fst]; [done|].
  intros Hk. apply not_elem_of_cons in Hk as [Hne Hk].
  destruct (String.eqb_spec k k'); [done|]. by apply IH.
Qed.

Lemma get_set_eq (k : string) (v : value) (o : obj) : get k (set k v o) = v.
Proof.
  induction o as [|[k' v'] o IH]; simpl.
  - by rewrite String.eqb_refl.
  - destruct (String.eqb_spec k k') as [->|Hne]; simpl.
    + by rewrite String.eqb_refl.
    + by destruct (String.eqb_spec k k').
Qed.

Lemma get_save_globalParams (params : obj) :
  get "save" (globalParamsOf params) = js_or (get "save" params) VUndefined.
Proof.
  unfold globalParamsOf, Orchestrator3.extractSave, Orchestrator3.extractContext, js_or.
  destruct (truthy (get "save" params)); simpl;
    rewrite ?get_delete_key_ne by done;
    destruct (truthy (get "context" params)); simpl; done.
Qed.

(** A dispatch that resolves went through [execute], and wrote the trace
    file if and only if [context.save] was set when [execute] returned. *)
Lemma executeCommand_resolved (reg : Registry) (h : Host) (command : string)
    (params : obj) (w : World) t v w' :
  Orchestrator3.executeCommand reg h command params w = (t, (Ok v, w')) ->
  exists wf r',
    reg !! categoryOf command = Some wf /\
    isSupportedCommand wf command = true /\
    execute wf h (dispatchRun h command params w) = (t, (Ok v, r')) /\
    if truthy (Ctx.save (ctx r')) then
      exists path,
        Ctx.save (ctx r') = VStr path /\
        w' = with_files
               (<[path := stringify h
                            (Orchestrator3.pipelineData h (ctx r') (globalParamsOf params) v)]>
                  (w_files (world r')))
               (world r')
    else w' = world r'.
Proof.
  unfold Orchestrator3.executeCommand, dispatchRun, strippedParams, globalParamsOf.
  rewrite <- (pushContext_extractSave h command params w).
  destruct (Orchestrator3.extractSave params []) as [params1 gp1].
  destruct (Orchestrator3.extractContext params1 gp1) as [params2 gp].
  cbn [fst snd].
  destruct (reg !! categoryOf command) as [wf|]; [|intros [=]].
  destruct (isSupportedCommand wf command) eqn:Hsup; [|intros [=]].
  cbn [negb].
  match goal with |- context [execute wf h ?r] =>
    destruct (execute wf h r) as [t0 [[v0|e0] r']] eqn:Hexec end;
    cbv beta iota; [|intros [=]].
  intros Hres. exists wf, r'.
  destruct (truthy (Ctx.save (ctx r'))) eqn:Hsave.
  - unfold Orchestrator3.savePipelineData in Hres.
    destruct (Ctx.save (ctx r')) as [| | | |path| |] eqn:Hpath;
      cbv beta iota in Hres; try discriminate Hres.
    destruct (writeError h path); cbv beta iota in Hres; [discriminate Hres|].
    injection Hres as <- <- <-.
    split; [done|]. split; [done|]. split; [exact Hexec|]. by exists path.
  - injection Hres as <- <- <-.
    split; [done|]. split; [done|]. split; [exact Hexec|done].
Qed.

(** The dispatch of the scenario does not resolve to the three-field
    object but to the map of phase results. *)
Lemma message_new_result_counterexample :
  fst (snd (Orchestrator3.executeCommand (Orchestrator3.workflows Orchestrator3.Plain)
              exampleHost "message:new"
              [("message", VStr "hi"); ("to", VStr "discussion-moderator")]
              Orchestrator3.initialWorld))
  <> Ok (VObj [("success", VBool true); ("action", VStr "created");
               ("message", VObj [("content", VStr "hi");
                                 ("to", VStr "discussion-moderator")])]).
Proof. vm_compute. discriminate. Qed.

(** C2, on the code.  No handler of the message, system, agent and meta
    workflows sets [context.result], so every dispatch of one of their
    commands that resolves, resolves to the fallback of [executePipeline]:
    the map of phase results, one entry per phase.  That value has no
    [success] and no [action] field; the object with [success: true] and a
    string-valued [action] that the handler returned is its [workflow]
    entry.  So [message:new] with the parameters of the scenario, handled
    by [message.js], resolves to the map shown. *)
Theorem dispatch_resolves_to_phase_results :
  (forall (m : Orchestrator3.MessageCopy) (h : Host) (command : string) (params : obj)
          (w : World) t v w',
     categoryOf command <> "critic" ->
     Orchestrator3.executeCommand (Orchestrator3.workflows m) h command params w
       = (t, (Ok v, w')) ->
     prop "success" v = VUndefined /\ prop "action" v = VUndefined /\
     exists pr wfres a,
       v = VObj pr /\ keys pr = phases /\
       get "workflow" pr = VObj wfres /\
       get "success" wfres = VBool true /\ get "action" wfres = VStr a) /\
  (forall (h : Host) (w : World),
     Orchestrator3.executeCommand (Orchestrator3.workflows Orchestrator3.Plain) h
       "message:new" [("message", VStr "hi"); ("to", VStr "discussion-moderator")] w
     = (ranToCompletion phases,
        (Ok (VObj
          [("initialization", VObj [("status", VStr "initialized")]);
           ("parameters",
            VObj [("status", VStr "parameters_processed");
                  ("params", VObj [("message", VStr "hi");
                                   ("to", VStr "discussion-moderator")])]);
           ("workflow",
            VObj [("success", VBool true); ("action", VStr "created");
                  ("message",
                   VObj [("content", VStr "hi");
                         ("to", VStr "discussion-moderator");
                         ("timestamp", VStr (now h));
                         ("formattedContent",
                          VStr "Message: hi (to: discussion-moderator)")])]);
           ("validation", VObj [("status", VStr "validated")]);
           ("output", VObj [("status", VStr "output_formatted")])]), w))).
Proof.
  split; [|intros h w; vm_compute; reflexivity].
  intros m h command params w t v w' Hcat Hexec.
  apply executeCommand_resolved in Hexec as (wf & r' & Hreg & Hsup & Hexec & _).
  apply workflows3_lookup in Hreg as (k & -> & Hk).
  destruct (registered_kind_not_critic m _ k Hk Hcat) as [Hkb Hkc].
  pose proof (execute_frame k h (dispatchRun h command params w)) as Hframe.
  pose proof (execute_workflow_entry k h _ _ _ _ Hexec)
    as (r2 & vw & r3 & Hwf & Hcmd & Hentry).
  pose proof (runPhases_result_kept k h phases
                {| ctx := Ctx.set_phaseResults [] (ctx (dispatchRun h command params w));
                   world := world (dispatchRun h command params w) |}
                Hkc (Forall_phases)) as Hres.
  unfold execute, executePipeline in Hexec, Hframe.
  destruct (runPhases (workflowOf k) h phases _) as [t0 [[[]|e0] r1]];
    [|discriminate Hexec].
  destruct Hframe as (_ & _ & _ & _ & _ & Hok).
  destruct (Hok _ eq_refl) as (_ & Hkeys & _).
  injection Hexec as <- <- <-.
  unfold result_kept in Hres.
  cbn [fst snd ctx Ctx.result Ctx.set_phaseResults dispatchRun] in Hres.
  rewrite Hres. unfold js_or. cbn [truthy].
  assert (Hrep : reportsAction vw).
  { eapply (workflow_handler_reports k h r2); [done|done| |exact Hwf].
    by rewrite Hcmd. }
  destruct Hrep as (o & a & -> & Hs & Ha).
  cbn [prop]. rewrite !get_absent by (rewrite Hkeys; by compute_done).
  split; [reflexivity|]. split; [reflexivity|].
  exists (Ctx.phaseResults (ctx r1)), o, a.
  split; [reflexivity|]. split; [exact Hkeys|]. split; [exact Hentry|]. split; assumption.
Qed.

Lemma dispatch_resolves_to_phase_results_witness :
  let v :=
    VObj [("initialization", VObj [("status", VStr "initialized")]);
          ("parameters", VObj [("status", VStr "parameters_processed");
                               ("params", VObj [("list", VBool true)])]);
          ("workflow", VObj [("success", VBool true); ("action", VStr "context_listed");
                             ("context", VArr [])]);
          ("validation", VObj [("status", VStr "validated")]);
          ("output", VObj [("status", VStr "output_formatted")])] in
  categoryOf "meta:context" <> "critic" /\
  prop "success" v = VUndefined /\ prop "action" v = VUndefined /\
  exists pr wfres a,
    v = VObj pr /\
    keys pr = phases /\
    get "workflow" pr = VObj wfres /\
    get "success" wfres = VBool true /\ get "action" wfres = VStr a.
Proof.
  intros v.
  assert (Hcat : categoryOf "meta:context" <> "critic") by (vm_compute; discriminate).
  split; [exact Hcat|].
  refine (proj1 dispatch_resolves_to_phase_results Orchestrator3.Plain exampleHost
            "meta:context" [("list", VBool true)] Orchestrator3.initialWorld
            (ranToCompletion phases) _ Orchestrator3.initialWorld Hcat _).
  vm_compute. reflexivity.
Defined.

(* ===================================================================== *)
(** ** What [execute] returns *)
(* ===================================================================== *)

(** In the earlier copy of [BaseWorkflow] the value returned is always the
    map of phase results, one entry per phase, whatever the handlers did to
    [context.result]. *)
Lemma early_runPhases_keys (w : Workflow) (h : Host) (ps : list string)
    (results : obj) (r : Run) t results' r' :
  NoDup (keys results ++ ps) ->
  BaseWorkflowEarly.runPhases w h ps results r = (t, (Ok results', r')) ->
  keys results' = keys results ++ ps.
Proof.
  revert results r t. induction ps as [|p ps IH]; intros results r t Hnd; simpl.
  { intros [= <- <- <-]. by rewrite app_nil_r. }
  destruct (executePhase w h p r) as [[result|e] r1]; [|done].
  destruct (BaseWorkflowEarly.runPhases w h ps (set p result results) r1)
    as [t' [o r3]] eqn:Hrun.
  intros [= <- -> ->].
  assert (Hfresh : p ∉ keys results).
  { apply NoDup_app in Hnd as (_ & Hdisj & _). intros Hin.
    apply (Hdisj p Hin). by left. }
  rewrite (IH _ _ _ ltac:(rewrite keys_set_fresh, <- app_assoc by done; exact Hnd) Hrun).
  by rewrite keys_set_fresh, <- app_assoc.
Qed.

Lemma early_executePipeline_returns_results (w : Workflow) (h : Host) (r : Run) t v r' :
  BaseWorkflowEarly.executePipeline w h r = (t, (Ok v, r')) ->
  exists results, v = VObj results /\ keys results = phases.
Proof.
  unfold BaseWorkflowEarly.executePipeline.
  destruct (BaseWorkflowEarly.runPhases w h phases [] r) as [t0 [[results|e] r1]] eqn:Hrun;
    [|done].
  intros [= <- <- <-]. exists results. split; [done|].
  apply (early_runPhases_keys w h phases [] r t0 results r1); [|exact Hrun].
  apply NoDup_phases.
Qed.

(** There the parameters phase accepts any [save] and any [context]. *)
Lemma early_parameters_phase_checks_nothing (h : Host) (r : Run) :
  BaseWorkflowEarly.executeParametersPhase h r
  = (Ok (VObj [("status", VStr "parameters_processed");
               ("params", VObj (Ctx.params (ctx r)))]), r).
Proof. reflexivity. Qed.

(** A run that returns ends with the output-phase handler, and keeps the
    [context.result] that handler left. *)
Lemma execute_output_entry (k : RepoWorkflow) (h : Host) (r : Run) t v r' :
  execute (workflowOf k) h r = (t, (Ok v, r')) ->
  exists r4 v5 r5,
    handlerOf k "output" h r4 = (Ok v5, r5) /\
    Ctx.result (ctx r') = Ctx.result (ctx r5).
Proof.
  unfold execute, executePipeline, phases.
  set (r0 := {| ctx := Ctx.set_phaseResults [] (ctx r); world := world r |}).
  rewrite runPhases_cons, (executePhase_handlerOf k) by (repeat constructor).
  destruct (handlerOf k "initialization" h r0) as [[v1|e1] r1]; [|done].
  rewrite runPhases_cons, (executePhase_handlerOf k) by (repeat constructor).
  destruct (handlerOf k "parameters" h _) as [[v2|e2] r2]; [|done].
  rewrite runPhases_cons, (executePhase_handlerOf k) by (repeat constructor).
  destruct (handlerOf k "workflow" h _) as [[v3|e3] r3]; [|done].
  rewrite runPhases_cons, (executePhase_handlerOf k) by (repeat constructor).
  destruct (handlerOf k "validation" h _) as [[v4|e4] r4]; [|done].
  rewrite runPhases_cons, (executePhase_handlerOf k) by (repeat constructor).
  destruct (handlerOf k "output" h _) as [[v5|e5] r5] eqn:Hout; [|done].
  cbn [runPhases]. intros [= <- <- <-]. eauto.
Qed.

(** The output phase of [CriticWorkflow] sets [context.result]. *)
Lemma critic_output_sets_result (h : Host) (r : Run) v r' :
  CriticWorkflow.executeOutputPhase h r = (Ok v, r') ->
  exists o, Ctx.result (ctx r') = VObj o.
Proof.
  destruct r as [c w].
  unfold CriticWorkflow.executeOutputPhase, getc, setc, bind, gets, modify, ret, throw.
  cbn [ctx world id fst snd].
  destruct (get "domain" (Ctx.params c)); try done.
  intros [= <- <-]. simpl. eauto.
Qed.

(** C5.  For every workflow of the repository and every run of [execute]
    that starts, as a dispatch does, with [context.result] unset and that
    returns: all five phases ran; the phase results hold one entry per
    phase, in phase order; if a phase has set [context.result], that value
    is what [execute] returns; if none has, the map of phase results is
    returned, as a normal return.  [CriticWorkflow] sets the result (in its
    output phase, to an object); no other workflow does. *)
Theorem execute_returns_result_or_phase_results (k : RepoWorkflow) (h : Host)
    (r : Run) t v r' :
  Ctx.result (ctx r) = VUndefined ->
  execute (workflowOf k) h r = (t, (Ok v, r')) ->
  t = ranToCompletion phases /\
  keys (Ctx.phaseResults (ctx r')) = phases /\
  (Ctx.result (ctx r') <> VUndefined -> v = Ctx.result (ctx r')) /\
  (Ctx.result (ctx r') = VUndefined -> v = VObj (Ctx.phaseResults (ctx r'))) /\
  (Ctx.result (ctx r') <> VUndefined <-> k = WCritic).
Proof.
  intros Hunset Hexec.
  pose proof (execute_frame k h r) as Hframe. rewrite Hexec in Hframe.
  destruct Hframe as (_ & _ & _ & Hres & _ & Hok).
  destruct (Hok v eq_refl) as (Ht & Hkeys & Hv).
  split; [exact Ht|]. split; [exact Hkeys|].
  rewrite Hunset in Hres. split; [|split].
  - intros Hset. destruct Hres as [Hres|[o Hres]]; [done|].
    by rewrite Hv, Hres.
  - intros Hnone. by rewrite Hv, Hnone.
  - split.
    + intros Hset. destruct (decide (k = WCritic)) as [|Hk]; [done|].
      exfalso. apply Hset.
      pose proof (runPhases_result_kept k h phases
                    {| ctx := Ctx.set_phaseResults [] (ctx r); world := world r |}
                    Hk (Forall_phases)) as Hkept.
      unfold execute, executePipeline in Hexec.
      destruct (runPhases (workflowOf k) h phases _) as [t0 [[[]|e0] r1]];
        [|discriminate Hexec].
      injection Hexec as <- <- <-. unfold result_kept in Hkept.
      cbn [fst snd ctx Ctx.result Ctx.set_phaseResults] in Hkept. congruence.
    + intros ->.
      apply execute_output_entry in Hexec as (r4 & v5 & r5 & Hout & ->).
      apply critic_output_sets_result in Hout as [o ->]. done.
Qed.

Lemma execute_returns_result_or_phase_results_witness :
  let r := {| ctx := emptyContext "critic:mentor" [("source", VStr "a draft")];
              world := Orchestrator3.initialWorld |} in
  exists t v r',
    Ctx.result (ctx r) = VUndefined /\
    execute (workflowOf WCritic) exampleHost r = (t, (Ok v, r')) /\
    t = ranToCompletion phases /\
    keys (Ctx.phaseResults (ctx r')) = phases /\
    (Ctx.result (ctx r') <> VUndefined -> v = Ctx.result (ctx r')) /\
    (Ctx.result (ctx r') = VUndefined -> v = VObj (Ctx.phaseResults (ctx r'))) /\
    (Ctx.result (ctx r') <> VUndefined <-> WCritic = WCritic).
Proof.
  intros r. eexists _, _, _.
  split; [reflexivity|]. split; [vm_compute; reflexivity|].
  apply (execute_returns_result_or_phase_results WCritic exampleHost r);
    [reflexivity | vm_compute; reflexivity].
Defined.

(* ===================================================================== *)
(** ** The Global Context Store across dispatches *)
(* ===================================================================== *)

Lemma pushContext_frame h command params w :
  let w1 := Orchestrator3.pushContext h command params w in
  w_files w1 = w_files w /\ w_settings w1 = w_settings w /\
  store_step command (w_context w) (w_context w1).
Proof.
  unfold Orchestrator3.pushContext.
  destruct (truthy (get "context" params)); simpl;
    (split; [done|]; split; [done|]); [|apply store_step_refl].
  left. eexists [_]. split; [done|]. by repeat constructor.
Qed.

Lemma store_step_trans command s1 s2 s3 :
  (exists added, s2 = s1 ++ added /\ Forall (fun e => e_command e = command) added) ->
  store_step command s2 s3 -> store_step command s1 s3.
Proof.
  intros (a1 & -> & Ha1) [(a2 & -> & Ha2) | ->]; [|by right].
  left. exists (a1 ++ a2). rewrite app_assoc. split; [done|]. by apply Forall_app.
Qed.

Lemma pushContext_appends h command params w :
  exists added,
    w_context (Orchestrator3.pushContext h command params w) = w_context w ++ added /\
    Forall (fun e => e_command e = command) added.
Proof.
  unfold Orchestrator3.pushContext.
  destruct (truthy (get "context" params)); simpl.
  - eexists [_]. split; [done|]. by repeat constructor.
  - exists []. by rewrite app_nil_r.
Qed.

(** One dispatch, whatever its outcome, makes one step of the store. *)
Lemma executeCommand_store_step (m : Orchestrator3.MessageCopy) (h : Host)
    (command : string) (params : obj) (w : World) :
  store_step command (w_context w)
    (w_context (snd (snd (Orchestrator3.executeCommand
                            (Orchestrator3.workflows m) h command params w)))).
Proof.
  unfold Orchestrator3.executeCommand.
  destruct (Orchestrator3.extractSave params []) as [params1 gp1].
  destruct (Orchestrator3.extractContext params1 gp1) as [params2 gp].
  cbn [fst snd].
  pose proof (pushContext_appends h command params1 w) as Hpush.
  assert (Hstep0 : store_step command (w_context w)
            (w_context (Orchestrator3.pushContext h command params1 w))).
  { eapply store_step_trans; [exact Hpush|apply store_step_refl]. }
  destruct (Orchestrator3.workflows m !! categoryOf command) as [wf|] eqn:Hreg;
    [|exact Hstep0].
  destruct (isSupportedCommand wf command); [|exact Hstep0]. cbn [negb].
  apply workflows3_lookup in Hreg as (k & -> & _).
  match goal with |- context [execute (workflowOf k) h ?r] =>
    pose proof (execute_frame k h r) as Hframe;
    destruct (execute (workflowOf k) h r) as [t0 [[v0|e0] r']] end;
    cbn [ctx world Ctx.command] in Hframe;
    destruct Hframe as (_ & _ & _ & _ & Hstore & _);
    pose proof (store_step_trans _ _ _ _ Hpush Hstore) as Hstep.
  - destruct (truthy (Ctx.save (ctx r'))); [|exact Hstep].
    unfold Orchestrator3.savePipelineData.
    destruct (Ctx.save (ctx r')); try exact Hstep.
    destruct (writeError h s); exact Hstep.
  - exact Hstep.
Qed.

(** C6, as stated, fails: [meta:context] with an [add] text of 1001
    characters resolves and leaves that text in the store. *)
Lemma store_content_bound_counterexample :
  let d := Orchestrator3.executeCommand (Orchestrator3.workflows Orchestrator3.Plain)
             exampleHost "meta:context" [("add", VStr (text 1001))]
             Orchestrator3.initialWorld in
  is_ok (fst (snd d)) = true /\
  ~ Forall content_bounded (w_context (snd (snd d))).
Proof.
  split; [vm_compute; reflexivity|].
  intros Hall.
  assert (Hstore : w_context (snd (snd
            (Orchestrator3.executeCommand (Orchestrator3.workflows Orchestrator3.Plain)
               exampleHost "meta:context" [("add", VStr (text 1001))]
               Orchestrator3.initialWorld)))
          = [{| e_command := "meta:context"; e_content := VStr (text 1001);
                e_timestamp := now exampleHost |}]) by (vm_compute; reflexivity).
  rewrite Hstore in Hall. apply Forall_inv in Hall as (s & Hs & Hlen).
  cbn [e_content] in Hs. injection Hs as <-.
  change (String.length (text 1001) <= 1000)%nat in Hlen.
  rewrite length_text in Hlen. lia.
Qed.

(** C6, amended.  An entry present in the store stays where it is,
    unchanged, through any sequence of dispatches, unless some dispatch of
    the sequence left the store empty: entries are never mutated, and they
    go only all at once.  No bound on the length of the content is part of
    the invariant. *)
Theorem store_entries_persist_until_cleared (m : Orchestrator3.MessageCopy)
    (qs : list Request) (w : World) (i : nat) (e : GlobalContextEntry) :
  w_context w !! i = Some e ->
  w_context (dispatchAll (Orchestrator3.workflows m) qs w) !! i = Some e \/
  exists qs1 qs2,
    qs = qs1 ++ qs2 /\ qs1 <> [] /\
    w_context (dispatchAll (Orchestrator3.workflows m) qs1 w) = [].
Proof.
  revert w. induction qs as [|q qs IH]; intros w He; [by left|].
  simpl.
  pose proof (executeCommand_store_step m (rq_host q) (rq_command q) (rq_params q) w)
    as [(added & Hadd & _) | Hclear].
  - fold (dispatch (Orchestrator3.workflows m) q w) in Hadd.
    destruct (IH (dispatch (Orchestrator3.workflows m) q w)) as [Hkeep | (qs1 & qs2 & -> & _ & Hnil)].
    + rewrite Hadd. by apply lookup_app_l_Some.
    + by left.
    + right. exists (q :: qs1), qs2. done.
  - right. exists [q], qs. done.
Qed.

Lemma store_entries_persist_until_cleared_witness :
  let w := with_context [{| e_command := "message:new"; e_content := VStr "note";
                            e_timestamp := "2025-11-16T09:00:00.000Z" |}]
             Orchestrator3.initialWorld in
  let qs := [{| rq_host := exampleHost; rq_command := "meta:context";
                rq_params := [("add", VStr "more")] |};
             {| rq_host := exampleHost; rq_command := "bogus:foo";
                rq_params := [("context", VStr "lost")] |}] in
  w_context w !! 0%nat = Some {| e_command := "message:new"; e_content := VStr "note";
                                 e_timestamp := "2025-11-16T09:00:00.000Z" |} /\
  (w_context (dispatchAll (Orchestrator3.workflows Orchestrator3.Plain) qs w) !! 0%nat
     = Some {| e_command := "message:new"; e_content := VStr "note";
               e_timestamp := "2025-11-16T09:00:00.000Z" |} \/
   exists qs1 qs2,
     qs = qs1 ++ qs2 /\ qs1 <> [] /\
     w_context (dispatchAll (Orchestrator3.workflows Orchestrator3.Plain) qs1 w) = []).
Proof.
  intros w qs. split; [reflexivity|].
  apply (store_entries_persist_until_cleared Orchestrator3.Plain qs w 0). reflexivity.
Defined.

(* ===================================================================== *)
(** ** The pipeline trace file *)
(* ===================================================================== *)







(** The dispatch of a command that a workflow of the repository lists. *)
Lemma executeCommand_registered (m : Orchestrator3.MessageCopy) (h : Host)
    (command : string) (params : obj) (w : World) (k : RepoWorkflow) :
  Orchestrator3.workflows m !! categoryOf command = Some (workflowOf k) ->
  isSupportedCommand (workflowOf k) command = true ->
  Orchestrator3.executeCommand (Orchestrator3.workflows m) h command params w
  = match execute (workflowOf k) h (dispatchRun h command params w) with
    | (t, (Ok result, r)) =>
        if truthy (Ctx.save (ctx r)) then
          match Orchestrator3.savePipelineData h (Ctx.save (ctx r))
                  (Orchestrator3.pipelineData h (ctx r) (globalParamsOf params) result)
                  (world r) with
          | (Ok _, w2) => (t, (Ok result, w2))
          | (Throw e, w2) => (t, (Throw e, w2))
          end
        else (t, (Ok result, world r))
    | (t, (Throw e, r)) => (t, (Throw e, world r))
    end.
Proof.
  intros Hreg Hsup.
  unfold Orchestrator3.executeCommand, dispatchRun, strippedParams, globalParamsOf.
  rewrite <- (pushContext_extractSave h command params w).
  destruct (Orchestrator3.extractSave params []) as [params1 gp1].
  destruct (Orchestrator3.extractContext params1 gp1) as [params2 gp].
  cbn [fst snd]. rewrite Hreg, Hsup. reflexivity.
Qed.








(* ===================================================================== *)
(** ** [output:verbosity], had the first [initialize] stayed in force *)
(* ===================================================================== *)

Lemma supported_output_verbosity :
  isSupportedCommand (workflowOf WOutput) "output:verbosity" = true.
Proof. reflexivity. Qed.

(** With the registry of the first [initialize], [output:verbosity] does
    what the command documentation says: a level of the enumeration is
    stored in the session settings and the dispatch resolves; any other
    level is rejected in the workflow phase with the error that lists the
    enumeration, and the settings stay as they were. *)
Lemma output_verbosity_when_registered (EmailWorkflow : Workflow) (h : Host)
    (level : value) (w : World) :
  let d := Orchestrator2.executeCommand (Orchestrator2.initialize_1 EmailWorkflow ∅) h
             "output:verbosity" [("level", level)] w in
  if includes OutputWorkflow.validLevels level
  then fst d = ranToCompletion phases /\
       is_ok (fst (snd d)) = true /\
       snd (snd d) = with_settings (Some (set "verbosity" level (default [] (w_settings w)))) w
  else d = ([Started "initialization"; Finished "initialization";
             Started "parameters"; Finished "parameters"; Started "workflow"],
            (Throw (Error "Invalid verbosity level. Valid options: low, medium, high, off"),
             w)).
Proof.
  unfold Orchestrator2.executeCommand, Orchestrator.executeCommand,
    Orchestrator2.initialize_1, register.
  replace (categoryOf "output:verbosity") with "output" by done.
  rewrite lookup_insert_ne, lookup_insert_eq by done.
  change OutputWorkflow.workflow with (workflowOf WOutput).
  rewrite supported_output_verbosity. cbn [negb].
  unfold execute, executePipeline, phases, emptyContext.
  destruct w as [settings store files agents templates].
  remember (includes OutputWorkflow.validLevels level) as valid eqn:Hvalid.
  do 2 (eval_phase WOutput).
  rewrite runPhases_cons, (executePhase_handlerOf WOutput) by (repeat constructor).
  lazy [handlerOf baseHandler String.eqb Ascii.eqb Bool.eqb].
  unfold_handlers. unfold throw_if, bind, ret, gets, modify, throw.
  cbn -[insert lookup stringify runPhases includes]. rewrite <- Hvalid.
  destruct valid; cbn -[insert lookup stringify runPhases].
  - do 2 (eval_phase WOutput). cbn [runPhases]. cbn -[insert lookup stringify]. done.
  - reflexivity.
Qed.

(* ===================================================================== *)
(** ** Further facts about the copies of the code *)
(* ===================================================================== *)

(** [executePipeline] of [base.js], for any workflow whatever: the value
    returned is [context.result || context.phaseResults] as the last phase
    left them, so a falsy [context.result] gives the phase results. *)
Lemma execute_returns_js_or (w : Workflow) (h : Host) (r : Run) t v r' :
  execute w h r = (t, (Ok v, r')) ->
  v = js_or (Ctx.result (ctx r')) (VObj (Ctx.phaseResults (ctx r'))).
Proof.
  unfold execute, executePipeline.
  destruct (runPhases w h phases _) as [t0 [[[]|e0] r1]]; [|done].
  by intros [= <- <- <-].
Qed.

(** No orchestrator of the repository has a workflow for [output]. *)
Lemma output_category_is_registered_nowhere (m : Orchestrator3.MessageCopy)
    (EmailWorkflow : Workflow) :
  Orchestrator.workflows !! "output" = None /\
  Orchestrator2.workflows EmailWorkflow !! "output" = None /\
  Orchestrator3.workflows m !! "output" = None.
Proof.
  split; [|split].
  - reflexivity.
  - rewrite workflows_registered. by rewrite !lookup_insert_ne, lookup_empty by done.
  - unfold Orchestrator3.workflows, Orchestrator3.initialize, register.
    by rewrite !lookup_insert_ne, lookup_empty by done.
Qed.

(** A critic dispatch resolves to the object its output phase stores in
    [context.result]: personality, domain and report, with neither
    [success] nor [action]. *)
Lemma critic_resolves_to_report (m : Orchestrator3.MessageCopy) (h : Host) (w : World) :
  exists report w',
    Orchestrator3.executeCommand (Orchestrator3.workflows m) h "critic:harsh"
      [("source", VStr "text")] w
    = (ranToCompletion phases,
       (Ok (VObj [("personality", VStr "harsh"); ("domain", VStr "general");
                  ("report", VStr report)]), w')).
Proof.
  unfold Orchestrator3.executeCommand.
  cbn -[insert lookup phases Orchestrator3.workflows execute].
  rewrite workflows3_critic, supported_critic_harsh.
  cbn -[insert lookup phases execute workflowOf].
  unfold execute, executePipeline, phases.
  do 3 (eval_phase WCritic).
  rewrite !lookup_insert_eq. eval_monad.
  do 2 (eval_phase WCritic).
  cbn [runPhases]. cbn -[insert lookup stringify CriticWorkflow.formatCritiqueReport].
  do 2 eexists. reflexivity.
Qed.

(** For the categories that inherit the parameters phase, a dispatch whose
    [context] has more than 1000 characters is stopped there: the workflow
    phase is not entered. *)
Lemma inherited_check_stops_long_context (m : Orchestrator3.MessageCopy) (h : Host)
    (command : string) (params : obj) (w : World) (wf : Workflow) (s : string) :
  Orchestrator3.workflows m !! categoryOf command = Some wf ->
  isSupportedCommand wf command = true ->
  categoryOf command <> "critic" ->
  truthy (get "save" params) = false ->
  get "context" params = VStr s ->
  (1000 < String.length s)%nat ->
  exists w',
    Orchestrator3.executeCommand (Orchestrator3.workflows m) h command params w
    = ([Started "initialization"; Finished "initialization"; Started "parameters"],
       (Throw (Error "Context must be less than 1000 characters"), w')).
Proof.
  intros Hreg Hsup Hcat Hsave Hctx Hlen.
  assert (Htruthy : truthy (get "context" params) = true).
  { rewrite Hctx. destruct s; [simpl in Hlen; lia|done]. }
  unfold Orchestrator3.executeCommand, Orchestrator3.extractSave,
    Orchestrator3.extractContext.
  rewrite Hsave, Htruthy, Hreg, Hsup. cbn [negb].
  apply workflows3_lookup in Hreg as (k & -> & Hk).
  destruct (registered_kind_not_critic m _ k Hk Hcat) as [_ Hkc].
  unfold execute, executePipeline, phases.
  rewrite runPhases_cons, (executePhase_handlerOf k) by (repeat constructor).
  replace (handlerOf k "initialization") with BaseWorkflow.executeInitializationPhase
    by (by destruct k).
  unfold BaseWorkflow.executeInitializationPhase at 1. unfold ret at 1. cbv beta iota.
  rewrite runPhases_cons, (executePhase_handlerOf k) by (repeat constructor).
  replace (handlerOf k "parameters") with BaseWorkflow.executeParametersPhase
    by (by destruct k).
  rewrite (parameters_phase_rejects_long_context h _ s); [eauto| | |exact Hlen].
  - reflexivity.
  - cbn [recordResult ctx Ctx.context Ctx.set_phaseResults]. by rewrite get_set_eq.
Qed.

(* ===================================================================== *)
(** ** Scenarios *)
(* ===================================================================== *)

(** [bogus:foo] is rejected with the error that names the category. *)
Example scenario_unknown_category :
  Orchestrator3.executeCommand (Orchestrator3.workflows Orchestrator3.Plain)
    exampleHost "bogus:foo" [] Orchestrator3.initialWorld
  = ([], (Throw (Error "No workflow found for category: bogus"),
          Orchestrator3.initialWorld)).
Proof. vm_compute. reflexivity. Qed.

(** [meta:context --add note], then [--list]: the listing holds the entry;
    then [--clear] reports one entry cleared and empties the store. *)
Example scenario_context_add_list_clear :
  let reg := Orchestrator3.workflows Orchestrator3.Plain in
  let entry := {| e_command := "meta:context"; e_content := VStr "note";
                  e_timestamp := now exampleHost |} in
  let w1 := dispatch reg {| rq_host := exampleHost; rq_command := "meta:context";
                            rq_params := [("add", VStr "note")] |}
              Orchestrator3.initialWorld in
  let d2 := Orchestrator3.executeCommand reg exampleHost "meta:context"
              [("list", VBool true)] w1 in
  let d3 := Orchestrator3.executeCommand reg exampleHost "meta:context"
              [("clear", VBool true)] w1 in
  w_context w1 = [entry] /\
  (exists pr, fst (snd d2) = Ok (VObj pr) /\
     prop "context" (get "workflow" pr) = VArr [entry_value entry]) /\
  (exists pr, fst (snd d3) = Ok (VObj pr) /\
     prop "clearedCount" (get "workflow" pr) = VNum 1) /\
  w_context (snd (snd d3)) = [].
Proof.
  cbv zeta. split; [vm_compute; reflexivity|].
  split; [eexists; split; vm_compute; reflexivity|].
  split; [eexists; split; vm_compute; reflexivity|].
  vm_compute. reflexivity.
Qed.

(** [agent:switch] to an agent whose file does not exist is rejected in the
    workflow phase and leaves the active agent as it was. *)
Example scenario_switch_to_missing_agent :
  Orchestrator3.executeCommand (Orchestrator3.workflows Orchestrator3.Plain)
    exampleHost "agent:switch" [("name", VStr "ghost")] Orchestrator3.initialWorld
  = ([Started "initialization"; Finished "initialization";
      Started "parameters"; Finished "parameters"; Started "workflow"],
     (Throw (Error ("Agent " +:+ dq +:+ "ghost" +:+ dq +:+ " not found")),
      Orchestrator3.initialWorld)).
Proof. vm_compute. reflexivity. Qed.

(** A relative [save] path stops a [message:new] dispatch in the parameters
    phase; nothing is written. *)
Example scenario_relative_save_path :
  Orchestrator3.executeCommand (Orchestrator3.workflows Orchestrator3.Plain)
    exampleHost "message:new" [("message", VStr "hi"); ("save", VStr "trace.json")]
    Orchestrator3.initialWorld
  = ([Started "initialization"; Finished "initialization"; Started "parameters"],
     (Throw (Error "Save path must be absolute and end with .json"),
      Orchestrator3.initialWorld)).
Proof. vm_compute. reflexivity. Qed.

(* ===================================================================== *)
(** ** Dispatch of a workflow that overrides the workflow phase only *)
(* ===================================================================== *)

Lemma executeCommand_no_globals (m : Orchestrator3.MessageCopy) (h : Host)
    (command : string) (params : obj) (w : World) (k : RepoWorkflow) :
  truthy (get "save" params) = false ->
  truthy (get "context" params) = false ->
  Orchestrator3.workflows m !! categoryOf command = Some (workflowOf k) ->
  isSupportedCommand (workflowOf k) command = true ->
  Orchestrator3.executeCommand (Orchestrator3.workflows m) h command params w
  = let '(t, (o, r)) := execute (workflowOf k) h
                          {| ctx := emptyContext command params; world := w |} in
    (t, (o, world r)).
Proof.
  intros Hsave Hctx Hreg Hsup.
  unfold Orchestrator3.executeCommand, Orchestrator3.extractSave,
    Orchestrator3.extractContext, Orchestrator3.pushContext.
  rewrite Hsave. cbv beta iota. rewrite Hctx, Hreg, Hsup. cbn [negb get].
  fold (emptyContext command params).
  pose proof (execute_frame k h {| ctx := emptyContext command params; world := w |})
    as Hframe.
  destruct (execute (workflowOf k) h _) as [t [[v|e] r]]; [|reflexivity].
  destruct Hframe as (_ & Hsv & _).
  cbn [ctx emptyContext Ctx.save] in Hsv. rewrite Hsv. reflexivity.
Qed.

Ltac enter_phase k :=
  rewrite runPhases_cons, (executePhase_handlerOf k) by (repeat constructor).

Lemma execute_workflow_phase (k : RepoWorkflow) (h : Host) (command : string)
    (params : obj) (w : World) :
  overridesWorkflowPhaseOnly k = true ->
  (let '(t, (o, r)) := execute (workflowOf k) h
                         {| ctx := emptyContext command params; world := w |} in
   (t, (o, world r)))
  = match handlerOf k "workflow" h (workflowRun command params w) with
    | (Ok v, r3) => (ranToCompletion phases, (Ok (inheritedPhaseResults params v), world r3))
    | (Throw e, r3) => (stoppedIn "workflow", (Throw e, world r3))
    end.
Proof.
  intros Hk.
  assert (Hkc : k <> WCritic) by (by destruct k).
  pose proof (handler_preserved k "workflow" h (workflowRun command params w)) as Hpres.
  pose proof (handler_result_kept k "workflow" h Hkc (workflowRun command params w)) as Hres.
  unfold execute, executePipeline, phases, emptyContext.
  enter_phase k.
  replace (handlerOf k "initialization") with BaseWorkflow.executeInitializationPhase
    by (destruct k; first [reflexivity | discriminate Hk]).
  eval_monad. enter_phase k.
  replace (handlerOf k "parameters") with BaseWorkflow.executeParametersPhase
    by (destruct k; first [reflexivity | discriminate Hk]).
  eval_monad. enter_phase k.
  match goal with |- context [handlerOf k "workflow" h ?r] =>
    change r with (workflowRun command params w) end.
  destruct (handlerOf k "workflow" h (workflowRun command params w)) as [[v|e] [c3 w3]];
    [|reflexivity].
  destruct Hpres as [_ _ Hpr _ _]. unfold result_kept in Hres.
  cbn [snd ctx world workflowRun emptyContext Ctx.phaseResults Ctx.result
       Ctx.set_phaseResults] in Hpr, Hres.
  enter_phase k.
  replace (handlerOf k "validation") with BaseWorkflow.executeValidationPhase
    by (destruct k; first [reflexivity | discriminate Hk]).
  eval_monad. enter_phase k.
  replace (handlerOf k "output") with BaseWorkflow.executeOutputPhase
    by (destruct k; first [reflexivity | discriminate Hk]).
  eval_monad. cbn [runPhases].
  cbn [recordResult ctx world Ctx.result Ctx.phaseResults Ctx.set_phaseResults].
  rewrite Hpr, Hres. reflexivity.
Qed.

Lemma dispatch3_workflow_phase (m : Orchestrator3.MessageCopy) (h : Host)
    (command : string) (params : obj) (w : World) (k : RepoWorkflow) :
  truthy (get "save" params) = false ->
  truthy (get "context" params) = false ->
  Orchestrator3.workflows m !! categoryOf command = Some (workflowOf k) ->
  isSupportedCommand (workflowOf k) command = true ->
  overridesWorkflowPhaseOnly k = true ->
  Orchestrator3.executeCommand (Orchestrator3.workflows m) h command params w
  = match handlerOf k "workflow" h (workflowRun command params w) with
    | (Ok v, r3) => (ranToCompletion phases, (Ok (inheritedPhaseResults params v), world r3))
    | (Throw e, r3) => (stoppedIn "workflow", (Throw e, world r3))
    end.
Proof.
  intros Hsave Hctx Hreg Hsup Hk.
  rewrite (executeCommand_no_globals m h command params w k) by done.
  by apply execute_workflow_phase.
Qed.

Lemma dispatch1_workflow_phase (reg : Registry) (h : Host)
    (command : string) (params : obj) (w : World) (k : RepoWorkflow) :
  reg !! categoryOf command = Some (workflowOf k) ->
  isSupportedCommand (workflowOf k) command = true ->
  overridesWorkflowPhaseOnly k = true ->
  Orchestrator.executeCommand reg h command params w
  = match handlerOf k "workflow" h (workflowRun command params w) with
    | (Ok v, r3) => (ranToCompletion phases, (Ok (inheritedPhaseResults params v), world r3))
    | (Throw e, r3) => (stoppedIn "workflow", (Throw e, world r3))
    end.
Proof.
  intros Hreg Hsup Hk. unfold Orchestrator.executeCommand.
  rewrite Hreg, Hsup. cbn [negb].
  etransitivity; [|exact (execute_workflow_phase k h command params w Hk)].
  by destruct (execute (workflowOf k) h _) as [t [[v|e] r]].
Qed.

Lemma get_set_ne (k k' : string) (v : value) (o : obj) :
  k <> k' -> get k (set k' v o) = get k o.
Proof.
  intros Hne. induction o as [|[k0 v0] o IH]; simpl.
  - by destruct (String.eqb_spec k k').
  - destruct (String.eqb_spec k' k0) as [->|Hne0]; simpl.
    + by destruct (String.eqb_spec k k0).
    + by rewrite IH.
Qed.

(** *** [meta:context] *)

Lemma meta_context_handler (h : Host) (params : obj) (w : World) :
  handlerOf WMeta "workflow" h (workflowRun "meta:context" params w)
  = if truthy (get "add" params) then
      (Ok (VObj [("success", VBool true); ("action", VStr "context_added");
                 ("content", get "add" params)]),
       {| ctx := ctx (workflowRun "meta:context" params w);
          world := with_context
                     (w_context w ++ [entryOf h "meta:context" (get "add" params)]) w |})
    else if truthy (get "list" params) then
      (Ok (VObj [("success", VBool true); ("action", VStr "context_listed");
                 ("context", VArr (map entry_value (w_context w)))]),
       workflowRun "meta:context" params w)
    else if truthy (get "clear" params) then
      (Ok (VObj [("success", VBool true); ("action", VStr "context_cleared");
                 ("clearedCount", VNum (Z.of_nat (length (w_context w))))]),
       {| ctx := ctx (workflowRun "meta:context" params w);
          world := with_context [] w |})
    else
      (Throw (Error "Specify --add, --list, or --clear for meta:context command"),
       workflowRun "meta:context" params w).
Proof.
  lazy [handlerOf baseHandler String.eqb Ascii.eqb Bool.eqb].
  unfold_handlers. unfold throw_if, bind, ret, gets, modify, throw.
  cbn -[insert lookup stringify].
  by repeat case_match.
Qed.

Lemma meta_context_registered (m : Orchestrator3.MessageCopy) :
  Orchestrator3.workflows m !! categoryOf "meta:context" = Some (workflowOf WMeta).
Proof. apply workflows3_meta. Qed.

(** X1.  [meta:context] through the orchestrator, for parameters without
    [save] and [context]: the flags are tried in the order [add], [list],
    [clear] and the first one that is set decides alone.  With [add] the
    store gains exactly one entry (the command, the text, the time) and
    nothing is cleared even if [clear] is set too; with [list] the store is
    reported and left as it is; with [clear] the store is emptied and the
    number of entries it held is reported; with none of them the workflow
    phase throws, the validation and output phases are not entered and the
    state is as before. *)
Theorem meta_context_flags (m : Orchestrator3.MessageCopy) (h : Host)
    (params : obj) (w : World) :
  truthy (get "save" params) = false ->
  truthy (get "context" params) = false ->
  Orchestrator3.executeCommand (Orchestrator3.workflows m) h "meta:context" params w
  = if truthy (get "add" params) then
      (ranToCompletion phases,
       (Ok (inheritedPhaseResults params
              (VObj [("success", VBool true); ("action", VStr "context_added");
                     ("content", get "add" params)])),
        with_context (w_context w ++ [entryOf h "meta:context" (get "add" params)]) w))
    else if truthy (get "list" params) then
      (ranToCompletion phases,
       (Ok (inheritedPhaseResults params
              (VObj [("success", VBool true); ("action", VStr "context_listed");
                     ("context", VArr (map entry_value (w_context w)))])),
        w))
    else if truthy (get "clear" params) then
      (ranToCompletion phases,
       (Ok (inheritedPhaseResults params
              (VObj [("success", VBool true); ("action", VStr "context_cleared");
                     ("clearedCount", VNum (Z.of_nat (length (w_context w))))])),
        with_context [] w))
    else
      (stoppedIn "workflow",
       (Throw (Error "Specify --add, --list, or --clear for meta:context command"), w)).
Proof.
  intros Hsave Hctx.
  rewrite (dispatch3_workflow_phase m h "meta:context" params w WMeta Hsave Hctx
             (meta_context_registered m) eq_refl eq_refl).
  rewrite meta_context_handler.
  destruct (truthy (get "add" params)); [reflexivity|].
  destruct (truthy (get "list" params)); [reflexivity|].
  destruct (truthy (get "clear" params)); reflexivity.
Qed.

Lemma meta_context_flags_witness :
  Orchestrator3.executeCommand (Orchestrator3.workflows Orchestrator3.Plain) exampleHost
    "meta:context" [("add", VStr "note"); ("clear", VBool true)]
    (with_context [entryOf exampleHost "message:new" (VStr "kept")] Orchestrator3.initialWorld)
  = (ranToCompletion phases,
     (Ok (inheritedPhaseResults [("add", VStr "note"); ("clear", VBool true)]
            (VObj [("success", VBool true); ("action", VStr "context_added");
                   ("content", VStr "note")])),
      with_context [entryOf exampleHost "message:new" (VStr "kept");
                    entryOf exampleHost "meta:context" (VStr "note")]
        Orchestrator3.initialWorld)).
Proof.
  exact (meta_context_flags Orchestrator3.Plain exampleHost
           [("add", VStr "note"); ("clear", VBool true)]
           (with_context [entryOf exampleHost "message:new" (VStr "kept")]
              Orchestrator3.initialWorld)
           eq_refl eq_refl).
Defined.

Ltac meta_dispatch m h :=
  match goal with
  | |- context [Orchestrator3.executeCommand (Orchestrator3.workflows m) h "meta:context" ?p ?w] =>
      rewrite (dispatch3_workflow_phase m h "meta:context" p w WMeta eq_refl eq_refl
                 (meta_context_registered m) eq_refl eq_refl),
              (meta_context_handler h p w)
  end.

(** X2.  Round trip through the store: after [meta:context --add v] a
    [--list] reports the stored entries with the new one last; a [--clear]
    then reports how many there were and a second [--list] reports none. *)
Theorem context_add_list_clear (m : Orchestrator3.MessageCopy) (h1 h2 h3 h4 : Host)
    (v : value) (w : World) :
  truthy v = true ->
  let reg := Orchestrator3.workflows m in
  let d1 := Orchestrator3.executeCommand reg h1 "meta:context" [("add", v)] w in
  let d2 := Orchestrator3.executeCommand reg h2 "meta:context" [("list", VBool true)]
              (worldAfter d1) in
  let d3 := Orchestrator3.executeCommand reg h3 "meta:context" [("clear", VBool true)]
              (worldAfter d2) in
  let d4 := Orchestrator3.executeCommand reg h4 "meta:context" [("list", VBool true)]
              (worldAfter d3) in
  prop "context" (workflowEntry d2)
    = VArr (map entry_value (w_context w ++ [entryOf h1 "meta:context" v])) /\
  prop "clearedCount" (workflowEntry d3) = VNum (Z.of_nat (length (w_context w)) + 1) /\
  prop "context" (workflowEntry d4) = VArr [] /\
  worldAfter d4 = with_context [] w.
Proof.
  intros Hv reg d1 d2 d3 d4.
  assert (H1 : worldAfter d1
               = with_context (w_context w ++ [entryOf h1 "meta:context" v]) w).
  { subst d1 reg. meta_dispatch m h1.
    cbn [get String.eqb Ascii.eqb Bool.eqb]. by rewrite Hv. }
  assert (H2 : d2 = (ranToCompletion phases,
                     (Ok (inheritedPhaseResults [("list", VBool true)]
                            (VObj [("success", VBool true);
                                   ("action", VStr "context_listed");
                                   ("context", VArr (map entry_value
                                      (w_context w ++ [entryOf h1 "meta:context" v])))])),
                      worldAfter d1))).
  { subst d2 reg. rewrite H1. meta_dispatch m h2. reflexivity. }
  assert (H3 : d3 = (ranToCompletion phases,
                     (Ok (inheritedPhaseResults [("clear", VBool true)]
                            (VObj [("success", VBool true);
                                   ("action", VStr "context_cleared");
                                   ("clearedCount",
                                    VNum (Z.of_nat (length
                                      (w_context w ++ [entryOf h1 "meta:context" v]))))])),
                      with_context [] w))).
  { subst d3 reg. rewrite H2. unfold worldAfter at 1. cbn [snd]. rewrite H1.
    meta_dispatch m h3. cbn [get String.eqb Ascii.eqb Bool.eqb truthy].
    by destruct w. }
  assert (H4 : d4 = (ranToCompletion phases,
                     (Ok (inheritedPhaseResults [("list", VBool true)]
                            (VObj [("success", VBool true);
                                   ("action", VStr "context_listed");
                                   ("context", VArr [])])),
                      with_context [] w))).
  { subst d4 reg. rewrite H3. unfold worldAfter at 1. cbn [snd].
    meta_dispatch m h4. reflexivity. }
  rewrite H2, H3, H4. unfold workflowEntry, worldAfter. cbn [fst snd].
  split; [reflexivity|]. split; [|split; reflexivity].
  cbn. rewrite length_app. cbn [length]. f_equal. lia.
Qed.

Lemma context_add_list_clear_witness :
  truthy (VStr "note") = true /\
  let reg := Orchestrator3.workflows Orchestrator3.Plain in
  let d1 := Orchestrator3.executeCommand reg exampleHost "meta:context"
              [("add", VStr "note")] Orchestrator3.initialWorld in
  let d2 := Orchestrator3.executeCommand reg exampleHost "meta:context"
              [("list", VBool true)] (worldAfter d1) in
  let d3 := Orchestrator3.executeCommand reg exampleHost "meta:context"
              [("clear", VBool true)] (worldAfter d2) in
  let d4 := Orchestrator3.executeCommand reg exampleHost "meta:context"
              [("list", VBool true)] (worldAfter d3) in
  prop "context" (workflowEntry d2)
    = VArr [entry_value (entryOf exampleHost "meta:context" (VStr "note"))] /\
  prop "clearedCount" (workflowEntry d3) = VNum 1 /\
  prop "context" (workflowEntry d4) = VArr [] /\
  worldAfter d4 = Orchestrator3.initialWorld.
Proof.
  split; [reflexivity|].
  exact (context_add_list_clear Orchestrator3.Plain exampleHost exampleHost exampleHost
           exampleHost (VStr "note") Orchestrator3.initialWorld eq_refl).
Defined.

(** *** [agent:*] *)

Lemma agent_registered (m : Orchestrator3.MessageCopy) (action : string) :
  categoryOf ("agent:" +:+ action) = "agent" ->
  Orchestrator3.workflows m !! categoryOf ("agent:" +:+ action) = Some (workflowOf WAgent).
Proof. intros ->. apply workflows3_agent. Qed.


Lemma agent_status_handler (h : Host) (params : obj) (w : World) :
  handlerOf WAgent "workflow" h (workflowRun "agent:status" params w)
  = (Ok (VObj [("success", VBool true); ("action", VStr "status");
               ("activeAgent", js_or (get "activeAgent" (default [] (w_settings w)))
                                 (VStr "discussion-moderator"));
               ("verbosity", js_or (get "verbosity" (default [] (w_settings w))) (VStr "off"));
               ("format", js_or (get "format" (default [] (w_settings w))) (VStr "text"))]),
     workflowRun "agent:status" params w).
Proof. reflexivity. Qed.

Lemma agent_reset_handler (h : Host) (params : obj) (w : World) :
  handlerOf WAgent "workflow" h (workflowRun "agent:reset" params w)
  = (Ok (VObj [("success", VBool true); ("action", VStr "reset");
               ("message", VStr "Agent settings reset to defaults")]),
     {| ctx := ctx (workflowRun "agent:reset" params w);
        world := with_settings (Some defaultSettings) w |}).
Proof. reflexivity. Qed.

Ltac agent_dispatch m h :=
  match goal with
  | |- context [Orchestrator3.executeCommand (Orchestrator3.workflows m) h ?c ?p ?w] =>
      rewrite (dispatch3_workflow_phase m h c p w WAgent) by
        first [assumption | reflexivity | apply workflows3_agent]
  end.





(** X5.  [agent:reset], for parameters without [save] and [context],
    resolves and puts the settings back to what the constructor loaded,
    whatever earlier dispatches stored; the store and the files are as
    before, and an [agent:status] after it reports the default agent,
    verbosity and format. *)
Theorem reset_restores_defaults (m : Orchestrator3.MessageCopy) (h h' : Host)
    (params : obj) (w : World) :
  truthy (get "save" params) = false ->
  truthy (get "context" params) = false ->
  let reg := Orchestrator3.workflows m in
  let reset := Orchestrator3.executeCommand reg h "agent:reset" params w in
  let status := workflowEntry (Orchestrator3.executeCommand reg h' "agent:status" []
                                 (worldAfter reset)) in
  is_ok (fst (snd reset)) = true /\
  worldAfter reset = with_settings (w_settings Orchestrator3.initialWorld) w /\
  status = VObj [("success", VBool true); ("action", VStr "status");
                 ("activeAgent", VStr "discussion-moderator");
                 ("verbosity", VStr "off"); ("format", VStr "text")].
Proof.
  intros Hsave Hctx reg reset status. subst status reset reg.
  agent_dispatch m h. rewrite agent_reset_handler.
  unfold worldAfter. cbn [fst snd is_ok world].
  agent_dispatch m h'. rewrite agent_status_handler.
  done.
Qed.

Lemma reset_restores_defaults_witness :
  let reg := Orchestrator3.workflows Orchestrator3.Plain in
  let w := with_settings (Some [("verbosity", VStr "high")]) Orchestrator3.initialWorld in
  let reset := Orchestrator3.executeCommand reg exampleHost "agent:reset" [] w in
  let status := workflowEntry (Orchestrator3.executeCommand reg exampleHost "agent:status" []
                                 (worldAfter reset)) in
  is_ok (fst (snd reset)) = true /\
  worldAfter reset = with_settings (w_settings Orchestrator3.initialWorld) w /\
  status = VObj [("success", VBool true); ("action", VStr "status");
                 ("activeAgent", VStr "discussion-moderator");
                 ("verbosity", VStr "off"); ("format", VStr "text")].
Proof.
  intros reg w.
  exact (reset_restores_defaults Orchestrator3.Plain exampleHost exampleHost [] w
           eq_refl eq_refl).
Defined.

Lemma removeFirst_suffix (base : string) :
  mentions "." base = false -> Str.removeFirst ".md" (base +:+ ".md") = base.
Proof.
  induction base as [|a base IH]; [reflexivity|].
  cbn [mentions]. intros Hm. apply orb_false_iff in Hm as [Ha Hm].
  cbn [String.app Str.removeFirst String.prefix].
  change (String.append (String a base) ".md") with (String a (base +:+ ".md")).
  cbn [Str.removeFirst String.prefix].
  destruct (ascii_dec "." a) as [<-|Hne].
  - by rewrite Ascii.eqb_refl in Ha.
  - rewrite (IH Hm). reflexivity.
Qed.

Lemma agent_list_handler (h : Host) (params : obj) (w : World) :
  handlerOf WAgent "workflow" h (workflowRun "agent:list" params w)
  = AgentWorkflow.handleList h (workflowRun "agent:list" params w).
Proof. reflexivity. Qed.

Lemma describe_run (h : Host) (file : string) (r : Run) :
  AgentWorkflow.describe h file r
  = match readFileSync h (AgentWorkflow.agentsDir ++ [file]) with
    | Ok content =>
        (Ok (VObj [("name", VStr (Str.removeFirst ".md" file));
                   ("description",
                    VStr (default "No description" (matchDescription h content)))]), r)
    | Throw e => (Throw e, r)
    end.
Proof.
  unfold AgentWorkflow.describe, bind, lift, ret.
  by destruct (readFileSync h (AgentWorkflow.agentsDir ++ [file])).
Qed.

(** The loop over the agent files: every file is read, in order, and the
    first one that cannot be read ends the loop with its error. *)
Lemma mapM_describe (h : Host) (files : list string) (r : Run) :
  (Forall (readable h) files /\
   mapM (AgentWorkflow.describe h) files r = (Ok (map (listedAgent h) files), r)) \/
  (exists file e,
     file ∈ files /\
     readFileSync h (AgentWorkflow.agentsDir ++ [file]) = Throw e /\
     mapM (AgentWorkflow.describe h) files r = (Throw e, r)).
Proof.
  induction files as [|file files IH].
  { left. split; [constructor|reflexivity]. }
  cbn [mapM]. unfold bind, ret. rewrite describe_run.
  destruct (readFileSync h (AgentWorkflow.agentsDir ++ [file])) as [content|e] eqn:Hread.
  - destruct IH as [[Hall Hrun] | (file' & e & Hin & Hthrow & Hrun)]; rewrite Hrun.
    + left. split; [constructor; [by exists content|exact Hall]|].
      cbn [map].
      replace (listedAgent h file)
        with (VObj [("name", VStr (Str.removeFirst ".md" file));
                    ("description",
                     VStr (default "No description" (matchDescription h content)))])
        by (unfold listedAgent; by rewrite Hread).
      reflexivity.
    + right. exists file', e. split; [by right|]. by split.
  - right. exists file, e. split; [by left|]. by split.
Qed.

Lemma handleList_run (h : Host) (r : Run) :
  AgentWorkflow.handleList h r
  = if existsSync h AgentWorkflow.agentsDir then
      match readdirSync h AgentWorkflow.agentsDir with
      | Ok files =>
          match mapM (AgentWorkflow.describe h) (markdownFiles files) r with
          | (Ok agents, r') =>
              (Ok (VObj [("success", VBool true); ("action", VStr "list_agents");
                         ("agents", VArr agents)]), r')
          | (Throw e, r') => (Throw e, r')
          end
      | Throw e => (Throw e, r)
      end
    else (Ok (VObj [("success", VBool true); ("action", VStr "list_agents");
                    ("agents", VArr [])]), r).
Proof.
  unfold AgentWorkflow.handleList, bind, lift, ret, markdownFiles.
  destruct (existsSync h AgentWorkflow.agentsDir); [|reflexivity].
  destruct (readdirSync h AgentWorkflow.agentsDir) as [files|e]; [|reflexivity].
  by destruct (mapM _ _ r) as [[agents|e] r'].
Qed.

Lemma endsWith_suffix (base : string) : Str.endsWith ".md" (base +:+ ".md") = true.
Proof.
  unfold Str.endsWith.
  assert (Hrev : forall acc,
            String.rev_app (base +:+ ".md") acc = "dm." +:+ String.rev_app base acc).
  { induction base as [|a base IH]; intros acc; [reflexivity|].
    change (String a base +:+ ".md") with (String a (base +:+ ".md")).
    cbn [String.rev_app]. apply IH. }
  unfold String.rev. rewrite Hrev.
  by destruct (String.rev_app base EmptyString).
Qed.

(** X6.  [agent:list] (parameters without [save] and [context]) reads the
    agents directory and never changes the state.  A missing directory
    gives an empty listing.  Otherwise the directory is read: if that
    throws, or if reading one of its entries that end in [.md] throws, the
    dispatch fails with that error in the workflow phase; if all of them
    can be read, the listing has one entry for each, in directory order,
    with the description found in the file or [No description].  A file
    [base.md] whose [base] holds no dot is among them, under the name
    [base]. *)
Theorem agent_list_names (m : Orchestrator3.MessageCopy) (h : Host)
    (params : obj) (w : World) :
  truthy (get "save" params) = false ->
  truthy (get "context" params) = false ->
  let d := Orchestrator3.executeCommand (Orchestrator3.workflows m) h "agent:list"
             params w in
  let listing agents :=
    (ranToCompletion phases,
     (Ok (inheritedPhaseResults params
            (VObj [("success", VBool true); ("action", VStr "list_agents");
                   ("agents", VArr agents)])),
      w)) in
  worldAfter d = w /\
  (existsSync h [".system"; "agents"] = false -> d = listing []) /\
  (existsSync h [".system"; "agents"] = true ->
   match readdirSync h [".system"; "agents"] with
   | Throw e => d = (stoppedIn "workflow", (Throw e, w))
   | Ok files =>
       (Forall (readable h) (markdownFiles files) ->
        d = listing (map (listedAgent h) (markdownFiles files))) /\
       (~ Forall (readable h) (markdownFiles files) ->
        exists file e,
          file ∈ markdownFiles files /\
          readFileSync h [".system"; "agents"; file] = Throw e /\
          d = (stoppedIn "workflow", (Throw e, w))) /\
       (forall base,
          mentions "." base = false -> base +:+ ".md" ∈ files ->
          base +:+ ".md" ∈ markdownFiles files /\
          prop "name" (listedAgent h (base +:+ ".md")) = VStr base)
   end).
Proof.
  intros Hsave Hctx d listing. subst d listing. cbv beta.
  agent_dispatch m h. rewrite agent_list_handler, handleList_run.
  change AgentWorkflow.agentsDir with [".system"; "agents"].
  assert (Hmd : forall files base,
            mentions "." base = false -> base +:+ ".md" ∈ files ->
            base +:+ ".md" ∈ markdownFiles files /\
            prop "name" (listedAgent h (base +:+ ".md")) = VStr base).
  { intros files base Hbase Hin. split.
    - apply list_elem_of_filter. split; [|exact Hin].
      apply Is_true_true, endsWith_suffix.
    - unfold listedAgent. cbn [prop get String.eqb Ascii.eqb Bool.eqb].
      by rewrite (removeFirst_suffix base Hbase). }
  destruct (existsSync h [".system"; "agents"]) eqn:Hdir.
  2:{ split; [reflexivity|]. split; [reflexivity|]. intros [=]. }
  destruct (readdirSync h [".system"; "agents"]) as [files|e] eqn:Hfiles.
  2:{ split; [reflexivity|]. split; [intros [=]|]. reflexivity. }
  destruct (mapM_describe h (markdownFiles files) (workflowRun "agent:list" params w))
    as [[Hall Hrun] | (file & e & Hin & Hthrow & Hrun)]; rewrite Hrun;
    (split; [reflexivity|]); (split; [intros [=]|]); intros _;
    (split; [|split; [|apply Hmd]]).
  - reflexivity.
  - intros Hnot. by destruct Hnot.
  - intros Hall. exfalso.
    rewrite Forall_forall in Hall. destruct (Hall file Hin) as [content Hcontent].
    congruence.
  - intros _. exists file, e. by repeat split.
Qed.

Lemma agent_list_names_witness :
  Forall (readable agentsHost) ["mentor-critic.md"; "harsh-critic.md"] /\
  Orchestrator3.executeCommand (Orchestrator3.workflows Orchestrator3.Plain) agentsHost
    "agent:list" [] Orchestrator3.initialWorld
  = (ranToCompletion phases,
     (Ok (inheritedPhaseResults []
            (VObj [("success", VBool true); ("action", VStr "list_agents");
                   ("agents",
                    VArr [VObj [("name", VStr "mentor-critic");
                                ("description", VStr "the agent of mentor-critic.md")];
                          VObj [("name", VStr "harsh-critic");
                                ("description", VStr "the agent of harsh-critic.md")]])])),
      Orchestrator3.initialWorld)).
Proof.
  assert (Hall : Forall (readable agentsHost) ["mentor-critic.md"; "harsh-critic.md"]).
  { repeat constructor; eexists; reflexivity. }
  split; [exact Hall|].
  exact (proj1 (proj2 (proj2 (agent_list_names Orchestrator3.Plain agentsHost []
                                Orchestrator3.initialWorld eq_refl eq_refl))
                  eq_refl) Hall).
Defined.

(** *** [system:*] and [message:*] through [orchestrator.js] *)

Lemma workflows1_system : Orchestrator.workflows !! "system" = Some (workflowOf WSystem).
Proof.
  unfold Orchestrator.workflows, Orchestrator.initialize, register.
  by rewrite lookup_insert_eq.
Qed.

Lemma workflows1_message : Orchestrator.workflows !! "message" = Some (workflowOf WMessage).
Proof.
  unfold Orchestrator.workflows, Orchestrator.initialize, register.
  by rewrite lookup_insert_ne, lookup_insert_eq.
Qed.

Lemma workflows1_lookup (category : string) (wf : Workflow) :
  Orchestrator.workflows !! category = Some wf ->
  (category = "message" /\ wf = workflowOf WMessage) \/
  (category = "system" /\ wf = workflowOf WSystem).
Proof.
  unfold Orchestrator.workflows, Orchestrator.initialize, register.
  rewrite !lookup_insert_Some, lookup_empty.
  intros [[<- <-] | [_ [[<- <-] | [_ ?]]]]; [by right | by left | done].
Qed.

Lemma system_handler (h : Host) (command : string) (params : obj) (w : World) :
  command ∈ ["system:on"; "system:health"; "system:manifest"] ->
  exists v,
    handlerOf WSystem "workflow" h (workflowRun command params w)
    = (Ok v, workflowRun command params w) /\
    prop "success" v = VBool true.
Proof.
  rewrite !elem_of_cons, elem_of_nil.
  intros [-> | [-> | [-> | []]]];
    lazy [handlerOf baseHandler String.eqb Ascii.eqb Bool.eqb];
    unfold_handlers; unfold throw_if, bind, ret, gets, modify, throw;
    cbn -[insert lookup stringify SystemWorkflow.textManifest SystemWorkflow.manifest];
    repeat case_match; eexists; split; reflexivity.
Qed.

(** X7.  The three [system:*] commands are read-only and cannot fail:
    whatever the parameters and the state, a dispatch through
    [orchestrator.js] runs all five phases, resolves to the map of phase
    results with a successful workflow entry, and leaves the state as it
    was.  The same holds through the orchestrator with the store when the
    parameters carry neither [save] nor [context]. *)
Theorem system_commands_always_resolve (h : Host) (command : string) (params : obj)
    (w : World) :
  command ∈ ["system:on"; "system:health"; "system:manifest"] ->
  exists v,
    prop "success" v = VBool true /\
    Orchestrator.executeCommand Orchestrator.workflows h command params w
    = (ranToCompletion phases, (Ok (inheritedPhaseResults params v), w)) /\
    forall m,
      truthy (get "save" params) = false ->
      truthy (get "context" params) = false ->
      Orchestrator3.executeCommand (Orchestrator3.workflows m) h command params w
      = (ranToCompletion phases, (Ok (inheritedPhaseResults params v), w)).
Proof.
  intros Hin.
  destruct (system_handler h command params w Hin) as (v & Hv & Hs).
  assert (Hcat : categoryOf command = "system").
  { rewrite !elem_of_cons, elem_of_nil in Hin.
    by destruct Hin as [-> | [-> | [-> | []]]]. }
  assert (Hsup : isSupportedCommand (workflowOf WSystem) command = true)
    by (by apply bool_decide_eq_true).
  exists v. split; [exact Hs|]. split.
  - rewrite (dispatch1_workflow_phase _ h command params w WSystem);
      [by rewrite Hv | by rewrite Hcat, workflows1_system | done | done].
  - intros m Hsave Hctx.
    rewrite (dispatch3_workflow_phase m h command params w WSystem);
      [by rewrite Hv | done | done | by rewrite Hcat, workflows3_system | done | done].
Qed.

Lemma system_commands_always_resolve_witness :
  exists v,
    prop "success" v = VBool true /\
    Orchestrator.executeCommand Orchestrator.workflows exampleHost "system:health"
      [("verbose", VBool true); ("save", VStr "relative.txt")] Orchestrator.initialWorld
    = (ranToCompletion phases,
       (Ok (inheritedPhaseResults [("verbose", VBool true); ("save", VStr "relative.txt")] v),
        Orchestrator.initialWorld)) /\
    forall m,
      truthy (get "save" [("verbose", VBool true); ("save", VStr "relative.txt")]) = false ->
      truthy (get "context" [("verbose", VBool true); ("save", VStr "relative.txt")]) = false ->
      Orchestrator3.executeCommand (Orchestrator3.workflows m) exampleHost "system:health"
        [("verbose", VBool true); ("save", VStr "relative.txt")] Orchestrator.initialWorld
      = (ranToCompletion phases,
         (Ok (inheritedPhaseResults [("verbose", VBool true); ("save", VStr "relative.txt")] v),
          Orchestrator.initialWorld)).
Proof.
  apply (system_commands_always_resolve exampleHost "system:health"
           [("verbose", VBool true); ("save", VStr "relative.txt")] Orchestrator.initialWorld).
  right; left.
Defined.

Lemma truthy_js_or_false (v : value) : truthy (js_or v (VBool false)) = truthy v.
Proof. unfold js_or. by destruct (truthy v) eqn:Hv. Qed.

Lemma system_health_handler (h : Host) (params : obj) (w : World) :
  handlerOf WSystem "workflow" h (workflowRun "system:health" params w)
  = (SystemWorkflow.handleSystemHealth h (workflowRun "system:health" params w)).
Proof. reflexivity. Qed.

(** X8.  [system:health] always reports an overall [healthy] status with
    the five checks passed.  The [details] block is part of the status
    exactly when the [verbose] parameter is truthy, and the [verbose] field
    of the report is that parameter, or [false] when it is falsy. *)
Theorem health_details_iff_verbose (h : Host) (params : obj) (w : World) :
  let report := workflowEntry
                  (Orchestrator.executeCommand Orchestrator.workflows h "system:health"
                     params w) in
  prop "overall" (prop "status" report) = VStr "healthy" /\
  keys (match prop "checks" (prop "status" report) with VObj o => o | _ => [] end)
    = ["configuration"; "agents"; "workflows"; "commands"; "filesystem"] /\
  (prop "details" (prop "status" report) <> VUndefined
   <-> truthy (get "verbose" params) = true) /\
  prop "verbose" report = js_or (get "verbose" params) (VBool false).
Proof.
  intros report. subst report.
  rewrite (dispatch1_workflow_phase _ h "system:health" params w WSystem
             workflows1_system eq_refl eq_refl).
  rewrite system_health_handler.
  unfold SystemWorkflow.handleSystemHealth, getc, bind, gets, ret.
  cbn -[insert lookup stringify js_or].
  unfold workflowEntry, inheritedPhaseResults.
  cbn [fst snd prop get String.eqb Ascii.eqb Bool.eqb].
  rewrite truthy_js_or_false.
  destruct (truthy (get "verbose" params)) eqn:Hv;
    cbn [set get prop String.eqb Ascii.eqb Bool.eqb keys map fst];
    (split; [reflexivity|]; split; [reflexivity|]; split; [|reflexivity]).
  - done.
  - split; [by intros []|done].
Qed.

Lemma system_manifest_handler (h : Host) (params : obj) (w : World) :
  handlerOf WSystem "workflow" h (workflowRun "system:manifest" params w)
  = (SystemWorkflow.handleSystemManifest h (workflowRun "system:manifest" params w)).
Proof. reflexivity. Qed.

Lemma is_str_js_or_text (v : value) :
  is_str "json" (js_or v (VStr "text")) = is_str "json" v.
Proof.
  unfold js_or. destruct (truthy v) eqn:Hv; [done|].
  destruct v as [| | | |s| |]; try done. by destruct s.
Qed.

(** X9.  [system:manifest] answers in JSON only when the [format] parameter
    is exactly the string [json]; for every other value (absent, another
    string, a value of another type) the answer is the text manifest and
    the reported format is [text], not the format that was asked for.  The
    text manifest announces as many commands as the JSON manifest lists. *)
Theorem manifest_is_text_unless_json (h : Host) (params : obj) (w : World) :
  let report := workflowEntry
                  (Orchestrator.executeCommand Orchestrator.workflows h "system:manifest"
                     params w) in
  (if is_str "json" (get "format" params)
   then prop "format" report = VStr "json" /\
        prop "data" report = VObj SystemWorkflow.manifest
   else prop "format" report = VStr "text" /\
        prop "data" report = VStr SystemWorkflow.textManifest) /\
  (exists before after,
     SystemWorkflow.textManifest
     = before +:+ "- Commands: " +:+
       pretty (length (match prop "commands" (get "components" SystemWorkflow.manifest) with
                       | VArr l => l
                       | _ => []
                       end)) +:+ " available" +:+ after) /\
  Str.startsWith "Agent Forger v1.0.0" SystemWorkflow.textManifest = true.
Proof.
  intros report. subst report.
  rewrite (dispatch1_workflow_phase _ h "system:manifest" params w WSystem
             workflows1_system eq_refl eq_refl).
  rewrite system_manifest_handler.
  unfold SystemWorkflow.handleSystemManifest, getc, bind, gets, ret.
  cbn -[insert lookup stringify js_or SystemWorkflow.textManifest SystemWorkflow.manifest].
  rewrite is_str_js_or_text.
  split; [|split].
  - destruct (is_str "json" (get "format" params)); split; reflexivity.
  - exists (String.substring 0 183 SystemWorkflow.textManifest),
           (String.substring 206 262 SystemWorkflow.textManifest).
    vm_compute. reflexivity.
  - vm_compute. reflexivity.
Qed.

(** *** The commands an orchestrator accepts *)

Lemma not_rejected (reg : Registry) (command : string) :
  ~ rejected reg command <->
  exists wf, reg !! categoryOf command = Some wf /\ isSupportedCommand wf command = true.
Proof.
  unfold rejected. split.
  - intros Hnot. destruct (reg !! categoryOf command) as [wf|] eqn:Hreg.
    + exists wf. split; [done|].
      destruct (isSupportedCommand wf command) eqn:Hsup; [done|].
      exfalso. apply Hnot. right. by exists wf.
    + exfalso. apply Hnot. by left.
  - intros (wf & Hreg & Hsup) [Hnone | (wf' & Hreg' & Hunsup)]; congruence.
Qed.

(** X10.  What [SystemWorkflow] reports agrees with what [orchestrator.js]
    registers: a command is listed in the manifest exactly when that
    orchestrator dispatches it to a pipeline (it is rejected otherwise), a
    category is listed exactly when it has a workflow, and the numbers of
    workflows and commands that [system:on] reports are the numbers of
    registered workflows and of listed commands. *)
Theorem manifest_matches_registry :
  (forall command,
     command ∈ SystemWorkflow.commands <-> ~ rejected Orchestrator.workflows command) /\
  (forall category,
     category ∈ SystemWorkflow.workflows <-> is_Some (Orchestrator.workflows !! category)) /\
  (forall h params w,
     let status := prop "status"
                     (workflowEntry
                        (Orchestrator.executeCommand Orchestrator.workflows h "system:on"
                           params w)) in
     prop "workflows_loaded" status = VNum (Z.of_nat (size (dom Orchestrator.workflows))) /\
     prop "commands_available" status = VNum (Z.of_nat (length SystemWorkflow.commands))).
Proof.
  split; [|split].
  - intros command. rewrite not_rejected. split.
    + unfold SystemWorkflow.commands. rewrite !elem_of_cons, elem_of_nil.
      intros [-> | [-> | [-> | [-> | [-> | []]]]]];
        first [ exists (workflowOf WMessage); split; [exact workflows1_message | reflexivity]
              | exists (workflowOf WSystem); split; [exact workflows1_system | reflexivity] ].
    + intros (wf & Hreg & Hsup). apply bool_decide_eq_true in Hsup.
      apply workflows1_lookup in Hreg as [[_ ->] | [_ ->]];
        cbn in Hsup; unfold SystemWorkflow.commands;
        rewrite !elem_of_cons, elem_of_nil in *; tauto.
  - intros category. unfold SystemWorkflow.workflows.
    rewrite !elem_of_cons, elem_of_nil. split.
    + intros [-> | [-> | []]]; [rewrite workflows1_message | rewrite workflows1_system];
        by eexists.
    + intros [wf Hreg]. apply workflows1_lookup in Hreg as [[-> _] | [-> _]]; tauto.
  - intros h params w status. subst status.
    rewrite (dispatch1_workflow_phase _ h "system:on" params w WSystem
               workflows1_system eq_refl eq_refl).
    assert (Hdom : dom Orchestrator.workflows = ({["system"; "message"]} : gset string)).
    { unfold Orchestrator.workflows, Orchestrator.initialize, register.
      rewrite !dom_insert_L, dom_empty_L. set_solver. }
    rewrite Hdom.
    assert (Hsize : size ({["system"; "message"]} : gset string) = 2%nat).
    { rewrite size_union by set_solver. by rewrite !size_singleton. }
    rewrite Hsize. split; reflexivity.
Qed.

(** X11.  The orchestrator with the Global Context Store dispatches exactly
    thirteen commands to a pipeline; every other command string is
    rejected before any phase.  Each workflow is registered under the
    prefix of the commands it lists, so [getWorkflowForCommand] finds, for
    a listed command, the workflow that lists it. *)
Theorem dispatched_commands (m : Orchestrator3.MessageCopy) (command : string) :
  (command ∈ dispatchedCommands <-> ~ rejected (Orchestrator3.workflows m) command) /\
  (forall category wf,
     Orchestrator3.workflows m !! category = Some wf ->
     isSupportedCommand wf command = true ->
     getWorkflowForCommand (Orchestrator3.workflows m) command = Some wf).
Proof.
  split.
  - rewrite not_rejected. split.
    + unfold dispatchedCommands. intros Hin.
      rewrite !elem_of_cons, elem_of_nil in Hin.
      repeat (destruct Hin as [-> | Hin];
        [first [ exists (workflowOf (messageKind m)); split;
                   [exact (workflows3_message m) | by destruct m]
               | exists (workflowOf WSystem); split; [exact (workflows3_system m) | reflexivity]
               | exists (workflowOf WAgent); split; [exact (workflows3_agent m) | reflexivity]
               | exists (workflowOf WMeta); split; [exact (workflows3_meta m) | reflexivity]
               | exists (workflowOf WCritic); split;
                   [exact (workflows3_critic m) | reflexivity] ] |]).
      destruct Hin.
    + intros (wf & Hreg & Hsup). apply bool_decide_eq_true in Hsup.
      apply workflows3_lookup in Hreg as (k & -> & Hk).
      unfold dispatchedCommands.
      destruct Hk as [[_ ->] | [[_ ->] | [[_ ->] | [[_ ->] | [_ ->]]]]];
        try destruct m; cbn in Hsup;
        rewrite !elem_of_cons, elem_of_nil in Hsup;
        repeat (destruct Hsup as [-> | Hsup]; [repeat constructor|]); destruct Hsup.
  - intros category wf Hreg Hsup. unfold getWorkflowForCommand.
    rewrite <- Hreg. f_equal.
    apply bool_decide_eq_true in Hsup.
    apply workflows3_lookup in Hreg as (k & -> & Hk).
    destruct Hk as [[-> ->] | [[-> ->] | [[-> ->] | [[-> ->] | [-> ->]]]]];
      try destruct m; cbn in Hsup;
      rewrite !elem_of_cons, elem_of_nil in Hsup;
      repeat (destruct Hsup as [-> | Hsup]; [reflexivity|]); destruct Hsup.
Qed.

Lemma dispatched_commands_witness :
  Orchestrator3.workflows Orchestrator3.Plain !! "agent" = Some AgentWorkflow.workflow /\
  isSupportedCommand AgentWorkflow.workflow "agent:list" = true /\
  getWorkflowForCommand (Orchestrator3.workflows Orchestrator3.Plain) "agent:list"
  = Some AgentWorkflow.workflow.
Proof.
  split; [reflexivity|]. split; [reflexivity|].
  exact (proj2 (dispatched_commands Orchestrator3.Plain "agent:list")
           "agent" AgentWorkflow.workflow eq_refl eq_refl).
Defined.

(** *** [message:read] *)




(** *** [output:format] and [output:verbosity] *)

Lemma output_format_handler (h : Host) (params : obj) (w : World) :
  handlerOf WOutput "workflow" h (workflowRun "output:format" params w)
  = if includes OutputWorkflow.validTypes (get "type" params) then
      (Ok (VObj [("success", VBool true); ("action", VStr "set_format");
                 ("type", get "type" params)]),
       {| ctx := ctx (workflowRun "output:format" params w);
          world := with_settings
                     (Some (set "format" (get "type" params) (default [] (w_settings w)))) w |})
    else
      (Throw (Error "Invalid format type. Valid options: json, markdown, text"),
       workflowRun "output:format" params w).
Proof.
  lazy [handlerOf baseHandler String.eqb Ascii.eqb Bool.eqb].
  unfold_handlers. unfold throw_if, bind, ret, gets, modify, throw.
  cbn -[insert lookup stringify includes].
  destruct (includes OutputWorkflow.validTypes (get "type" params)); reflexivity.
Qed.

Lemma output_verbosity_handler (h : Host) (params : obj) (w : World) :
  handlerOf WOutput "workflow" h (workflowRun "output:verbosity" params w)
  = if includes OutputWorkflow.validLevels (get "level" params) then
      (Ok (VObj [("success", VBool true); ("action", VStr "set_verbosity");
                 ("level", get "level" params);
                 ("description",
                  get (to_string (get "level" params)) OutputWorkflow.descriptions)]),
       {| ctx := ctx (workflowRun "output:verbosity" params w);
          world := with_settings
                     (Some (set "verbosity" (get "level" params)
                              (default [] (w_settings w)))) w |})
    else
      (Throw (Error "Invalid verbosity level. Valid options: low, medium, high, off"),
       workflowRun "output:verbosity" params w).
Proof.
  lazy [handlerOf baseHandler String.eqb Ascii.eqb Bool.eqb].
  unfold_handlers. unfold throw_if, bind, ret, gets, modify, throw.
  cbn -[insert lookup stringify includes to_string OutputWorkflow.descriptions].
  destruct (includes OutputWorkflow.validLevels (get "level" params)); reflexivity.
Qed.

(** X13.  On an orchestrator that registers [OutputWorkflow] for the
    [output] category, [output:format] accepts exactly the types [json],
    [markdown] and [text]: for one of them the dispatch resolves and the
    one change is that the setting [format] holds the type; for any other
    value (also a missing one) the workflow phase throws the error that
    lists the three types and the state is as before. *)
Theorem output_format_accepts_three_types (reg : Registry) (h : Host)
    (params : obj) (w : World) :
  reg !! "output" = Some OutputWorkflow.workflow ->
  Orchestrator.executeCommand reg h "output:format" params w
  = if includes ["json"; "markdown"; "text"] (get "type" params) then
      (ranToCompletion phases,
       (Ok (inheritedPhaseResults params
              (VObj [("success", VBool true); ("action", VStr "set_format");
                     ("type", get "type" params)])),
        with_settings (Some (set "format" (get "type" params) (default [] (w_settings w)))) w))
    else
      (stoppedIn "workflow",
       (Throw (Error "Invalid format type. Valid options: json, markdown, text"), w)).
Proof.
  intros Hreg.
  rewrite (dispatch1_workflow_phase reg h "output:format" params w WOutput
             Hreg eq_refl eq_refl).
  rewrite output_format_handler.
  change OutputWorkflow.validTypes with ["json"; "markdown"; "text"].
  destruct (includes _ (get "type" params)); reflexivity.
Qed.

Lemma output_format_accepts_three_types_witness :
  Orchestrator.executeCommand (Orchestrator2.initialize_1 BaseWorkflow.workflow ∅)
    exampleHost "output:format" [("type", VStr "yaml")] Orchestrator2.initialWorld
  = (stoppedIn "workflow",
     (Throw (Error "Invalid format type. Valid options: json, markdown, text"),
      Orchestrator2.initialWorld)).
Proof.
  apply (output_format_accepts_three_types
           (Orchestrator2.initialize_1 BaseWorkflow.workflow ∅) exampleHost
           [("type", VStr "yaml")] Orchestrator2.initialWorld).
  unfold Orchestrator2.initialize_1, register.
  by rewrite lookup_insert_ne, lookup_insert_eq.
Defined.

Lemma includes_truthy (l : list string) (v : value) :
  forallb (fun s => negb (String.eqb s EmptyString)) l = true ->
  includes l v = true -> truthy v = true.
Proof.
  intros Hne Hin. unfold includes in Hin. apply existsb_exists in Hin as (s & Hs & Hv).
  destruct v as [| | | |s'| |]; try done. cbn in Hv. apply String.eqb_eq in Hv as <-.
  rewrite forallb_forall in Hne. exact (Hne s Hs).
Qed.

(** X14.  The settings are shared between the workflows: on an orchestrator
    that registers [OutputWorkflow] and [AgentWorkflow], after
    [output:verbosity] and [output:format] were dispatched with valid
    values, [agent:status] reports these values, and the active agent it
    reported before. *)
Theorem output_settings_show_in_status (reg : Registry) (h : Host)
    (level type : value) (w : World) :
  reg !! "output" = Some OutputWorkflow.workflow ->
  reg !! "agent" = Some AgentWorkflow.workflow ->
  includes ["low"; "medium"; "high"; "off"] level = true ->
  includes ["json"; "markdown"; "text"] type = true ->
  let before := workflowEntry (Orchestrator.executeCommand reg h "agent:status" [] w) in
  let w1 := worldAfter (Orchestrator.executeCommand reg h "output:verbosity"
                          [("level", level)] w) in
  let w2 := worldAfter (Orchestrator.executeCommand reg h "output:format"
                          [("type", type)] w1) in
  let after := workflowEntry (Orchestrator.executeCommand reg h "agent:status" [] w2) in
  prop "verbosity" after = level /\
  prop "format" after = type /\
  prop "activeAgent" after = prop "activeAgent" before.
Proof.
  intros Hout Hagent Hlevel Htype before w1 w2 after.
  assert (Hl : truthy level = true).
  { exact (includes_truthy ["low"; "medium"; "high"; "off"] level eq_refl Hlevel). }
  assert (Ht : truthy type = true).
  { exact (includes_truthy ["json"; "markdown"; "text"] type eq_refl Htype). }
  assert (H1 : w1 = with_settings
                      (Some (set "verbosity" level (default [] (w_settings w)))) w).
  { subst w1.
    rewrite (dispatch1_workflow_phase reg h "output:verbosity" _ w WOutput
               Hout eq_refl eq_refl), output_verbosity_handler.
    change OutputWorkflow.validLevels with ["low"; "medium"; "high"; "off"].
    cbn [get String.eqb Ascii.eqb Bool.eqb]. by rewrite Hlevel. }
  assert (H2 : w2 = with_settings
                      (Some (set "format" type (default [] (w_settings w1)))) w1).
  { subst w2.
    rewrite (dispatch1_workflow_phase reg h "output:format" _ w1 WOutput
               Hout eq_refl eq_refl), output_format_handler.
    change OutputWorkflow.validTypes with ["json"; "markdown"; "text"].
    cbn [get String.eqb Ascii.eqb Bool.eqb]. by rewrite Htype. }
  subst after before.
  rewrite !(dispatch1_workflow_phase reg h "agent:status" [] _ WAgent
              Hagent eq_refl eq_refl), !agent_status_handler.
  unfold workflowEntry, inheritedPhaseResults.
  cbn [fst snd prop get String.eqb Ascii.eqb Bool.eqb].
  rewrite H2, H1. cbn [w_settings with_settings default].
  unfold id. repeat first [rewrite get_set_eq | rewrite get_set_ne by done].
  unfold js_or at 1 2. by rewrite Hl, Ht.
Qed.

Lemma output_settings_show_in_status_witness :
  let reg := Orchestrator2.initialize_1 BaseWorkflow.workflow ∅ in
  let w := Orchestrator2.initialWorld in
  let before := workflowEntry (Orchestrator.executeCommand reg exampleHost "agent:status" [] w) in
  let w1 := worldAfter (Orchestrator.executeCommand reg exampleHost "output:verbosity"
                          [("level", VStr "high")] w) in
  let w2 := worldAfter (Orchestrator.executeCommand reg exampleHost "output:format"
                          [("type", VStr "json")] w1) in
  let after := workflowEntry (Orchestrator.executeCommand reg exampleHost "agent:status" [] w2) in
  prop "verbosity" after = VStr "high" /\
  prop "format" after = VStr "json" /\
  prop "activeAgent" after = prop "activeAgent" before.
Proof.
  intros reg w.
  apply (output_settings_show_in_status reg exampleHost (VStr "high") (VStr "json") w).
  - subst reg. unfold Orchestrator2.initialize_1, register.
    by rewrite lookup_insert_ne, lookup_insert_eq.
  - subst reg. unfold Orchestrator2.initialize_1, register.
    by rewrite lookup_insert_eq.
  - reflexivity.
  - reflexivity.
Defined.

(** *** [critic:*] *)

Lemma get_strippedParams (k : string) (params : obj) :
  k <> "save" -> k <> "context" -> get k (strippedParams params) = get k params.
Proof.
  intros Hs Hc.
  unfold strippedParams, Orchestrator3.extractSave, Orchestrator3.extractContext.
  destruct (truthy (get "save" params)); cbn [fst snd];
    rewrite ?(get_delete_key_ne "context" "save") by done;
    destruct (truthy (get "context" params)); cbn [fst snd];
    rewrite ?get_delete_key_ne by done; reflexivity.
Qed.






(** *** The global parameters [save] and [context] *)

Lemma get_delete_key_eq (k : string) (o : obj) : get k (delete_key k o) = VUndefined.
Proof.
  induction o as [|[k0 v0] o IH]; [done|]. simpl.
  destruct (String.eqb_spec k k0) as [->|Hne]; [exact IH|].
  simpl. by destruct (String.eqb_spec k k0).
Qed.

Lemma get_context_globalParams (params : obj) :
  get "context" (globalParamsOf params) = js_or (get "context" params) VUndefined.
Proof.
  unfold globalParamsOf, Orchestrator3.extractSave, Orchestrator3.extractContext, js_or.
  destruct (truthy (get "save" params)); cbn [fst snd];
    rewrite ?(get_delete_key_ne "context" "save") by done;
    destruct (truthy (get "context" params)); cbn [fst snd]; done.
Qed.

(** The outcome of the inherited parameters phase for a dispatch whose
    [save] and [context] are texts or missing. *)
Lemma parameters_phase_outcome (h : Host) (command : string) (params : obj) (w : World)
    (r : Run) :
  textOrMissing (get "save" params) ->
  textOrMissing (get "context" params) ->
  Ctx.save (ctx r) = Ctx.save (ctx (dispatchRun h command params w)) ->
  Ctx.context (ctx r) = Ctx.context (ctx (dispatchRun h command params w)) ->
  BaseWorkflow.executeParametersPhase h r
  = if negb (saveParamAccepted params) then
      (Throw (Error "Save path must be absolute and end with .json"), r)
    else if negb (contextParamAccepted params) then
      (Throw (Error "Context must be less than 1000 characters"), r)
    else
      (Ok (VObj [("status", VStr "parameters_processed");
                 ("params", VObj (Ctx.params (ctx r)))]), r).
Proof.
  intros Hsave Hctx Hs Hc. destruct r as [c w0].
  cbn [dispatchRun ctx Ctx.save Ctx.context] in Hs, Hc.
  rewrite get_save_globalParams in Hs. rewrite get_context_globalParams in Hc.
  destruct c as [cmd p0 sv cx ar pr res pe sc pc cr].
  cbn [Ctx.save Ctx.context] in Hs, Hc.
  unfold saveParamAccepted, contextParamAccepted, savePathAccepted, contextTextAccepted.
  assert (Hlen : forall t,
            js_gt h (js_length (VStr t)) 1000 = negb (String.length t <=? 1000)%nat).
  { intros t. cbn [js_length js_gt].
    destruct (Nat.leb_spec (String.length t) 1000) as [Hle|Hgt]; cbn [negb].
    - apply Z.ltb_ge. lia.
    - apply Z.ltb_lt. lia. }
  destruct Hsave as [Hs0 | [p Hs0]]; destruct Hctx as [Hc0 | [t Hc0]];
    rewrite Hs0 in Hs |- *; rewrite Hc0 in Hc |- *;
    try destruct p as [|a p]; try destruct t as [|b t];
    unfold js_or in Hs, Hc; cbn [truthy String.eqb negb] in Hs, Hc; subst sv cx;
    unfold BaseWorkflow.executeParametersPhase, getc, throw_if, bind, gets, ret, throw;
    try change (String.length EmptyString <=? 1000)%nat with true;
    repeat first
      [ progress rewrite Hlen
      | progress cbn -[js_gt js_length Str.startsWith Str.endsWith String.length Nat.leb]
      | match goal with
        | |- context [Str.startsWith ?x ?y] => destruct (Str.startsWith x y)
        | |- context [Str.endsWith ?x ?y] => destruct (Str.endsWith x y)
        | |- context [Nat.leb (String.length ?x) ?y] => destruct (Nat.leb (String.length x) y)
        end ];
    reflexivity.
Qed.

(** The commands whose workflow inherits the initialization and the
    parameters phase. *)
Lemma inheriting_command (m : Orchestrator3.MessageCopy) (command : string) :
  command ∈ dispatchedCommands -> categoryOf command <> "critic" ->
  exists k,
    Orchestrator3.workflows m !! categoryOf command = Some (workflowOf k) /\
    isSupportedCommand (workflowOf k) command = true /\
    handlerOf k "initialization" = BaseWorkflow.executeInitializationPhase /\
    handlerOf k "parameters" = BaseWorkflow.executeParametersPhase.
Proof.
  unfold dispatchedCommands. rewrite !elem_of_cons, elem_of_nil. intros Hin Hcat.
  repeat (destruct Hin as [-> | Hin];
    [first [ exists (messageKind m); split; [exact (workflows3_message m)|];
               by destruct m
           | exists WSystem; split; [exact (workflows3_system m)|]; done
           | exists WAgent; split; [exact (workflows3_agent m)|]; done
           | exists WMeta; split; [exact (workflows3_meta m)|]; done
           | by exfalso; apply Hcat ] |]).
  destruct Hin.
Qed.

(** A dispatch whose global parameters are refused stops in the parameters
    phase; the state is the one left by the extraction of [context]. *)
Lemma dispatch_stopped_in_parameters (m : Orchestrator3.MessageCopy) (h : Host)
    (command : string) (params : obj) (w : World) :
  command ∈ dispatchedCommands -> categoryOf command <> "critic" ->
  textOrMissing (get "save" params) ->
  textOrMissing (get "context" params) ->
  saveParamAccepted params && contextParamAccepted params = false ->
  Orchestrator3.executeCommand (Orchestrator3.workflows m) h command params w
  = (stoppedIn "parameters",
     (Throw (Error (if saveParamAccepted params
                    then "Context must be less than 1000 characters"
                    else "Save path must be absolute and end with .json")),
      Orchestrator3.pushContext h command params w)).
Proof.
  intros Hin Hcat Hsave Hctx Hacc.
  destruct (inheriting_command m command Hin Hcat) as (k & Hreg & Hsup & Hinit & Hpar).
  rewrite (executeCommand_registered m h command params w k Hreg Hsup).
  unfold execute, executePipeline, phases.
  enter_phase k. rewrite Hinit. unfold BaseWorkflow.executeInitializationPhase at 1.
  unfold ret at 1. cbv beta iota.
  enter_phase k. rewrite Hpar.
  rewrite (parameters_phase_outcome h command params w) by done.
  destruct (saveParamAccepted params); cbn [andb negb] in *; [|reflexivity].
  rewrite Hacc. reflexivity.
Qed.

(** A dispatch whose global parameters are accepted enters the workflow
    phase. *)
Lemma dispatch_enters_workflow (m : Orchestrator3.MessageCopy) (h : Host)
    (command : string) (params : obj) (w : World) :
  command ∈ dispatchedCommands -> categoryOf command <> "critic" ->
  textOrMissing (get "save" params) ->
  textOrMissing (get "context" params) ->
  saveParamAccepted params && contextParamAccepted params = true ->
  exists t,
    fst (Orchestrator3.executeCommand (Orchestrator3.workflows m) h command params w)
    = ranToCompletion ["initialization"; "parameters"] ++ Started "workflow" :: t.
Proof.
  intros Hin Hcat Hsave Hctx Hacc.
  destruct (inheriting_command m command Hin Hcat) as (k & Hreg & Hsup & Hinit & Hpar).
  rewrite (executeCommand_registered m h command params w k Hreg Hsup).
  unfold execute, executePipeline, phases.
  enter_phase k. rewrite Hinit. unfold BaseWorkflow.executeInitializationPhase at 1.
  unfold ret at 1. cbv beta iota.
  enter_phase k. rewrite Hpar.
  rewrite (parameters_phase_outcome h command params w) by done.
  apply andb_true_iff in Hacc as [-> ->]. cbn [negb].
  rewrite runPhases_cons.
  destruct (executePhase (workflowOf k) h "workflow" _) as [[v|e] r3].
  - destruct (runPhases (workflowOf k) h _ _) as [t [[[]|e] r5]]; cbn [fst snd].
    + destruct (truthy (Ctx.save (ctx r5))); [|by eexists].
      destruct (Orchestrator3.savePipelineData _ _ _ _) as [[?|?] ?]; by eexists.
    + by eexists.
  - by eexists.
Qed.

(** X17.  The inherited parameters phase decides for every command
    outside the [critic] category: with a [save] and a [context] that are
    texts or missing, the workflow phase is entered exactly when the [save]
    path is empty or absolute and ending in [.json], and the [context] has
    at most 1000 characters.  The bound is inclusive: a context of exactly
    1000 characters passes, although the error speaks of less than 1000. *)
Theorem workflow_phase_entered_iff_globals_accepted (m : Orchestrator3.MessageCopy)
    (h : Host) (command : string) (params : obj) (w : World) :
  command ∈ dispatchedCommands -> categoryOf command <> "critic" ->
  textOrMissing (get "save" params) ->
  textOrMissing (get "context" params) ->
  "workflow" ∈ started
    (fst (Orchestrator3.executeCommand (Orchestrator3.workflows m) h command params w))
  <-> saveParamAccepted params = true /\ contextParamAccepted params = true.
Proof.
  intros Hin Hcat Hsave Hctx. rewrite <- andb_true_iff.
  destruct (saveParamAccepted params && contextParamAccepted params) eqn:Hacc.
  - split; [done|]. intros _.
    destruct (dispatch_enters_workflow m h command params w Hin Hcat Hsave Hctx Hacc)
      as [t ->].
    rewrite started_app. cbn. rewrite !elem_of_cons. auto.
  - split; [|done].
    rewrite (dispatch_stopped_in_parameters m h command params w Hin Hcat Hsave Hctx Hacc).
    cbn. rewrite !elem_of_cons, elem_of_nil. intros [|[|[]]]; discriminate.
Qed.

Lemma workflow_phase_entered_iff_globals_accepted_witness :
  "workflow" ∈ started
    (fst (Orchestrator3.executeCommand (Orchestrator3.workflows Orchestrator3.Plain)
            exampleHost "message:new"
            [("message", VStr "hi"); ("context", VStr (text 1000))]
            Orchestrator3.initialWorld))
  <-> saveParamAccepted [("message", VStr "hi"); ("context", VStr (text 1000))] = true /\
      contextParamAccepted [("message", VStr "hi"); ("context", VStr (text 1000))] = true.
Proof.
  apply (workflow_phase_entered_iff_globals_accepted Orchestrator3.Plain exampleHost
           "message:new" [("message", VStr "hi"); ("context", VStr (text 1000))]
           Orchestrator3.initialWorld).
  - repeat constructor.
  - vm_compute. discriminate.
  - by left.
  - right. by eexists.
Defined.

(** X18.  A [context] text of more than 1000 characters is refused by the
    parameters phase, but by then the orchestrator has already appended it
    to the Global Context Store: the dispatch fails, no later phase runs,
    and the store keeps the refused text as its last entry. *)
Theorem rejected_context_is_still_stored (m : Orchestrator3.MessageCopy) (h : Host)
    (command : string) (params : obj) (w : World) (c : string) :
  command ∈ dispatchedCommands -> categoryOf command <> "critic" ->
  get "save" params = VUndefined ->
  get "context" params = VStr c ->
  (1000 < String.length c)%nat ->
  Orchestrator3.executeCommand (Orchestrator3.workflows m) h command params w
  = (stoppedIn "parameters",
     (Throw (Error "Context must be less than 1000 characters"),
      with_context (w_context w ++ [entryOf h command (VStr c)]) w)).
Proof.
  intros Hin Hcat Hsave Hctx Hlen.
  rewrite (dispatch_stopped_in_parameters m h command params w Hin Hcat).
  - unfold saveParamAccepted, Orchestrator3.pushContext. rewrite Hsave, Hctx.
    destruct c as [|a c]; [simpl in Hlen; lia|]. reflexivity.
  - rewrite Hsave. by left.
  - rewrite Hctx. right. by eexists.
  - unfold saveParamAccepted, contextParamAccepted, contextTextAccepted.
    rewrite Hsave, Hctx. cbn [andb]. apply Nat.leb_gt. lia.
Qed.

Lemma rejected_context_is_still_stored_witness :
  Orchestrator3.executeCommand (Orchestrator3.workflows Orchestrator3.Plain) exampleHost
    "system:health" [("context", VStr (text 1001))] Orchestrator3.initialWorld
  = (stoppedIn "parameters",
     (Throw (Error "Context must be less than 1000 characters"),
      with_context (w_context Orchestrator3.initialWorld
                    ++ [entryOf exampleHost "system:health" (VStr (text 1001))])
        Orchestrator3.initialWorld)).
Proof.
  apply (rejected_context_is_still_stored Orchestrator3.Plain exampleHost "system:health"
           [("context", VStr (text 1001))] Orchestrator3.initialWorld (text 1001)).
  - repeat constructor.
  - vm_compute. discriminate.
  - reflexivity.
  - reflexivity.
  - rewrite length_text. lia.
Defined.

(** X19.  A [save] path that is not absolute or does not end in [.json]
    stops every command outside the [critic] category in the parameters
    phase, before the [context] is looked at (an over-long context does not
    change the error): no file is written and the settings are as before. *)
Theorem bad_save_path_stops_dispatch (m : Orchestrator3.MessageCopy) (h : Host)
    (command : string) (params : obj) (w : World) (path : string) :
  command ∈ dispatchedCommands -> categoryOf command <> "critic" ->
  get "save" params = VStr path -> path <> EmptyString ->
  savePathAccepted path = false ->
  textOrMissing (get "context" params) ->
  exists w',
    Orchestrator3.executeCommand (Orchestrator3.workflows m) h command params w
    = (stoppedIn "parameters",
       (Throw (Error "Save path must be absolute and end with .json"), w')) /\
    w_files w' = w_files w /\
    w_settings w' = w_settings w.
Proof.
  intros Hin Hcat Hsave Hne Hbad Hctx.
  assert (Hacc : saveParamAccepted params = false).
  { unfold saveParamAccepted. rewrite Hsave, Hbad. by destruct path. }
  exists (Orchestrator3.pushContext h command params w).
  rewrite (dispatch_stopped_in_parameters m h command params w Hin Hcat);
    [| rewrite Hsave; right; by eexists | exact Hctx | by rewrite Hacc].
  rewrite Hacc.
  destruct (pushContext_frame h command params w) as (Hf & Hs & _). done.
Qed.

Lemma bad_save_path_stops_dispatch_witness :
  exists w',
    Orchestrator3.executeCommand (Orchestrator3.workflows Orchestrator3.Plain) exampleHost
      "meta:context" [("add", VStr "note"); ("save", VStr "/tmp/trace.txt");
                      ("context", VStr (text 1001))]
      Orchestrator3.initialWorld
    = (stoppedIn "parameters",
       (Throw (Error "Save path must be absolute and end with .json"), w')) /\
    w_files w' = w_files Orchestrator3.initialWorld /\
    w_settings w' = w_settings Orchestrator3.initialWorld.
Proof.
  apply (bad_save_path_stops_dispatch Orchestrator3.Plain exampleHost "meta:context"
           [("add", VStr "note"); ("save", VStr "/tmp/trace.txt");
            ("context", VStr (text 1001))]
           Orchestrator3.initialWorld "/tmp/trace.txt").
  - repeat constructor.
  - vm_compute. discriminate.
  - reflexivity.
  - discriminate.
  - reflexivity.
  - right. by eexists.
Defined.



(** *** The two orchestrators side by side *)

(** X21.  The orchestrator with the Global Context Store extends
    [orchestrator.js]: for parameters without [save] and [context], and a
    command outside the categories it adds ([agent], [meta], [critic]),
    both orchestrators give the same trace, the same outcome and the same
    state. *)
Theorem store_orchestrator_extends_first (h : Host) (command : string) (params : obj)
    (w : World) :
  truthy (get "save" params) = false ->
  truthy (get "context" params) = false ->
  categoryOf command ∉ ["agent"; "meta"; "critic"] ->
  Orchestrator3.executeCommand (Orchestrator3.workflows Orchestrator3.Plain) h command
    params w
  = Orchestrator.executeCommand Orchestrator.workflows h command params w.
Proof.
  intros Hsave Hctx Hcat.
  rewrite !not_elem_of_cons in Hcat. destruct Hcat as (Ha & Hm & Hc & _).
  assert (Hreg : Orchestrator3.workflows Orchestrator3.Plain !! categoryOf command
                 = Orchestrator.workflows !! categoryOf command).
  { unfold Orchestrator3.workflows, Orchestrator3.initialize, register.
    by rewrite !lookup_insert_ne by done. }
  unfold Orchestrator3.executeCommand, Orchestrator.executeCommand,
    Orchestrator3.extractSave, Orchestrator3.extractContext, Orchestrator3.pushContext.
  rewrite Hsave. cbv beta iota. rewrite Hctx, Hreg.
  destruct (Orchestrator.workflows !! categoryOf command) as [wf|] eqn:Hwf; [|reflexivity].
  destruct (isSupportedCommand wf command); [|reflexivity].
  cbn [negb get]. fold (emptyContext command params). cbv zeta.
  assert (exists k, wf = workflowOf k) as [k ->].
  { apply workflows1_lookup in Hwf as [[_ ->] | [_ ->]]; by eexists. }
  pose proof (execute_frame k h {| ctx := emptyContext command params; world := w |})
    as Hframe.
  destruct (execute (workflowOf k) h _) as [t [[v|e] r]]; [|reflexivity].
  destruct Hframe as (_ & Hsv & _).
  cbn [ctx emptyContext Ctx.save] in Hsv. by rewrite Hsv.
Qed.

Lemma store_orchestrator_extends_first_witness :
  Orchestrator3.executeCommand (Orchestrator3.workflows Orchestrator3.Plain) exampleHost
    "message:read" [("count", VNum 2)] Orchestrator.initialWorld
  = Orchestrator.executeCommand Orchestrator.workflows exampleHost "message:read"
      [("count", VNum 2)] Orchestrator.initialWorld.
Proof.
  apply (store_orchestrator_extends_first exampleHost "message:read" [("count", VNum 2)]
           Orchestrator.initialWorld); [reflexivity | reflexivity |].
  rewrite !not_elem_of_cons. repeat split; [discriminate..|apply not_elem_of_nil].
Defined.

(** X22.  What the extraction of the global parameters leaves: every
    parameter other than [save] and [context] reaches the handlers as it
    was given; the handlers never see a truthy [save] or [context] (a falsy
    one, such as an empty text, is neither extracted nor deleted); and
    [globalParams] holds the truthy ones and nothing else. *)
Theorem global_parameters_extraction (params : obj) :
  (forall k, k <> "save" -> k <> "context" ->
     get k (strippedParams params) = get k params /\
     get k (globalParamsOf params) = VUndefined) /\
  truthy (get "save" (strippedParams params)) = false /\
  truthy (get "context" (strippedParams params)) = false /\
  get "save" (globalParamsOf params)
    = (if truthy (get "save" params) then get "save" params else VUndefined) /\
  get "context" (globalParamsOf params)
    = (if truthy (get "context" params) then get "context" params else VUndefined).
Proof.
  split; [|split; [|split; [|split]]].
  - intros k Hs Hc. split; [by apply get_strippedParams|].
    unfold globalParamsOf, Orchestrator3.extractSave, Orchestrator3.extractContext.
    destruct (truthy (get "save" params)); cbn [fst snd];
      rewrite ?(get_delete_key_ne "context" "save") by done;
      destruct (truthy (get "context" params)); cbn [fst snd];
      rewrite ?get_set_ne by done; cbn [set get]; rewrite ?get_set_ne by done;
      try reflexivity.
    all: cbn; repeat case_match; try done;
      match goal with H : (_ =? _) = true |- _ => apply String.eqb_eq in H end; done.
  - unfold strippedParams, Orchestrator3.extractSave, Orchestrator3.extractContext.
    destruct (truthy (get "save" params)) eqn:Hsave; cbn [fst snd].
    + destruct (truthy (get "context" (delete_key "save" params))); cbn [fst snd].
      * by rewrite get_delete_key_ne, get_delete_key_eq by done.
      * by rewrite get_delete_key_eq.
    + destruct (truthy (get "context" params)); cbn [fst snd]; [|done].
      by rewrite get_delete_key_ne by done.
  - unfold strippedParams, Orchestrator3.extractSave, Orchestrator3.extractContext.
    destruct (truthy (get "save" params)); cbn [fst snd].
    + destruct (truthy (get "context" (delete_key "save" params))) eqn:Hc; cbn [fst snd];
        [by rewrite get_delete_key_eq | done].
    + destruct (truthy (get "context" params)) eqn:Hc; cbn [fst snd];
        [by rewrite get_delete_key_eq | done].
  - rewrite get_save_globalParams. reflexivity.
  - rewrite get_context_globalParams. reflexivity.
Qed.

Lemma global_parameters_extraction_witness :
  get "name" (strippedParams [("name", VStr "critic"); ("save", VStr "/tmp/run.json")])
  = VStr "critic" /\
  get "name" (globalParamsOf [("name", VStr "critic"); ("save", VStr "/tmp/run.json")])
  = VUndefined.
Proof.
  apply (proj1 (global_parameters_extraction
                  [("name", VStr "critic"); ("save", VStr "/tmp/run.json")]) "name");
    discriminate.
Defined.

(** *** The category of a command *)

Lemma split_nonempty (c : ascii) (s : string) : Str.split c s <> [].
Proof.
  destruct s as [|a s]; cbn [Str.split]; [done|].
  destruct (Ascii.eqb a c); [done|]. by destruct (Str.split c s).
Qed.

Lemma categoryOf_String (a : ascii) (s : string) :
  categoryOf (String a s)
  = if Ascii.eqb a ":" then EmptyString else String a (categoryOf s).
Proof.
  unfold categoryOf. cbn [Str.split].
  destruct (Ascii.eqb a ":"); [reflexivity|].
  pose proof (split_nonempty ":" s). by destruct (Str.split ":" s).
Qed.

(** X23.  The category of a command is the text before its first colon: it
    holds no colon, and the command is the category alone or the category,
    a colon and a rest.  Conversely a colon-free text followed by a colon
    and anything has that text as its category, so [getWorkflowForCommand]
    depends on nothing but the text before the first colon. *)
Theorem category_is_text_before_first_colon (command : string) :
  mentions ":" (categoryOf command) = false /\
  (command = categoryOf command \/
   exists rest, command = categoryOf command +:+ ":" +:+ rest) /\
  (forall category rest (reg : Registry),
     mentions ":" category = false ->
     categoryOf (category +:+ ":" +:+ rest) = category /\
     categoryOf category = category /\
     getWorkflowForCommand reg (category +:+ ":" +:+ rest) = reg !! category).
Proof.
  split; [|split].
  - induction command as [|a s IH]; [reflexivity|].
    rewrite categoryOf_String. destruct (Ascii.eqb_spec a ":") as [->|Hne]; [reflexivity|].
    cbn [mentions]. rewrite IH, orb_false_r.
    apply Ascii.eqb_neq. congruence.
  - induction command as [|a s IH]; [by left|].
    rewrite categoryOf_String. destruct (Ascii.eqb_spec a ":") as [->|Hne].
    + right. by exists s.
    + destruct IH as [IH | [rest IH]].
      * left. by rewrite <- IH.
      * right. exists rest. by rewrite IH at 1.
  - intros category rest reg Hfree.
    assert (H1 : categoryOf (category +:+ ":" +:+ rest) = category).
    { induction category as [|a s IH]; [reflexivity|].
      cbn [mentions] in Hfree. apply orb_false_iff in Hfree as [Ha Hs].
      change (String a s +:+ ":" +:+ rest) with (String a (s +:+ ":" +:+ rest)).
      rewrite categoryOf_String, Ascii.eqb_sym, Ha. by rewrite (IH Hs). }
    split; [exact H1|]. split.
    + clear H1. induction category as [|a s IH]; [reflexivity|].
      cbn [mentions] in Hfree. apply orb_false_iff in Hfree as [Ha Hs].
      rewrite categoryOf_String, Ascii.eqb_sym, Ha. by rewrite (IH Hs).
    + unfold getWorkflowForCommand. by rewrite H1.
Qed.

(** *** Phases without a handler *)

(** X24.  [executePhase] falls back to a default when the workflow object has
    no method for a phase: for a workflow without any phase method the
    pipeline still runs all five phases, records [{status: completed,
    phase}] for each of them, changes nothing else, and returns
    [context.result] if it is truthy and the map of phase results
    otherwise. *)
Theorem missing_handlers_default (wf : Workflow) (h : Host) (r : Run) :
  (forall phase, phase ∈ phases ->
     wf_methods wf !! ("execute" +:+ Str.capitalize phase +:+ "Phase") = None) ->
  let completed :=
    map (fun phase => (phase, VObj [("status", VStr "completed"); ("phase", VStr phase)]))
      phases in
  execute wf h r
  = (ranToCompletion phases,
     (Ok (js_or (Ctx.result (ctx r)) (VObj completed)),
      {| ctx := Ctx.set_phaseResults completed (ctx r); world := world r |})).
Proof.
  intros Hnone completed.
  assert (Hphase : forall phase r', phase ∈ phases ->
            executePhase wf h phase r'
            = (Ok (VObj [("status", VStr "completed"); ("phase", VStr phase)]), r')).
  { intros phase r' Hin. specialize (Hnone phase Hin).
    unfold executePhase. unfold Handler in *. by rewrite Hnone. }
  unfold execute, executePipeline, phases in *.
  do 5 (rewrite runPhases_cons, Hphase by (repeat constructor); cbv beta iota zeta).
  destruct r as [c w]. reflexivity.
Qed.

Lemma missing_handlers_default_witness :
  let wf := {| wf_name := "Bare"; wf_supportedCommands := []; wf_methods := ∅ |} in
  let r := {| ctx := emptyContext "bare:run" []; world := Orchestrator.initialWorld |} in
  let completed :=
    map (fun phase => (phase, VObj [("status", VStr "completed"); ("phase", VStr phase)]))
      phases in
  execute wf exampleHost r
  = (ranToCompletion phases,
     (Ok (js_or (Ctx.result (ctx r)) (VObj completed)),
      {| ctx := Ctx.set_phaseResults completed (ctx r); world := world r |})).
Proof.
  intros wf r.
  apply (missing_handlers_default wf exampleHost r).
  intros phase _. apply lookup_empty.
Defined.

Lemma category_is_text_before_first_colon_witness :
  mentions ":" "critic" = false /\
  categoryOf ("critic" +:+ ":" +:+ "harsh:twice") = "critic" /\
  categoryOf "critic" = "critic" /\
  getWorkflowForCommand Orchestrator.workflows ("critic" +:+ ":" +:+ "harsh:twice")
  = Orchestrator.workflows !! "critic".
Proof.
  split; [reflexivity|].
  exact (proj2 (proj2 (category_is_text_before_first_colon EmptyString))
           "critic" "harsh:twice" Orchestrator.workflows eq_refl).
Defined.

(** X25.  The [context] flag and [meta:context --add] both write to the
    store, in this order: a dispatch of [meta:context] that carries an
    accepted [context] text and an [add] text appends two entries, the
    context first and the added text second; and the handlers see the
    parameters without [context]. *)
Theorem context_flag_and_add_push_two_entries (m : Orchestrator3.MessageCopy) (h : Host)
    (params : obj) (w : World) (c : string) :
  truthy (get "save" params) = false ->
  get "context" params = VStr c -> c <> EmptyString ->
  (String.length c <= 1000)%nat ->
  truthy (get "add" params) = true ->
  Orchestrator3.executeCommand (Orchestrator3.workflows m) h "meta:context" params w
  = (ranToCompletion phases,
     (Ok (inheritedPhaseResults (delete_key "context" params)
            (VObj [("success", VBool true); ("action", VStr "context_added");
                   ("content", get "add" params)])),
      with_context (w_context w ++ [entryOf h "meta:context" (VStr c);
                                    entryOf h "meta:context" (get "add" params)]) w)).
Proof.
  intros Hsave Hctx Hne Hlen Hadd.
  assert (Htruthy : truthy (get "context" params) = true).
  { rewrite Hctx. by destruct c. }
  rewrite (executeCommand_registered m h "meta:context" params w WMeta
             (meta_context_registered m) eq_refl).
  assert (Hrun : dispatchRun h "meta:context" params w
                 = {| ctx := Ctx.mk "meta:context" (delete_key "context" params)
                               VUndefined (VStr c) VUndefined [] VUndefined VUndefined
                               VUndefined VUndefined VUndefined;
                      world := with_context
                                 (w_context w ++ [entryOf h "meta:context" (VStr c)]) w |}).
  { unfold dispatchRun. rewrite get_save_globalParams, get_context_globalParams.
    unfold js_or, strippedParams, Orchestrator3.extractSave, Orchestrator3.extractContext,
      Orchestrator3.pushContext.
    rewrite Hsave, Htruthy. cbn [fst snd]. by rewrite Hctx. }
  rewrite Hrun. clear Hrun.
  assert (Hget : get "add" (delete_key "context" params) = get "add" params)
    by (by apply get_delete_key_ne).
  rewrite <- Hget in Hadd |- *.
  generalize dependent (delete_key "context" params). intros params' Hadd.
  unfold execute, executePipeline, phases.
  enter_phase WMeta.
  lazy [handlerOf baseHandler String.eqb Ascii.eqb Bool.eqb].
  unfold BaseWorkflow.executeInitializationPhase at 1. unfold ret at 1. cbv beta iota.
  enter_phase WMeta.
  lazy [handlerOf baseHandler String.eqb Ascii.eqb Bool.eqb].
  rewrite (parameters_phase_accepts_short_context h _ c) by done.
  eval_phase WMeta. rewrite Hadd.
  cbn -[insert lookup stringify runPhases].
  do 2 (eval_phase WMeta). cbn [runPhases]. cbn -[insert lookup stringify].
  unfold inheritedPhaseResults, entryOf. rewrite <- app_assoc. by destruct w.
Qed.

Lemma context_flag_and_add_push_two_entries_witness :
  let params := [("add", VStr "remember this"); ("context", VStr "sprint review")] in
  Orchestrator3.executeCommand (Orchestrator3.workflows Orchestrator3.Plain) exampleHost
    "meta:context" params Orchestrator3.initialWorld
  = (ranToCompletion phases,
     (Ok (inheritedPhaseResults (delete_key "context" params)
            (VObj [("success", VBool true); ("action", VStr "context_added");
                   ("content", get "add" params)])),
      with_context (w_context Orchestrator3.initialWorld
                    ++ [entryOf exampleHost "meta:context" (VStr "sprint review");
                        entryOf exampleHost "meta:context" (get "add" params)])
        Orchestrator3.initialWorld)).
Proof.
  intros params.
  apply (context_flag_and_add_push_two_entries Orchestrator3.Plain exampleHost params
           Orchestrator3.initialWorld "sprint review").
  - reflexivity.
  - reflexivity.
  - discriminate.
  - vm_compute. lia.
  - reflexivity.
Defined.

(** *** The names that [system-dev.js] generates *)

Lemma alnum_not_dash (a : ascii) : SystemDeveloper.alnum a = true -> Ascii.eqb a "-" = false.
Proof.
  intros Ha. destruct (Ascii.eqb_spec a "-") as [->|]; [|done]. discriminate Ha.
Qed.

Lemma dash_not_alnum : SystemDeveloper.alnum "-" = false.
Proof. reflexivity. Qed.

Lemma dashRuns_dashed (inRun : bool) (s : string) :
  dashed inRun (SystemDeveloper.dashRuns inRun s) = true.
Proof.
  revert inRun. induction s as [|a s IH]; intros inRun; [reflexivity|].
  cbn [SystemDeveloper.dashRuns]. destruct (SystemDeveloper.alnum a) eqn:Ha.
  - cbn [dashed]. by rewrite (alnum_not_dash a Ha), Ha, IH.
  - destruct inRun; [apply IH|].
    cbn [dashed Ascii.eqb Bool.eqb negb andb]. apply IH.
Qed.

Lemma dashed_weaken (s : string) : dashed true s = true -> dashed false s = true.
Proof.
  destruct s as [|a s]; [done|]. cbn [dashed].
  destruct (Ascii.eqb a "-"); [done|done].
Qed.

Lemma dropLeadingDashes_dashed (s : string) :
  dashed false s = true -> dashed true (SystemDeveloper.dropLeadingDashes s) = true.
Proof.
  destruct s as [|a s]; [done|]. cbn [dashed SystemDeveloper.dropLeadingDashes].
  destruct (Ascii.eqb a "-") eqn:Ha.
  - cbn [negb andb]. intros Hs.
    destruct s as [|b s]; [done|]. cbn [dashed SystemDeveloper.dropLeadingDashes] in *.
    destruct (Ascii.eqb b "-") eqn:Hb; [done|].
    cbn [dashed]. by rewrite Hb.
  - intros Hs. cbn [dashed]. by rewrite Ha.
Qed.

Lemma dropTrailingDashes_slug (afterDash : bool) (s : string) :
  dashed afterDash s = true ->
  SystemDeveloper.dropTrailingDashes s = EmptyString \/ slugBody afterDash (SystemDeveloper.dropTrailingDashes s) = true.
Proof.
  revert afterDash. induction s as [|a s IH]; intros afterDash; [by left|].
  cbn [dashed SystemDeveloper.dropTrailingDashes].
  destruct (Ascii.eqb a "-") eqn:Ha.
  - intros Hs. apply andb_true_iff in Hs as [Hp Hs].
    destruct (IH true Hs) as [-> | Hrest]; [by left|].
    destruct (SystemDeveloper.dropTrailingDashes s) as [|b t] eqn:Ht; [by left|].
    right. cbn [andb String.eqb]. cbn [slugBody]. rewrite Ha, Hp. exact Hrest.
  - intros Hs. apply andb_true_iff in Hs as [Hal Hs]. right.
    cbn [andb]. cbn [slugBody]. rewrite Ha, Hal. cbn [andb].
    destruct (IH false Hs) as [-> | Hrest]; [reflexivity|exact Hrest].
Qed.

Lemma generateAgentName_isSlug (f : string) : isSlug (SystemDeveloper.generateAgentName f) = true.
Proof.
  unfold SystemDeveloper.generateAgentName, SystemDeveloper.trimDashes, isSlug.
  pose proof (dashRuns_dashed false (SystemDeveloper.toLowerCase f)) as H1.
  apply dropLeadingDashes_dashed in H1.
  apply dropTrailingDashes_slug in H1 as [-> | ->]; [reflexivity|apply orb_true_r].
Qed.

Lemma slugBody_weaken (s : string) : slugBody true s = true -> slugBody false s = true.
Proof.
  destruct s as [|a s]; [done|]. cbn [slugBody].
  destruct (Ascii.eqb a "-"); done.
Qed.

Lemma lower_alnum (a : ascii) : SystemDeveloper.alnum a = true -> SystemDeveloper.lower a = a.
Proof.
  unfold SystemDeveloper.alnum, SystemDeveloper.lower. intros Ha.
  destruct ((65 <=? nat_of_ascii a)%nat && (nat_of_ascii a <=? 90)%nat) eqn:Hup; [|done].
  exfalso. apply andb_true_iff in Hup as [H1 H2].
  apply Nat.leb_le in H1, H2.
  apply orb_true_iff in Ha as [Ha|Ha]; apply andb_true_iff in Ha as [H3 H4];
    apply Nat.leb_le in H3, H4; lia.
Qed.

Lemma slug_toLowerCase (p : bool) (s : string) :
  slugBody p s = true -> SystemDeveloper.toLowerCase s = s.
Proof.
  revert p. induction s as [|a s IH]; intros p; [done|]. cbn [slugBody SystemDeveloper.toLowerCase].
  destruct (Ascii.eqb_spec a "-") as [->|Hne].
  - intros Hs. apply andb_true_iff in Hs as [_ Hs]. by rewrite (IH _ Hs).
  - intros Hs. apply andb_true_iff in Hs as [Ha Hs].
    by rewrite (lower_alnum a Ha), (IH _ Hs).
Qed.

Lemma slug_dashRuns (p : bool) (s : string) :
  slugBody p s = true -> SystemDeveloper.dashRuns p s = s.
Proof.
  revert p. induction s as [|a s IH]; intros p; [done|]. cbn [slugBody SystemDeveloper.dashRuns].
  destruct (Ascii.eqb_spec a "-") as [->|Hne].
  - intros Hs. apply andb_true_iff in Hs as [Hp Hs].
    rewrite dash_not_alnum. destruct p; [done|]. by rewrite (IH _ Hs).
  - intros Hs. apply andb_true_iff in Hs as [Ha Hs].
    by rewrite Ha, (IH _ Hs).
Qed.

Lemma slug_dropTrailingDashes (p : bool) (s : string) :
  slugBody p s = true -> SystemDeveloper.dropTrailingDashes s = s.
Proof.
  revert p. induction s as [|a s IH]; intros p; [done|]. cbn [slugBody SystemDeveloper.dropTrailingDashes].
  destruct (Ascii.eqb_spec a "-") as [->|Hne].
  - intros Hs. apply andb_true_iff in Hs as [_ Hs]. rewrite (IH _ Hs).
    destruct s; [discriminate Hs|reflexivity].
  - intros Hs. apply andb_true_iff in Hs as [_ Hs]. by rewrite (IH _ Hs).
Qed.

Lemma slug_fixed (s : string) : isSlug s = true -> SystemDeveloper.generateAgentName s = s.
Proof.
  unfold isSlug. intros Hs. apply orb_true_iff in Hs as [Hs|Hs].
  - apply String.eqb_eq in Hs as ->. reflexivity.
  - unfold SystemDeveloper.generateAgentName, SystemDeveloper.trimDashes.
    rewrite (slug_toLowerCase _ _ Hs), (slug_dashRuns _ _ (slugBody_weaken _ Hs)).
    assert (Hlead : SystemDeveloper.dropLeadingDashes s = s).
    { destruct s as [|a s]; [done|]. cbn [slugBody SystemDeveloper.dropLeadingDashes] in *.
      destruct (Ascii.eqb a "-"); [discriminate Hs|reflexivity]. }
    rewrite Hlead. exact (slug_dropTrailingDashes _ _ Hs).
Qed.

(** X26.  The names that the tool generates for agents, commands and hooks
    are slugs: built from lower-case letters, digits and single dashes, with
    no dash at either end (possibly empty, when the description holds no
    letter or digit).  Generating is idempotent, a slug is left as it is,
    the command name is the agent name, and the hook name is the agent name
    followed by [-handler]. *)
Theorem generated_names_are_slugs (functionality : string) :
  isSlug (SystemDeveloper.generateAgentName functionality) = true /\
  SystemDeveloper.generateAgentName (SystemDeveloper.generateAgentName functionality)
    = SystemDeveloper.generateAgentName functionality /\
  (forall s, isSlug s = true -> SystemDeveloper.generateAgentName s = s) /\
  SystemDeveloper.generateCommandName functionality
    = SystemDeveloper.generateAgentName functionality /\
  SystemDeveloper.generateHookName functionality
    = SystemDeveloper.generateAgentName functionality +:+ "-handler".
Proof.
  split; [apply generateAgentName_isSlug|]. split.
  - apply slug_fixed, generateAgentName_isSlug.
  - split; [exact slug_fixed|]. split; reflexivity.
Qed.

Lemma generated_names_are_slugs_witness :
  isSlug "code-review-qa-v2" = true /\
  SystemDeveloper.generateAgentName "code-review-qa-v2" = "code-review-qa-v2".
Proof.
  split; [reflexivity|].
  exact (proj1 (proj2 (proj2 (generated_names_are_slugs EmptyString)))
           "code-review-qa-v2" eq_refl).
Defined.

Example generated_name_of_description :
  SystemDeveloper.generateAgentName "  Code Review & QA (v2)!" = "code-review-qa-v2" /\
  SystemDeveloper.generateHookName "Negotiation" = "negotiation-handler" /\
  SystemDeveloper.generateAgentName "???" = EmptyString.
Proof. repeat split; reflexivity. Qed.

(** *** The command line of [system-dev.js] *)

Lemma split_without_separator (c : ascii) (s : string) :
  mentions c s = false -> Str.split c s = [s].
Proof.
  induction s as [|a s IH]; [reflexivity|]. cbn [mentions Str.split].
  intros Hm. apply orb_false_iff in Hm as [Ha Hs].
  rewrite Ascii.eqb_sym, Ha, (IH Hs). reflexivity.
Qed.

Lemma split_at_separator (c : ascii) (s rest : string) :
  mentions c s = false ->
  Str.split c (s +:+ String c rest) = s :: Str.split c rest.
Proof.
  induction s as [|a s IH]; intros Hm.
  - change (EmptyString +:+ String c rest) with (String c rest).
    cbn [Str.split]. by rewrite Ascii.eqb_refl.
  - cbn [mentions] in Hm. apply orb_false_iff in Hm as [Ha Hs].
    change (String a s +:+ String c rest) with (String a (s +:+ String c rest)).
    cbn [Str.split]. rewrite Ascii.eqb_sym, Ha, (IH Hs). reflexivity.
Qed.

Lemma startsWith_request (text : string) :
  Str.startsWith "--request=" ("--request=" +:+ text) = true.
Proof. unfold Str.startsWith. cbn. by destruct text. Qed.

(** X27.  How [main] reads the request.  Only an argument of the form
    [--request=TEXT] is found; the request is the part of TEXT before its
    first [=], so a later [=] cuts the request short.  The form that the
    usage message shows, [--request] followed by the description as an
    argument of its own, yields no request: the tool prints the usage and
    exits, as it does for an empty TEXT. *)
Theorem request_is_read_up_to_equals_sign :
  (forall text rest others,
     mentions "=" text = false ->
     SystemDeveloper.requestOf (("--request=" +:+ text) :: others) = VStr text /\
     SystemDeveloper.requestOf (("--request=" +:+ text +:+ "=" +:+ rest) :: others)
       = VStr text) /\
  (forall description,
     Str.startsWith "--request=" description = false ->
     SystemDeveloper.requestOf ["--request"; description] = VUndefined /\
     SystemDeveloper.usageError ["--request"; description] = true /\
     SystemDeveloper.usageError ["--request"; description; "--dry-run"] = true) /\
  (forall others, SystemDeveloper.usageError ("--request=" :: others) = true).
Proof.
  split; [|split].
  - intros text rest others Hm. unfold SystemDeveloper.requestOf. split.
    + cbn [List.find]. rewrite startsWith_request.
      change ("--request=" +:+ text) with ("--request" +:+ String "=" text).
      rewrite (split_at_separator "=" "--request" text eq_refl).
      by rewrite (split_without_separator "=" text Hm).
    + cbn [List.find]. rewrite startsWith_request.
      change ("--request=" +:+ text +:+ "=" +:+ rest)
        with ("--request" +:+ String "=" (text +:+ String "=" rest)).
      rewrite (split_at_separator "=" "--request" _ eq_refl).
      by rewrite (split_at_separator "=" text rest Hm).
  - intros description Hd.
    unfold SystemDeveloper.usageError, SystemDeveloper.requestOf.
    cbn [List.find]. rewrite Hd.
    change (Str.startsWith "--request=" "--request") with false.
    change (Str.startsWith "--request=" "--dry-run") with false.
    done.
  - intros others. reflexivity.
Qed.

Lemma request_is_read_up_to_equals_sign_witness :
  SystemDeveloper.requestOf ["--dry-run"; "--request=" +:+ "Add agent for a" +:+ "=" +:+ "b"]
    = VStr "Add agent for a" /\
  SystemDeveloper.usageError ["--request"; "Add new agent for X functionality"] = true.
Proof.
  split.
  - reflexivity.
  - exact (proj1 (proj2 (proj1 (proj2 request_is_read_up_to_equals_sign)
                           "Add new agent for X functionality" eq_refl))).
Defined.

(** *** The pipeline calls of [system-dev.js] *)

Lemma system_rejects (o : RepoOrchestrator) (h : Host) (command : string)
    (params : obj) (w : World) :
  categoryOf command = "system" ->
  isSupportedCommand SystemWorkflow.workflow command = false ->
  truthy (get "context" params) = false ->
  executorOf o h command params w = ([], (Throw (unsupported_command command), w)).
Proof.
  intros Hcat Hsup Hctx. destruct o as [|E|m]; unfold executorOf.
  - unfold Orchestrator.executeCommand. rewrite Hcat, workflows1_system.
    change (workflowOf WSystem) with SystemWorkflow.workflow. by rewrite Hsup.
  - unfold Orchestrator2.executeCommand, Orchestrator.executeCommand.
    rewrite Hcat, workflows_registered, lookup_insert_eq. by rewrite Hsup.
  - unfold Orchestrator3.executeCommand, Orchestrator3.extractSave,
      Orchestrator3.extractContext, Orchestrator3.pushContext.
    destruct (truthy (get "save" params)); cbv beta iota;
      rewrite ?(get_delete_key_ne "context" "save") by done;
      rewrite Hctx, Hcat, workflows3_system;
      change (workflowOf WSystem) with SystemWorkflow.workflow; by rewrite Hsup.
Qed.

(** X28.  The two commands that the development tool sends through the
    pipeline, [system:analyze-changes] and [system:validate], are listed by
    no workflow: each orchestrator of the repository rejects them before any
    phase and leaves its state as it was.  The analysis therefore always
    falls back to the tool's own rules, and [validateSystemPipeline] always
    reports the basic checks, passed with no issue, the same as when no
    orchestrator could be loaded. *)
Theorem pipeline_calls_of_the_tool_are_rejected (o : RepoOrchestrator) (h : Host)
    (parsedRequest : value) (w : World) :
  executorOf o h "system:analyze-changes" [("parsedRequest", parsedRequest)] w
    = ([], (Throw (Error "Command not supported: system:analyze-changes"), w)) /\
  executorOf o h "system:validate" [] w
    = ([], (Throw (Error "Command not supported: system:validate"), w)) /\
  SystemDeveloper.validateSystemPipeline (Some (executorOf o h)) w
    = (VObj [("passed", VBool true); ("issues", VArr [])], w) /\
  SystemDeveloper.validateSystemPipeline None w
    = (VObj [("passed", VBool true); ("issues", VArr [])], w).
Proof.
  split; [|split; [|split]].
  - exact (system_rejects o h "system:analyze-changes" [("parsedRequest", parsedRequest)] w
             eq_refl eq_refl eq_refl).
  - exact (system_rejects o h "system:validate" [] w eq_refl eq_refl eq_refl).
  - unfold SystemDeveloper.validateSystemPipeline.
    by rewrite (system_rejects o h "system:validate" [] w eq_refl eq_refl eq_refl).
  - reflexivity.
Qed.

(** *** [formatTwitterOutput] *)

Lemma length_append (s1 s2 : string) :
  String.length (s1 +:+ s2) = (String.length s1 + String.length s2)%nat.
Proof.
  induction s1 as [|a s1 IH]; [reflexivity|].
  change (String a s1 +:+ s2) with (String a (s1 +:+ s2)). cbn [String.length].
  by rewrite IH.
Qed.

Lemma length_substring_le (n : nat) (s : string) :
  (String.length (String.substring 0 n s) <= n)%nat.
Proof.
  revert s. induction n as [|n IH]; intros s.
  - destruct s; cbn; lia.
  - destruct s as [|a s]; cbn [String.substring String.length]; [lia|].
    specialize (IH s). lia.
Qed.

Lemma substring_prefix (n : nat) (s : string) :
  (n <= String.length s)%nat ->
  exists rest, s = String.substring 0 n s +:+ rest /\
               String.length (String.substring 0 n s) = n.
Proof.
  revert s. induction n as [|n IH]; intros s Hn.
  - exists s. by destruct s.
  - destruct s as [|a s]; [cbn in Hn; lia|]. cbn [String.length] in Hn.
    destruct (IH s ltac:(lia)) as (rest & Hs & Hl). exists rest.
    cbn [String.substring String.length].
    change (String a (String.substring 0 n s) +:+ rest)
      with (String a (String.substring 0 n s +:+ rest)).
    by rewrite <- Hs, Hl.
Qed.

(** X29.  [formatTwitterOutput] keeps to the limit of 280 characters for
    every input that is not itself a string: the result is the content
    followed by a space and the hashtags when that fits in 280 characters,
    the content alone when only the content fits, and otherwise the first
    277 characters of the content followed by three dots, exactly 280
    characters.  An input that is a string is returned as it is, whatever
    its length. *)
Theorem twitter_output_fits (data : value) (out : value) :
  Formatter.formatTwitterOutput data = Ok out ->
  match data with
  | VStr s => out = VStr s
  | _ =>
      exists tweet, out = VStr tweet /\ (String.length tweet <= 280)%nat /\
        let content := if truthy (prop "content" data)
                       then to_string (prop "content" data) else EmptyString in
        let tagged := match prop "hashtags" data with
                      | VArr tags => Some (content +:+ " " +:+ Formatter.hashtags tags)
                      | _ => None
                      end in
        match tagged with
        | Some t =>
            if (String.length t <=? 280)%nat then tweet = t
            else if (String.length content <=? 280)%nat then tweet = content
            else tweet = String.substring 0 277 content +:+ "..." /\
                 String.length tweet = 280%nat
        | None =>
            if (String.length content <=? 280)%nat then tweet = content
            else tweet = String.substring 0 277 content +:+ "..." /\
                 String.length tweet = 280%nat
        end
  end.
Proof.
  intros Hout.
  assert (Hcut : forall s, (280 < String.length s)%nat ->
            String.length (String.substring 0 277 s +:+ "...") = 280%nat).
  { intros s Hs. destruct (substring_prefix 277 s ltac:(lia)) as (rest & _ & Hl).
    rewrite length_append, Hl. reflexivity. }
  assert (Hbody : forall content tagsOpt,
            let output1 :=
              match tagsOpt with
              | Some tags =>
                  if (String.length content + String.length (Formatter.hashtags tags) + 1
                      <=? 280)%nat
                  then content +:+ " " +:+ Formatter.hashtags tags else content
              | None => content
              end in
            let text := if (280 <? String.length output1)%nat
                        then String.substring 0 277 output1 +:+ "..." else output1 in
            (String.length text <= 280)%nat /\
            match tagsOpt with
            | Some tags =>
                if (String.length (content +:+ " " +:+ Formatter.hashtags tags) <=? 280)%nat
                then text = content +:+ " " +:+ Formatter.hashtags tags
                else if (String.length content <=? 280)%nat then text = content
                else text = String.substring 0 277 content +:+ "..." /\
                     String.length text = 280%nat
            | None =>
                if (String.length content <=? 280)%nat then text = content
                else text = String.substring 0 277 content +:+ "..." /\
                     String.length text = 280%nat
            end).
  { intros content tagsOpt output1 text. subst text output1.
    destruct tagsOpt as [tags|].
    - rewrite !length_append. cbn [String.length].
      replace (String.length content + (1 + String.length (Formatter.hashtags tags)))%nat
        with (String.length content + String.length (Formatter.hashtags tags) + 1)%nat
        by lia.
      destruct (Nat.leb_spec
                  (String.length content + String.length (Formatter.hashtags tags) + 1) 280)
        as [Hfit|Hover].
      + replace (280 <? String.length (content +:+ " " +:+ Formatter.hashtags tags))%nat
          with false.
        * split; [|reflexivity]. rewrite !length_append. cbn [String.length]. lia.
        * symmetry. apply Nat.ltb_ge. rewrite !length_append. cbn [String.length]. lia.
      + destruct (Nat.leb_spec (String.length content) 280) as [Hc|Hc].
        * replace (280 <? String.length content)%nat with false
            by (symmetry; apply Nat.ltb_ge; lia). split; [lia|reflexivity].
        * replace (280 <? String.length content)%nat with true
            by (symmetry; apply Nat.ltb_lt; lia).
          rewrite (Hcut content Hc). split; [lia|]. split; reflexivity.
    - destruct (Nat.leb_spec (String.length content) 280) as [Hc|Hc].
      + replace (280 <? String.length content)%nat with false
          by (symmetry; apply Nat.ltb_ge; lia). split; [lia|reflexivity].
      + replace (280 <? String.length content)%nat with true
          by (symmetry; apply Nat.ltb_lt; lia).
        rewrite (Hcut content Hc). split; [lia|]. split; reflexivity. }
  unfold Formatter.formatTwitterOutput in Hout.
  destruct data as [| |b|n|s|l|o]; try discriminate Hout.
  - injection Hout as <-. eexists. split; [reflexivity|].
    exact (Hbody EmptyString None).
  - injection Hout as <-. eexists. split; [reflexivity|].
    exact (Hbody EmptyString None).
  - by injection Hout as <-.
  - injection Hout as <-. eexists. split; [reflexivity|].
    exact (Hbody EmptyString None).
  - injection Hout as <-. eexists. split; [reflexivity|].
    cbv zeta. cbn [prop].
    set (content := if truthy (get "content" o) then to_string (get "content" o)
                    else EmptyString).
    destruct (get "hashtags" o) as [| | | | |tags|];
      first [ exact (Hbody content None) | exact (Hbody content (Some tags)) ].
Qed.

Lemma twitter_output_fits_witness :
  exists tweet,
    VStr (String.substring 0 277 (text 300) +:+ "...") = VStr tweet /\
    (String.length tweet <= 280)%nat.
Proof.
  destruct (twitter_output_fits (VObj [("content", VStr (text 300))])
              (VStr (String.substring 0 277 (text 300) +:+ "..."))
              ltac:(vm_compute; reflexivity)) as (t & Ht & Hlen & _).
  exists t. split; [exact Ht|exact Hlen].
Defined.

(** *** [message:new] *)


